(** * The plan / execute / reflect loop of the Local Agent Dashboard

    A shallow embedding of [agent/graph.py] (the LangGraph workflow
    [AgentGraph]) and of [agent/tools.py] (the MCP client, the five tool
    functions and the registry [AVAILABLE_TOOLS]), followed by the
    endpoints of [mcp_server/server.py], the JSON memory of
    [agent/memory.py] and the webhook handler of [agent/main.py].

    - A Python [str] is modelled as the [string] of the bytes of its
      UTF-8 encoding; whitespace is what [str.isspace] accepts, in that
      encoding.
    - Values that come back from [json.loads] or from the MCP server are
      the inductive [json].
    - The language model and the MCP server are the two fields of
      [Services]; every call is numbered, so two calls with the same
      prompt may answer differently.
    - Library code the repository only calls ([json.loads], [json.dumps],
      the [repr] of containers, the text of interpreter exceptions) is a
      field of [Python]; the step budget of the graph engine is the
      argument [recursion_limit].
    - A node is a computation in [M]: it threads the call counters
      [World] and either returns or raises. *)

From Stdlib Require Import String Ascii List ZArith Lia Bool Arith DecimalString.
Import ListNotations.
Open Scope string_scope.

Set Implicit Arguments.
#[local] Set Warnings "-register-all".

(** ** Text *)

Definition dq : string := String (ascii_of_nat 34) EmptyString.
Definition nl : string := String (ascii_of_nat 10) EmptyString.

(** A text is the UTF-8 encoding of a Python [str], byte by byte.
    Searching for a substring, comparing a prefix and splitting at a
    line feed give the same on the encoding as on the characters. *)
Definition byte_is (n : nat) (c : ascii) : bool :=
  (nat_of_ascii c =? n)%nat.

Definition byte_in (lo hi : nat) (c : ascii) : bool :=
  ((lo <=? nat_of_ascii c)%nat && (nat_of_ascii c <=? hi)%nat).

(** [str.isspace] on the characters of one byte:
    U+0009 .. U+000D and U+001C .. U+0020. *)
Definition is_space (c : ascii) : bool :=
  byte_in 9 13 c || byte_in 28 32 c.

(** On those of two bytes: U+0085 (C2 85) and U+00A0 (C2 A0). *)
Definition is_space2 (c d : ascii) : bool :=
  byte_is 194 c && (byte_is 133 d || byte_is 160 d).

(** On those of three bytes: U+1680 (E1 9A 80), U+2000 .. U+200A
    (E2 80 80 .. E2 80 8A), U+2028, U+2029, U+202F (E2 80 A8, A9, AF),
    U+205F (E2 81 9F) and U+3000 (E3 80 80).  No character of four
    bytes is whitespace. *)
Definition is_space3 (c d e : ascii) : bool :=
  (byte_is 225 c && byte_is 154 d && byte_is 128 e)
  || (byte_is 226 c && byte_is 128 d
      && (byte_in 128 138 e || byte_is 168 e || byte_is 169 e || byte_is 175 e))
  || (byte_is 226 c && byte_is 129 d && byte_is 159 e)
  || (byte_is 227 c && byte_is 128 d && byte_is 128 e).

(** [s.lstrip()] *)
Fixpoint lstrip (s : string) : string :=
  match s with
  | EmptyString => EmptyString
  | String c t =>
      if is_space c then lstrip t
      else
        match t with
        | String d t2 =>
            if is_space2 c d then lstrip t2
            else
              match t2 with
              | String e t3 => if is_space3 c d e then lstrip t3 else s
              | EmptyString => s
              end
        | EmptyString => s
        end
  end.

(** [s.isspace()], or [s] is empty. *)
Definition all_space (s : string) : bool :=
  match lstrip s with EmptyString => true | String _ _ => false end.

(** [s.rstrip()]: what is left when the longest end of [s] that is
    whitespace only is cut off. *)
Fixpoint rstrip (s : string) : string :=
  match s with
  | EmptyString => EmptyString
  | String c t => if all_space s then EmptyString else String c (rstrip t)
  end.

(** [s.strip()] *)
Definition strip (s : string) : string := rstrip (lstrip s).

Definition upper_ascii (c : ascii) : ascii :=
  let n := nat_of_ascii c in
  if (97 <=? n)%nat && (n <=? 122)%nat then ascii_of_nat (n - 32) else c.

(** [s.upper()] on the letters a to z; every other byte is left as it
    is.  [str.upper] also maps letters outside ASCII, but the code only
    searches the result for "DONE", and none of those maps yields a D,
    an O or an E, or an N that follows an O (the upper case of U+0149
    is U+02BC followed by N), so the search finds the same. *)
Fixpoint upper (s : string) : string :=
  match s with
  | EmptyString => EmptyString
  | String c t => String (upper_ascii c) (upper t)
  end.

(** [needle in hay] on two strings. *)
Fixpoint contains (needle hay : string) : bool :=
  prefix needle hay ||
  match hay with
  | EmptyString => false
  | String _ t => contains needle t
  end.

(** [s.split('\n')] *)
Fixpoint split_lines (s : string) : list string :=
  match s with
  | EmptyString => [EmptyString]
  | String c t =>
      if Ascii.eqb c (ascii_of_nat 10) then EmptyString :: split_lines t
      else match split_lines t with
           | h :: r => String c h :: r
           | [] => [String c EmptyString]
           end
  end.

(** [str(n)] for a non-negative integer, [str(z)] for an integer. *)
Definition str_nat (n : nat) : string := NilEmpty.string_of_uint (Nat.to_uint n).
Definition str_Z (z : Z) : string := NilZero.string_of_int (Z.to_int z).

(** [sep.join(l)] *)
Definition join (sep : string) (l : list string) : string := String.concat sep l.

Definition nonempty (s : string) : bool :=
  match s with EmptyString => false | _ => true end.

(** ** Python values and exceptions *)

Inductive json : Type :=
| JNull
| JBool (b : bool)
| JInt (z : Z)
| JFloat (literal : string)
| JStr (s : string)
| JArr (items : list json)
| JObj (fields : list (string * json)).

Inductive type_error : Type :=
| Unhashable (v : json)
| NotIterable (v : json)
| NoLen (v : json)
| BadIndex (v : json)
| NotAMapping (v : json)
| BadArguments (function : string) (kwargs : list (string * json)).

Inductive exn : Type :=
| LLMError (msg : string)
| HTTPError (msg : string)
| JSONDecodeError (msg : string)
| AttributeError (v : json) (attr : string)
| KeyError (key : string)
| TypeError (t : type_error)
| GraphRecursionError (limit : nat)
| ValueError (msg : string).

Inductive outcome (A : Type) : Type :=
| Ok (a : A)
| Raise (e : exn).
Arguments Raise {A} e.

(** One entry of [tool_results]: a dict with some of the keys
    ["step"], ["tool"], ["result"], ["error"]. *)
Record StepResult : Type := {
  step : option string;
  tool : option string;
  result : option string;
  error : option string
}.

(** What the code takes from the Python runtime and its libraries. *)
Record Python : Type := {
  json_loads : string -> outcome json;
  json_dumps : list StepResult -> string;
  repr : json -> string;
  exn_message : exn -> string
}.

(** The two remote services; the first argument is the number of calls
    made before this one. *)
Inductive llm_reply : Type :=
| Content (text : string)
| LLMFails (msg : string).

Inductive http_reply : Type :=
| Body (v : json)
| HTTPFails (msg : string).

Record Services : Type := {
  llm : nat -> string -> llm_reply;
  mcp : nat -> string -> json -> http_reply
}.

Record World : Type := {
  llm_calls : nat;
  mcp_calls : nat
}.

Definition world0 : World := {| llm_calls := 0; mcp_calls := 0 |}.

(** ** The monad of node code *)

Definition M (A : Type) : Type := World -> outcome A * World.

Definition ret {A} (a : A) : M A := fun w => (Ok a, w).

Definition raise {A} (e : exn) : M A := fun w => (Raise e, w).

Definition bind {A B} (c : M A) (k : A -> M B) : M B :=
  fun w =>
    match c w with
    | (Ok a, w') => k a w'
    | (Raise e, w') => (Raise e, w')
    end.

(** [try: body  except Exception as e: handler(e)] *)
Definition try_except {A} (body : M A) (handler : exn -> M A) : M A :=
  fun w =>
    match body w with
    | (Ok a, w') => (Ok a, w')
    | (Raise e, w') => handler e w'
    end.

Definition lift {A} (o : outcome A) : M A := fun w => (o, w).

Notation "x <- c ;; k" := (bind c (fun x => k))
  (at level 61, c at next level, right associativity).

(** ** Operations of Python objects the tool code relies on *)

Fixpoint lookup {A} (k : string) (d : list (string * A)) : option A :=
  match d with
  | [] => None
  | (k', v) :: r => if String.eqb k k' then Some v else lookup k r
  end.

Definition has_key {A} (k : string) (d : list (string * A)) : bool :=
  match lookup k d with Some _ => true | None => false end.

Definition is_str (s : string) (v : json) : bool :=
  match v with JStr t => String.eqb s t | _ => false end.

(** [key in v] *)
Definition py_in (key : string) (v : json) : outcome bool :=
  match v with
  | JObj d => Ok (has_key key d)
  | JArr l => Ok (existsb (is_str key) l)
  | JStr t => Ok (contains key t)
  | _ => Raise (TypeError (NotIterable v))
  end.

(** [v[key]] for a string key *)
Definition py_getitem (v : json) (key : string) : outcome json :=
  match v with
  | JObj d =>
      match lookup key d with
      | Some x => Ok x
      | None => Raise (KeyError key)
      end
  | _ => Raise (TypeError (BadIndex v))
  end.

(** [v.get(key, default)] *)
Definition py_get (v : json) (key : string) (default : json) : outcome json :=
  match v with
  | JObj d =>
      match lookup key d with
      | Some x => Ok x
      | None => Ok default
      end
  | _ => Raise (AttributeError v "get")
  end.

(** [len(v)] *)
Definition py_len (v : json) : outcome nat :=
  match v with
  | JArr l => Ok (List.length l)
  | JObj d => Ok (List.length d)
  | JStr s => Ok (String.length s)
  | _ => Raise (TypeError (NoLen v))
  end.

(** ** The workflow state and the updates nodes return *)

Record Message : Type := {
  role : string;
  content : string
}.

(** [AgentState] of [agent/graph.py]. *)
Record AgentState : Type := {
  messages : list Message;
  current_task : string;
  plan : list string;
  tool_results : list StepResult;
  iteration : nat;
  finished : bool
}.

(** The dict a node returns: a key that is absent is [None]. *)
Record Update : Type := {
  u_messages : option (list Message);
  u_plan : option (list string);
  u_tool_results : option (list StepResult);
  u_iteration : option nat;
  u_finished : option bool
}.

Definition overwrite {A} (old : A) (new : option A) : A :=
  match new with Some x => x | None => old end.

(** The channels annotated with [operator.add] concatenate. *)
Definition add {A} (old : list A) (new : option (list A)) : list A :=
  match new with Some l => old ++ l | None => old end.

Definition apply_update (st : AgentState) (u : Update) : AgentState :=
  {| messages := add (messages st) (u_messages u);
     current_task := current_task st;
     plan := overwrite (plan st) (u_plan u);
     tool_results := add (tool_results st) (u_tool_results u);
     iteration := overwrite (iteration st) (u_iteration u);
     finished := overwrite (finished st) (u_finished u) |}.

(** The dict [AgentGraph.run] returns. *)
Record RunOutput : Type := {
  status : string;
  out_results : option (list StepResult);
  out_plan : option (list string);
  out_messages : option (list Message);
  out_error : option string
}.

Inductive node : Type := NPlan | NExecute | NReflect.

Inductive target : Type :=
| Node (n : node)
| END.

Section Agent.

Variable py : Python.
Variable env : Services.

(** [str(e)] *)
Definition str_exn (e : exn) : string :=
  match e with
  | LLMError msg | HTTPError msg | JSONDecodeError msg | ValueError msg => msg
  | _ => exn_message py e
  end.

(** [str(v)], as an f-string formats a value. *)
Definition py_str (v : json) : string :=
  match v with
  | JNull => "None"
  | JBool true => "True"
  | JBool false => "False"
  | JInt z => str_Z z
  | JFloat literal => literal
  | JStr s => s
  | JArr _ | JObj _ => repr py v
  end.

(** [await self.llm.ainvoke(prompt)], then [response.content] *)
Definition llm_ainvoke (prompt : string) : M string :=
  fun w =>
    let w' := {| llm_calls := S (llm_calls w); mcp_calls := mcp_calls w |} in
    match llm env (llm_calls w) prompt with
    | Content text => (Ok text, w')
    | LLMFails msg => (Raise (LLMError msg), w')
    end.

(** ** [agent/tools.py] *)

(** The body of the [try] of [MCPClient.call_tool]. *)
Definition http_post (tool_name : string) (parameters : json) : M json :=
  fun w =>
    let w' := {| llm_calls := llm_calls w; mcp_calls := S (mcp_calls w) |} in
    match mcp env (mcp_calls w) tool_name parameters with
    | Body v => (Ok v, w')
    | HTTPFails msg => (Raise (HTTPError msg), w')
    end.

Definition call_tool (tool_name : string) (parameters : json) : M json :=
  try_except
    (http_post tool_name parameters)
    (fun e => ret (JObj [("error", JStr (str_exn e))])).

(** [if "error" in result: return f"Error: {result['error']}"], then the
    rest of the function. *)
Definition unless_error (result : json) (rest : M string) : M string :=
  has_error <- lift (py_in "error" result) ;;
  if (has_error : bool) then
    err <- lift (py_getitem result "error") ;;
    ret ("Error: " ++ py_str err)
  else rest.

(** A tool function receives the keyword arguments [**parameters]; the
    client is passed by position, so a keyword of that name, or a missing
    required one, is a [TypeError]. *)
Definition bad_call {A} (function : string) (kwargs : list (string * json)) : M A :=
  raise (TypeError (BadArguments function kwargs)).

Definition docker_list_containers (kwargs : list (string * json)) : M string :=
  if has_key "mcp_client" kwargs then bad_call "docker_list_containers" kwargs
  else
    result <- call_tool "docker_list" (JObj kwargs) ;;
    unless_error result
      (containers <- lift (py_get result "containers" (JArr [])) ;;
       n <- lift (py_len containers) ;;
       ret ("Found " ++ str_nat n ++ " containers: " ++ py_str containers)).

Definition docker_exec_command (kwargs : list (string * json)) : M string :=
  match has_key "mcp_client" kwargs,
        lookup "container_id" kwargs, lookup "command" kwargs with
  | false, Some container_id, Some command =>
      result <- call_tool "docker_exec"
                  (JObj [("container_id", container_id); ("command", command)]) ;;
      unless_error result
        (output <- lift (py_get result "output" (JStr EmptyString)) ;;
         ret ("Command output: " ++ py_str output))
  | _, _, _ => bad_call "docker_exec_command" kwargs
  end.

Definition filesystem_read (kwargs : list (string * json)) : M string :=
  match has_key "mcp_client" kwargs, lookup "path" kwargs with
  | false, Some path =>
      result <- call_tool "filesystem_read" (JObj [("path", path)]) ;;
      unless_error result
        (contents <- lift (py_get result "content" (JStr EmptyString)) ;;
         ret ("File contents: " ++ py_str contents))
  | _, _ => bad_call "filesystem_read" kwargs
  end.

Definition filesystem_write (kwargs : list (string * json)) : M string :=
  match has_key "mcp_client" kwargs,
        lookup "path" kwargs, lookup "content" kwargs with
  | false, Some path, Some contents =>
      result <- call_tool "filesystem_write"
                  (JObj [("path", path); ("content", contents)]) ;;
      unless_error result
        (ret ("Successfully wrote to " ++ py_str path))
  | _, _, _ => bad_call "filesystem_write" kwargs
  end.

Definition filesystem_list (kwargs : list (string * json)) : M string :=
  match has_key "mcp_client" kwargs, lookup "path" kwargs with
  | false, Some path =>
      result <- call_tool "filesystem_list" (JObj [("path", path)]) ;;
      unless_error result
        (files <- lift (py_get result "files" (JArr [])) ;;
         n <- lift (py_len files) ;;
         ret ("Found " ++ str_nat n ++ " items: " ++ py_str files))
  | _, _ => bad_call "filesystem_list" kwargs
  end.

Record ToolInfo : Type := {
  function : list (string * json) -> M string;
  description : string;
  parameters : list (string * string)
}.

(** The registry, in the order the dict literal lists it. *)
Definition AVAILABLE_TOOLS : list (string * ToolInfo) :=
  [ ("docker_list_containers",
     {| function := docker_list_containers;
        description := "List all Docker containers (running and stopped)";
        parameters := [] |});
    ("docker_exec_command",
     {| function := docker_exec_command;
        description := "Execute a command inside a Docker container";
        parameters := [("container_id", "ID of the container");
                       ("command", "Command to execute")] |});
    ("filesystem_read",
     {| function := filesystem_read;
        description := "Read contents of a file";
        parameters := [("path", "Path to the file")] |});
    ("filesystem_write",
     {| function := filesystem_write;
        description := "Write content to a file";
        parameters := [("path", "Path to the file");
                       ("content", "Content to write")] |});
    ("filesystem_list",
     {| function := filesystem_list;
        description := "List contents of a directory";
        parameters := [("path", "Path to the directory")] |}) ].

(** [tool_name in AVAILABLE_TOOLS], and the entry when it is there: a
    list or a dict cannot be hashed, any other value that is not one of
    the keys is absent. *)
Definition registry_find (tool_name : json) : outcome (option (string * ToolInfo)) :=
  match tool_name with
  | JStr name =>
      match lookup name AVAILABLE_TOOLS with
      | Some info => Ok (Some (name, info))
      | None => Ok None
      end
  | JArr _ | JObj _ => Raise (TypeError (Unhashable tool_name))
  | _ => Ok None
  end.

(** [tool_func(self.mcp_client, **parameters)] *)
Definition call_with (tool_func : list (string * json) -> M string)
    (params : json) : M string :=
  match params with
  | JObj kwargs => tool_func kwargs
  | _ => raise (TypeError (NotAMapping params))
  end.

(** ** [agent/graph.py]: the three nodes *)

Definition assistant (text : string) : Message :=
  {| role := "assistant"; content := text |}.

Definition tool_descriptions : string :=
  join nl (map (fun entry => "- " ++ fst entry ++ ": " ++ description (snd entry))
               AVAILABLE_TOOLS).

Definition plan_prompt (st : AgentState) : string :=
  "You are an autonomous AI agent. Your current task is:" ++ nl ++
  current_task st ++ nl ++
  nl ++
  "Available tools:" ++ nl ++
  tool_descriptions ++ nl ++
  nl ++
  "Previous results:" ++ nl ++
  json_dumps py (tool_results st) ++ nl ++
  nl ++
  "Create a step-by-step plan to accomplish this task. Be specific and practical." ++ nl ++
  "Output your plan as a numbered list.".

(** [any(s.startswith(f"{i}.") for i in range(1, 20))] *)
Definition is_numbered (s : string) : bool :=
  existsb (fun i => prefix (str_nat i ++ ".") s) (seq 1 19).

Definition parse_plan (plan_text : string) : list string :=
  map strip
      (filter (fun line => nonempty (strip line) && is_numbered (strip line))
              (split_lines plan_text)).

Definition plan_node (st : AgentState) : M Update :=
  let prompt := plan_prompt st in
  try_except
    (plan_text <- llm_ainvoke prompt ;;
     let plan_steps := parse_plan plan_text in
     ret {| u_plan := Some plan_steps;
            u_messages := Some [assistant ("Plan: " ++ plan_text)];
            u_tool_results := None; u_iteration := None; u_finished := None |})
    (fun e =>
     ret {| u_plan := Some ["Error in planning"];
            u_messages := Some [assistant ("Planning error: " ++ str_exn e)];
            u_tool_results := None; u_iteration := None; u_finished := None |}).

Definition no_plan_result : StepResult :=
  {| step := None; tool := None; result := None;
     error := Some "No plan available" |}.

Definition tool_result (current_step tool_name output : string) : StepResult :=
  {| step := Some current_step; tool := Some tool_name;
     result := Some output; error := None |}.

Definition error_result (current_step msg : string) : StepResult :=
  {| step := Some current_step; tool := None; result := None;
     error := Some msg |}.

(** The update of a step that ran: one result, cursor plus one. *)
Definition advance (current_iteration : nat) (r : StepResult) : Update :=
  {| u_tool_results := Some [r];
     u_iteration := Some (current_iteration + 1);
     u_messages := None; u_plan := None; u_finished := None |}.

Definition finish (b : bool) : Update :=
  {| u_finished := Some b;
     u_messages := None; u_plan := None; u_tool_results := None;
     u_iteration := None |}.

Definition execute_prompt (current_step : string) : string :=
  "Based on this step: " ++ dq ++ current_step ++ dq ++ nl ++
  nl ++
  "Available tools: " ++ join ", " (map fst AVAILABLE_TOOLS) ++ nl ++
  nl ++
  "Which tool should be used? Respond with ONLY the tool name and parameters in JSON format." ++ nl ++
  "Example: {" ++ dq ++ "tool" ++ dq ++ ": " ++ dq ++ "docker_list_containers" ++ dq ++
  ", " ++ dq ++ "parameters" ++ dq ++ ": {}}".

Definition execute_node (st : AgentState) : M Update :=
  match plan st with
  | [] =>
      ret {| u_tool_results := Some [no_plan_result];
             u_messages := None; u_plan := None; u_iteration := None;
             u_finished := None |}
  | _ :: _ =>
      let current_iteration := iteration st in
      if (List.length (plan st) <=? current_iteration)%nat then ret (finish true)
      else
        let current_step := nth current_iteration (plan st) EmptyString in
        let prompt := execute_prompt current_step in
        try_except
          (response <- llm_ainvoke prompt ;;
           tool_decision <- lift (json_loads py (strip response)) ;;
           tool_name <- lift (py_get tool_decision "tool" JNull) ;;
           params <- lift (py_get tool_decision "parameters" (JObj [])) ;;
           found <- lift (registry_find tool_name) ;;
           match found with
           | Some (name, info) =>
               let tool_func := function info in
               output <- call_with tool_func params ;;
               ret (advance current_iteration (tool_result current_step name output))
           | None =>
               ret (advance current_iteration
                      (error_result current_step ("Unknown tool: " ++ py_str tool_name)))
           end)
          (fun e =>
           ret (advance current_iteration (error_result current_step (str_exn e))))
  end.

Definition max_iterations : nat := 10.

(** [l[-3:]] *)
Definition last3 {A} (l : list A) : list A := skipn (List.length l - 3) l.

Definition reflect_prompt (st : AgentState) : string :=
  "Review the recent execution results:" ++ nl ++
  json_dumps py (last3 (tool_results st)) ++ nl ++
  nl ++
  "Current iteration: " ++ str_nat (iteration st) ++ " of max " ++
  str_nat max_iterations ++ nl ++
  "Remaining steps: " ++ str_nat (List.length (plan st) - iteration st) ++ nl ++
  nl ++
  "Should we continue with the plan or are we done? Respond with " ++
  dq ++ "CONTINUE" ++ dq ++ " or " ++ dq ++ "DONE" ++ dq ++ ".".

Definition reflect_node (st : AgentState) : M Update :=
  let current_iteration := iteration st in
  if (List.length (plan st) <=? current_iteration)%nat
     || (max_iterations <=? current_iteration)%nat
  then ret (finish true)
  else
    let prompt := reflect_prompt st in
    try_except
      (response <- llm_ainvoke prompt ;;
       let decision := upper (strip response) in
       if contains "DONE" decision then ret (finish true)
       else ret (finish false))
      (fun e => ret (finish true)).

(** ** The graph *)

Definition should_continue (st : AgentState) : string :=
  if finished st then "end" else "continue".

(** What [add_edge] and [add_conditional_edges] record for a node. *)
Inductive edge : Type :=
| Always (t : target)
| Conditional (router : AgentState -> string) (mapping : list (string * target)).

Record StateGraph : Type := {
  entry : target;
  edges : node -> edge
}.

(** The entry point and the edges [_build_graph] declares. *)
Definition build_graph : StateGraph :=
  {| entry := Node NPlan;
     edges := fun n =>
       match n with
       | NPlan => Always (Node NExecute)
       | NExecute => Always (Node NReflect)
       | NReflect =>
           Conditional should_continue
             [("continue", Node NPlan); ("end", END)]
       end |}.

Definition entry_point : target := entry build_graph.

(** The functions [_build_graph] registers with [add_node]. *)
Definition run_node (n : node) : AgentState -> M Update :=
  match n with
  | NPlan => plan_node
  | NExecute => execute_node
  | NReflect => reflect_node
  end.

(** The node that follows [n] once its update is merged into [st]. *)
Definition next_target (n : node) (st : AgentState) : target :=
  match edges build_graph n with
  | Always t => t
  | Conditional router mapping =>
      match lookup (router st) mapping with
      | Some t => t
      | None => END
      end
  end.

(** One super-step of the engine: run the node, merge what it returns
    into the state, follow the edge. *)
Definition graph_step (n : node) (st : AgentState) : M (target * AgentState) :=
  u <- run_node n st ;;
  let st' := apply_update st u in
  ret (next_target n st', st').

(** The compiled graph run for [k] super-steps, stopping early at [END]. *)
Fixpoint graph_steps (k : nat) (t : target) (st : AgentState)
  : M (target * AgentState) :=
  match k, t with
  | S k', Node n =>
      c <- graph_step n st ;;
      graph_steps k' (fst c) (snd c)
  | _, _ => ret (t, st)
  end.

(** [graph.ainvoke]: the engine runs at most [recursion_limit]
    super-steps, and it is at the start of the next one that it finds
    nothing left to run and returns.  When the budget is used up before
    that it raises [GraphRecursionError], also when the super-step it
    ran last was the last one of the graph. *)
Fixpoint graph_loop (recursion_limit fuel : nat) (t : target) (st : AgentState)
  : M AgentState :=
  match fuel with
  | 0 => raise (GraphRecursionError recursion_limit)
  | S fuel' =>
      match t with
      | END => ret st
      | Node n =>
          c <- graph_step n st ;;
          graph_loop recursion_limit fuel' (fst c) (snd c)
      end
  end.

(** The engine refuses a limit below 1 before it runs anything. *)
Definition ainvoke (recursion_limit : nat) (st : AgentState) : M AgentState :=
  if (recursion_limit <? 1)%nat
  then raise (ValueError "recursion_limit must be at least 1")
  else graph_loop recursion_limit recursion_limit entry_point st.

Definition initial_state (task : string) : AgentState :=
  {| messages := [{| role := "user"; content := task |}];
     current_task := task;
     plan := [];
     tool_results := [];
     iteration := 0;
     finished := false |}.

Definition run (recursion_limit : nat) (task : string) : M RunOutput :=
  try_except
    (final_state <- ainvoke recursion_limit (initial_state task) ;;
     ret {| status := "success";
            out_results := Some (tool_results final_state);
            out_plan := Some (plan final_state);
            out_messages := Some (messages final_state);
            out_error := None |})
    (fun e =>
     ret {| status := "error";
            out_error := Some (str_exn e);
            out_results := None; out_plan := None; out_messages := None |}).

End Agent.

(** ** Concrete runtimes and services for the scenarios *)

Definition quoted (s : string) : string := dq ++ s ++ dq.

(** The text [{"tool":"<name>","parameters":{}}]. *)
Definition tool_choice_text (name : string) : string :=
  "{" ++ quoted "tool" ++ ":" ++ quoted name ++ "," ++
  quoted "parameters" ++ ":{}}".

Definition tool_choice (name : string) : json :=
  JObj [("tool", JStr name); ("parameters", JObj [])].

(** A decoder that knows the two tool choices of the scenarios and
    rejects every other text. *)
Definition demo_json_loads (s : string) : outcome json :=
  if String.eqb s (tool_choice_text "docker_list_containers")
  then Ok (tool_choice "docker_list_containers")
  else if String.eqb s (tool_choice_text "nonexistent_tool")
  then Ok (tool_choice "nonexistent_tool")
  else Raise (JSONDecodeError "Expecting value: line 1 column 1 (char 0)").

Definition demo_python : Python :=
  {| json_loads := demo_json_loads;
     json_dumps := fun _ => "[...]";
     repr := fun _ => "[...]";
     exn_message := fun e =>
       match e with
       | GraphRecursionError n =>
           "Recursion limit of " ++ str_nat n ++ " reached without hitting a stop condition"
       | _ => "error"
       end |}.

Definition container (id name : string) : json :=
  JObj [("id", JStr id); ("name", JStr name);
        ("status", JStr "running"); ("image", JStr "nginx:latest")].

Definition two_containers : json :=
  JObj [("containers",
         JArr [container "0123456789ab" "web"; container "ba9876543210" "db"])].

(** Which of the three prompts a text is. *)
Definition is_plan_prompt (prompt : string) : bool := prefix "You are an autonomous" prompt.
Definition is_execute_prompt (prompt : string) : bool := prefix "Based on this step" prompt.
Definition is_reflect_prompt (prompt : string) : bool := prefix "Review the recent" prompt.

(** A model that answers each prompt kind with a fixed text. *)
Definition scripted_llm (plan_text choice decision : string) (prompt : string) : llm_reply :=
  if is_plan_prompt prompt then Content plan_text
  else if is_execute_prompt prompt then Content choice
  else Content decision.

Definition numbered_plan (n : nat) : string :=
  join nl (map (fun i => str_nat i ++ ". List docker containers") (seq 1 n)).

(** Scenario: one step, the registered tool, two containers. *)
Definition list_containers_env : Services :=
  {| llm := fun _ => scripted_llm "1. List docker containers"
                       (tool_choice_text "docker_list_containers") "DONE";
     mcp := fun _ _ _ => Body two_containers |}.

(** Scenario: two steps planned; after the first the model answers the
    reflection prompt in lower case that the work is done. *)
Definition lowercase_done_env : Services :=
  {| llm := fun _ => scripted_llm (numbered_plan 2)
                       (tool_choice_text "docker_list_containers")
                       "  all steps are done.  ";
     mcp := fun _ _ _ => Body two_containers |}.

(** Scenario: one step, a tool that is not registered. *)
Definition unknown_tool_env : Services :=
  {| llm := fun _ => scripted_llm "1. Clean the cache"
                       (tool_choice_text "nonexistent_tool") "DONE";
     mcp := fun _ _ _ => Body two_containers |}.

(** Scenario: the model answers the planning prompt without a numbered
    line, so the parsed plan is empty. *)
Definition no_plan_env : Services :=
  {| llm := fun _ => scripted_llm "I cannot help with that." "{}" "DONE";
     mcp := fun _ _ _ => Body two_containers |}.

(** Scenario: the model is unreachable. *)
Definition offline_env : Services :=
  {| llm := fun _ _ => LLMFails "connection refused";
     mcp := fun _ _ _ => HTTPFails "connection refused" |}.

(** Scenario: a plan of fifteen steps at every planning, every tool
    choice valid, every reflection answering CONTINUE. *)
Definition long_plan_env : Services :=
  {| llm := fun _ => scripted_llm (numbered_plan 15)
                       (tool_choice_text "docker_list_containers") "CONTINUE";
     mcp := fun _ _ _ => Body two_containers |}.

(** Scenario: three steps planned twice, then one step at the third
    planning (the seventh call of the model); reflection answers
    CONTINUE. *)
Definition shrinking_plan_env : Services :=
  {| llm := fun n =>
       scripted_llm (if (n <? 6)%nat then numbered_plan 3 else numbered_plan 1)
         (tool_choice_text "docker_list_containers") "CONTINUE";
     mcp := fun _ _ _ => Body two_containers |}.

(** Scenario: two steps planned; the first is run and reflection
    answers CONTINUE; the second planning (the fourth call of the model)
    fails. *)
Definition replanning_fails_env : Services :=
  {| llm := fun n prompt =>
       if (n =? 3)%nat then LLMFails "connection reset"
       else scripted_llm (numbered_plan 2)
              (tool_choice_text "docker_list_containers") "CONTINUE" prompt;
     mcp := fun _ _ _ => Body two_containers |}.

(** The nodes run in the first [k] super-steps. *)
Fixpoint node_trace (py : Python) (env : Services) (k : nat) (t : target)
    (st : AgentState) : M (list node) :=
  match k, t with
  | S k', Node n =>
      c <- graph_step py env n st ;;
      rest <- node_trace py env k' (fst c) (snd c) ;;
      ret (n :: rest)
  | _, _ => ret []
  end.

(** The results that record a step of the plan carry its text; the
    result of the empty-plan guard does not. *)
Definition is_no_plan (r : StepResult) : bool :=
  match step r with None => true | Some _ => false end.

Definition no_plan_count (l : list StepResult) : nat :=
  List.length (filter is_no_plan l).

(** Exactly one of ["result"] and ["error"] is there. *)
Definition one_of_result_error (r : StepResult) : Prop :=
  (result r <> None /\ error r = None) \/ (result r = None /\ error r <> None).

Definition round : list node := [NPlan; NExecute; NReflect].

(** What the execution node does to the cursor and to the results. *)
Inductive executed (st st' : AgentState) : Prop :=
| executed_no_plan :
    plan st = [] ->
    tool_results st' = (tool_results st ++ [no_plan_result])%list ->
    iteration st' = iteration st ->
    finished st' = finished st ->
    executed st st'
| executed_past_end :
    plan st <> [] -> (List.length (plan st) <= iteration st)%nat ->
    tool_results st' = tool_results st ->
    iteration st' = iteration st ->
    finished st' = true ->
    executed st st'
| executed_step r :
    plan st <> [] -> (iteration st < List.length (plan st))%nat ->
    tool_results st' = (tool_results st ++ [r])%list ->
    step r = Some (nth (iteration st) (plan st) EmptyString) ->
    one_of_result_error r ->
    iteration st' = iteration st + 1 ->
    finished st' = finished st ->
    executed st st'.

(** Following the spec's words: [needle] is a substring of [hay] when
    the case of letters is ignored. *)
Definition same_letter (a b : ascii) : bool :=
  Ascii.eqb (upper_ascii a) (upper_ascii b).

Fixpoint prefix_nocase (needle hay : string) : bool :=
  match needle, hay with
  | EmptyString, _ => true
  | String _ _, EmptyString => false
  | String a n, String b h => same_letter a b && prefix_nocase n h
  end.

Fixpoint contains_nocase (needle hay : string) : bool :=
  prefix_nocase needle hay ||
  match hay with
  | EmptyString => false
  | String _ t => contains_nocase needle t
  end.

(** The whitespace character a text starts with, taken off. *)
Definition skip_space (s : string) : option string :=
  match s with
  | EmptyString => None
  | String c t =>
      if is_space c then Some t
      else
        match t with
        | String d t2 =>
            if is_space2 c d then Some t2
            else
              match t2 with
              | String e t3 => if is_space3 c d e then Some t3 else None
              | EmptyString => None
              end
        | EmptyString => None
        end
  end.

(** A byte that can be part of a whitespace character: one of the
    one-byte ones, or a byte of a longer encoding. *)
Definition space_byte (c : ascii) : bool :=
  is_space c || (128 <=? nat_of_ascii c)%nat.

Fixpoint space_bytes (s : string) : bool :=
  match s with
  | EmptyString => true
  | String c t => space_byte c && space_bytes t
  end.

Fixpoint no_space (s : string) : bool :=
  match s with
  | EmptyString => true
  | String c t => negb (space_byte c) && no_space t
  end.

(** The cap seen from each node: planning and execution are only
    entered below it. *)
Definition cursor_below_cap (t : target) (st : AgentState) : Prop :=
  match t with
  | Node NPlan | Node NExecute => (iteration st < max_iterations)%nat
  | Node NReflect | END => (iteration st <= max_iterations)%nat
  end.

(** Every result is either the record of an advanced step or the
    record of the empty-plan guard. *)
Definition results_counted (st : AgentState) : Prop :=
  List.length (tool_results st) = iteration st + no_plan_count (tool_results st).

(** What a node's update appends to [tool_results]. *)
Definition appended (u : Update) : list StepResult :=
  match u_tool_results u with Some l => l | None => [] end.

Definition bump_llm (w : World) : World :=
  {| llm_calls := S (llm_calls w); mcp_calls := mcp_calls w |}.

Definition bump_mcp (w : World) : World :=
  {| llm_calls := llm_calls w; mcp_calls := S (mcp_calls w) |}.

(** The result [r] records the step at position [i] of the plan that is
    in force in round [i + 1] of the run: of the plan in the state in
    which the execution node is entered for the [i + 1]-th time. *)
Definition round_step (py : Python) (env : Services) (task : string)
    (w0 : World) (i : nat) (r : StepResult) : Prop :=
  exists st w,
    graph_steps py env (3 * i + 1) entry_point (initial_state task) w0
    = (Ok (Node NExecute, st), w)
    /\ iteration st = i
    /\ (i < List.length (plan st))%nat
    /\ step r = nth_error (plan st) i.


(** ** Further definitions: text *)

(** No line feed in the text. *)
Fixpoint no_newline (s : string) : bool :=
  match s with
  | EmptyString => true
  | String c t => negb (Ascii.eqb c (ascii_of_nat 10)) && no_newline t
  end.

(** U+00A0, the no-break space. *)
Definition nbsp : string :=
  String (ascii_of_nat 194) (String (ascii_of_nat 160) EmptyString).

(** A line the plan parser keeps as it is: already stripped, numbered,
    on one line. *)
Definition plan_step (s : string) : Prop :=
  strip s = s /\ is_numbered s = true /\ no_newline s = true.

Definition is_digit (c : ascii) : bool :=
  let n := nat_of_ascii c in (48 <=? n)%nat && (n <=? 57)%nat.

Fixpoint digits_only (s : string) : bool :=
  match s with
  | EmptyString => true
  | String c t => is_digit c && digits_only t
  end.

From Stdlib Require Import DecimalNat.

(** ** Further definitions: tools *)

(** The keyword arguments fit a registered tool: every parameter the
    registry documents is there and none is called [mcp_client]. *)
Definition arguments_fit (info : ToolInfo) (kwargs : list (string * json))
  : bool :=
  forallb (fun p => has_key (fst p) kwargs) (parameters info)
  && negb (has_key "mcp_client" kwargs).

(** The failure a reply of the tool service carries, if any: the text of
    a transport failure, or the value under ["error"] of an object. *)
Definition reply_error (py : Python) (r : http_reply) : option string :=
  match r with
  | HTTPFails msg => Some msg
  | Body (JObj d) =>
      match lookup "error" d with
      | Some v => Some (py_str py v)
      | None => None
      end
  | Body _ => None
  end.

(** What is wrong with a decoded tool selection before the registry is
    consulted: the decoder raised, or the value has no [get]. *)
Definition selection_error (o : outcome json) : option exn :=
  match o with
  | Raise e => Some e
  | Ok (JObj _) => None
  | Ok v => Some (AttributeError v "get")
  end.

(** What is wrong with the chosen parameters of a registered tool. *)
Definition argument_error (name : string) (info : ToolInfo) (params : json)
  : option type_error :=
  match params with
  | JObj kwargs =>
      if arguments_fit info kwargs then None
      else Some (BadArguments name kwargs)
  | _ => Some (NotAMapping params)
  end.

(** The step at the cursor. *)
Definition current_step (st : AgentState) : string :=
  nth (iteration st) (plan st) EmptyString.

(** ** Further scenarios *)

(** The text [{"tool":"filesystem_read","parameters":{"path":"notes.txt"}}]. *)
Definition read_choice_text : string :=
  "{" ++ quoted "tool" ++ ":" ++ quoted "filesystem_read" ++ "," ++
  quoted "parameters" ++ ":{" ++ quoted "path" ++ ":" ++ quoted "notes.txt" ++ "}}".

Definition read_choice : json :=
  JObj [("tool", JStr "filesystem_read");
        ("parameters", JObj [("path", JStr "notes.txt")])].

(** A decoder that knows the tool choices of the further scenarios. *)
Definition scenario_json_loads (s : string) : outcome json :=
  if String.eqb s read_choice_text then Ok read_choice
  else if String.eqb s (tool_choice_text "filesystem_read")
  then Ok (tool_choice "filesystem_read")
  else if String.eqb s "[]" then Ok (JArr [])
  else demo_json_loads s.

Definition scenario_python : Python :=
  {| json_loads := scenario_json_loads;
     json_dumps := json_dumps demo_python;
     repr := repr demo_python;
     exn_message := exn_message demo_python |}.

(** Scenario: the model names the tool in plain words instead of JSON. *)
Definition plain_text_env : Services :=
  {| llm := fun _ => scripted_llm "1. List docker containers"
                       "Use docker_list_containers" "DONE";
     mcp := fun _ _ _ => Body two_containers |}.

(** Scenario: the model chooses filesystem_read without a path. *)
Definition read_without_path_env : Services :=
  {| llm := fun _ => scripted_llm "1. Read the notes"
                       (tool_choice_text "filesystem_read") "DONE";
     mcp := fun _ _ _ => Body two_containers |}.

(** Scenario: the model chooses filesystem_read with a path and the tool
    service is unreachable. *)
Definition read_unreachable_env : Services :=
  {| llm := fun _ => scripted_llm "1. Read the notes" read_choice_text "DONE";
     mcp := fun _ _ _ => HTTPFails "connection refused" |}.

Definition one_step_state (s : string) : AgentState :=
  {| messages := []; current_task := "task"; plan := [s];
     tool_results := []; iteration := 0; finished := false |}.

(** ** Further definitions: runs *)

(** The update of the empty-plan guard. *)
Definition no_plan_update : Update :=
  {| u_tool_results := Some [no_plan_result];
     u_messages := None; u_plan := None; u_iteration := None;
     u_finished := None |}.

(** [st'] continues [st]: results and messages only grew at the end, the
    cursor did not go back, the task is the same. *)
Definition extends (st st' : AgentState) : Prop :=
  (exists l, tool_results st' = tool_results st ++ l)%list
  /\ (exists m, messages st' = (messages st ++ m)%list
                /\ Forall (fun x => role x = "assistant") m)
  /\ (iteration st <= iteration st')%nat
  /\ current_task st' = current_task st.

(** At most one result of the empty-plan guard, and only at the end. *)
Definition one_no_plan (t : target) (st : AgentState) : Prop :=
  match t with
  | Node NPlan | Node NExecute => no_plan_count (tool_results st) = 0
  | Node NReflect =>
      no_plan_count (tool_results st) = 0
      \/ (no_plan_count (tool_results st) = 1 /\ plan st = [])
  | END => (no_plan_count (tool_results st) <= 1)%nat
  end.

Definition is_plan_node (n : node) : bool :=
  match n with NPlan => true | _ => false end.

Definition is_execute_node (n : node) : bool :=
  match n with NExecute => true | _ => false end.

(** How many times a node was run in a trace. *)
Definition planning_count (tr : list node) : nat :=
  List.length (filter is_plan_node tr).

Definition execute_count (tr : list node) : nat :=
  List.length (filter is_execute_node tr).

(** ** [mcp_server/server.py]: the tool service the client talks to *)

(** The methods of [DockerTools] and [FilesystemTools] the endpoints
    call.  They reach the Docker daemon and the file system, so they are
    taken as given; the first argument is the number of earlier
    requests.  Each of them catches its own exceptions and returns a
    dict. *)
Record Backend : Type := {
  list_containers : nat -> json -> json;
  exec_command : nat -> json -> json -> json;
  get_logs : nat -> json -> json -> json;
  inspect_container : nat -> json -> json;
  read_file : nat -> json -> json;
  write_file : nat -> json -> json -> json;
  list_directory : nat -> json -> json;
  delete_file : nat -> json -> json;
  file_exists : nat -> json -> json
}.

(** A status code and, where the model needs it, the JSON body. *)
Inductive http_response : Type :=
| Response (status : nat) (body : option json).

(** [bool(v)]: what [not v] tests. *)
Definition truthy (v : json) : bool :=
  match v with
  | JNull => false
  | JBool b => b
  | JInt z => negb (z =? 0)%Z
  | JFloat literal => negb (String.eqb literal "0.0" || String.eqb literal "-0.0")
  | JStr s => nonempty s
  | JArr [] => false
  | JArr (_ :: _) => true
  | JObj [] => false
  | JObj (_ :: _) => true
  end.

Definition is_none (v : json) : bool :=
  match v with JNull => true | _ => false end.

(** [d.get(key, default)] on a dict. *)
Definition get_param (d : list (string * json)) (key : string) (default : json)
  : json :=
  match lookup key d with Some v => v | None => default end.

(** The body decoded as a [ToolRequest], whose one field is
    [parameters: Optional[Dict[str, Any]] = {}]: the body has to be an
    object, other keys are ignored, a missing [parameters] is the default
    [{}], [null] is [None], anything but an object or [null] does not
    validate.  [None]: the request does not validate; [Some None]: the
    field is [None]. *)
Definition parse_tool_request (body : json)
  : option (option (list (string * json))) :=
  match body with
  | JObj fields =>
      match lookup "parameters" fields with
      | None => Some (Some [])
      | Some JNull => Some None
      | Some (JObj d) => Some (Some d)
      | Some _ => None
      end
  | _ => None
  end.

Module Server.

(** [raise HTTPException(status_code=400, detail=...)] *)
Definition bad_request (detail : string) : http_response :=
  Response 400 (Some (JObj [("detail", JStr detail)])).

Definition ok (result : json) : http_response := Response 200 (Some result).

Section Endpoints.

Variable b : Backend.
Variable n : nat.
Variable parameters : list (string * json).

Definition docker_list : http_response :=
  let all_containers := get_param parameters "all" (JBool true) in
  ok (list_containers b n all_containers).

Definition docker_exec : http_response :=
  let container_id := get_param parameters "container_id" JNull in
  let command := get_param parameters "command" JNull in
  if negb (truthy container_id) || negb (truthy command)
  then bad_request "Missing container_id or command"
  else ok (exec_command b n container_id command).

Definition docker_logs : http_response :=
  let container_id := get_param parameters "container_id" JNull in
  let tail := get_param parameters "tail" (JInt 100) in
  if negb (truthy container_id) then bad_request "Missing container_id"
  else ok (get_logs b n container_id tail).

Definition docker_inspect : http_response :=
  let container_id := get_param parameters "container_id" JNull in
  if negb (truthy container_id) then bad_request "Missing container_id"
  else ok (inspect_container b n container_id).

Definition filesystem_read : http_response :=
  let path := get_param parameters "path" JNull in
  if negb (truthy path) then bad_request "Missing path"
  else ok (read_file b n path).

Definition filesystem_write : http_response :=
  let path := get_param parameters "path" JNull in
  let content := get_param parameters "content" JNull in
  if negb (truthy path) || is_none content
  then bad_request "Missing path or content"
  else ok (write_file b n path content).

Definition filesystem_list : http_response :=
  let path := get_param parameters "path" (JStr ".") in
  ok (list_directory b n path).

Definition filesystem_delete : http_response :=
  let path := get_param parameters "path" JNull in
  if negb (truthy path) then bad_request "Missing path"
  else ok (delete_file b n path).

Definition filesystem_exists : http_response :=
  let path := get_param parameters "path" JNull in
  if negb (truthy path) then bad_request "Missing path"
  else ok (file_exists b n path).

End Endpoints.

(** The routes [@app.post("/tools/<name>")], in the order of the file. *)
Definition routes
  : list (string * (Backend -> nat -> list (string * json) -> http_response)) :=
  [ ("docker_list", docker_list);
    ("docker_exec", docker_exec);
    ("docker_logs", docker_logs);
    ("docker_inspect", docker_inspect);
    ("filesystem_read", filesystem_read);
    ("filesystem_write", filesystem_write);
    ("filesystem_list", filesystem_list);
    ("filesystem_delete", filesystem_delete);
    ("filesystem_exists", filesystem_exists) ].

(** A POST to [/tools/<route>]: no such route is 404; a body that is not
    a [ToolRequest] is 422; with [parameters] being [None] the first
    [request.parameters.get] of every endpoint raises, which is 500. *)
Definition post (b : Backend) (n : nat) (route : string) (body : json)
  : http_response :=
  match lookup route routes with
  | None => Response 404 (Some (JObj [("detail", JStr "Not Found")]))
  | Some endpoint =>
      match parse_tool_request body with
      | None => Response 422 None
      | Some None => Response 500 None
      | Some (Some parameters) => endpoint b n parameters
      end
  end.

End Server.

(** The client's view of a reachable server: [raise_for_status] raises
    on a status of 400 and above, with the text [status_text] gives;
    otherwise [response.json()] is the body. *)
Definition served (b : Backend) (status_text : nat -> string)
  : nat -> string -> json -> http_reply :=
  fun n route body =>
    match Server.post b n route body with
    | Response code answer =>
        if (400 <=? code)%nat then HTTPFails (status_text code)
        else match answer with
             | Some v => Body v
             | None => HTTPFails (status_text code)
             end
    end.

(** A backend for the scenarios: an empty Docker host and a directory
    that holds one file. *)
Definition scenario_backend : Backend :=
  {| list_containers := fun _ _ => JObj [("containers", JArr [])];
     exec_command := fun _ _ _ => JObj [("exit_code", JInt 0); ("output", JStr "ok")];
     get_logs := fun _ _ _ => JObj [("logs", JStr "started")];
     inspect_container := fun _ _ => JObj [("error", JStr "Container web not found")];
     read_file := fun _ _ => JObj [("content", JStr "remember the milk")];
     write_file := fun _ _ _ => JObj [("success", JBool true)];
     list_directory := fun _ path =>
       JObj [("files", JArr [JObj [("name", JStr "notes.txt")]]); ("path", path)];
     delete_file := fun _ _ => JObj [("success", JBool true)];
     file_exists := fun _ _ => JObj [("exists", JBool true)] |}.

Definition scenario_status_text (code : nat) : string :=
  "Client error " ++ str_nat code.

(** Scenario: the agent talks to the server above. *)
Definition served_env : Services :=
  {| llm := fun _ => scripted_llm "1. Read the notes" read_choice_text "DONE";
     mcp := served scenario_backend scenario_status_text |}.

(** ** [agent/memory.py]: the JSON memory of [MemoryStore] *)

Module Memory.

(** [d[key] = value] on a dict: an existing key keeps its place. *)
Fixpoint dict_set (d : list (string * json)) (key : string) (value : json)
  : list (string * json) :=
  match d with
  | [] => [(key, value)]
  | (k, v) :: r =>
      if String.eqb key k then (k, value) :: r
      else (k, v) :: dict_set r key value
  end.

(** What [_load_json_memory] returns when there is no readable file. *)
Definition empty_memory : json :=
  JObj [("facts", JArr []); ("preferences", JObj []); ("context", JObj [])].

(** [self.memory] and the file behind it: [Some v] when the last
    [_save_json_memory] wrote [v], [None] when it failed or nothing was
    written yet. *)
Record MemoryStore : Type := {
  memory : json;
  json_file : option json
}.

(** [_load_json_memory], given what reading the file yields: no file,
    a file that does not load, or the loaded value. *)
Inductive file_content : Type :=
| NoFile
| Unreadable
| Holds (v : json).

Definition load_json_memory (f : file_content) : json :=
  match f with
  | Holds v => v
  | NoFile | Unreadable => empty_memory
  end.

(** [_save_json_memory]: the exception of a failed write is logged and
    swallowed.  [writable] tells whether the write goes through. *)
Definition save_json_memory (writable : bool) (s : MemoryStore) : MemoryStore :=
  {| memory := memory s;
     json_file := if writable then Some (memory s) else None |}.

Definition fact_entry (fact now : string) : json :=
  JObj [("content", JStr fact); ("timestamp", JStr now)].

(** [add_fact(fact)]; [now] is [datetime.now().isoformat()]. *)
Definition add_fact (writable : bool) (now fact : string) (s : MemoryStore)
  : outcome MemoryStore :=
  match py_get (memory s) "facts" (JArr []) with
  | Raise e => Raise e
  | Ok facts =>
      match py_in fact facts with
      | Raise e => Raise e
      | Ok true => Ok s
      | Ok false =>
          match memory s with
          | JObj d =>
              (* [setdefault("facts", [])] gives the list that is there,
                 or puts an empty one; [append] needs a list *)
              match facts with
              | JArr l =>
                  Ok (save_json_memory writable
                        {| memory := JObj (dict_set d "facts"
                                             (JArr (l ++ [fact_entry fact now])));
                           json_file := json_file s |})
              | _ => Raise (AttributeError facts "append")
              end
          | m => Raise (AttributeError m "setdefault")
          end
      end
  end.

(** [update_context(key, value)] *)
Definition update_context (writable : bool) (key : string) (value : json)
    (s : MemoryStore) : outcome MemoryStore :=
  match memory s with
  | JObj d =>
      match lookup "context" d with
      | None =>
          Ok (save_json_memory writable
                {| memory := JObj (dict_set d "context" (JObj [(key, value)]));
                   json_file := json_file s |})
      | Some (JObj c) =>
          Ok (save_json_memory writable
                {| memory := JObj (dict_set d "context" (JObj (dict_set c key value)));
                   json_file := json_file s |})
      | Some other => Raise (TypeError (BadIndex other))
      end
  | m => Raise (AttributeError m "setdefault")
  end.

(** [get_context()] *)
Definition get_context (s : MemoryStore) : outcome json :=
  py_get (memory s) "context" (JObj []).

(** [f["content"]] for every [f] the iteration over [facts] yields. *)
Fixpoint contents (l : list json) : outcome (list json) :=
  match l with
  | [] => Ok []
  | f :: r =>
      match py_getitem f "content" with
      | Raise e => Raise e
      | Ok c =>
          match contents r with
          | Raise e => Raise e
          | Ok cs => Ok (c :: cs)
          end
      end
  end.

(** The characters of a text, each in its encoding: a byte 10xxxxxx
    continues the character before it. *)
Fixpoint characters (s : string) : list string :=
  match s with
  | EmptyString => []
  | String c t =>
      let rest := characters t in
      match t, rest with
      | String d _, h :: r =>
          if byte_in 128 191 d then String c h :: r
          else String c EmptyString :: rest
      | _, _ => String c EmptyString :: rest
      end
  end.

(** [get_facts()]: iterating a dict yields its keys, iterating a string
    its characters; other values cannot be iterated. *)
Definition get_facts (s : MemoryStore) : outcome (list json) :=
  match py_get (memory s) "facts" (JArr []) with
  | Raise e => Raise e
  | Ok (JArr l) => contents l
  | Ok (JObj d) => contents (map (fun kv => JStr (fst kv)) d)
  | Ok (JStr t) => contents (map JStr (characters t))
  | Ok other => Raise (TypeError (NotIterable other))
  end.

(** A memory whose facts were all written by [add_fact]. *)
Definition stored_fact (f : json) : Prop :=
  exists fact now, f = fact_entry fact now.

End Memory.

(** ** The webhook endpoint of the agent service *)

(** The validated request body. *)
Record WebhookTrigger : Type := {
  trigger_id : string;
  action : string;
  trigger_parameters : list (string * json);
  trigger_context : option (list (string * json))
}.

Record AgentResponse : Type := {
  response_trigger_id : string;
  response_status : string;
  response_result : option RunOutput;
  response_error : option string;
  execution_time : Z;
  timestamp : string
}.

(** The [result] column of a conversation: the dict [run] returned, or
    [{"error": msg}]. *)
Inductive stored_result : Type :=
| RunResult (o : RunOutput)
| ErrorResult (msg : string).

(** A row of [conversation_history]; [id] and [timestamp] are filled in
    by the database. *)
Record ConversationHistory : Type := {
  row_trigger_id : string;
  row_action : string;
  row_parameters : list (string * json);
  row_result : stored_result;
  row_status : string
}.

(** What the code takes from SQLAlchemy and the file system: whether a
    commit of a new row goes through, what the query for the [limit]
    most recent rows returns (the list of dicts, or the exception), and
    whether the JSON file can be written. *)
Record Storage : Type := {
  db_commit : list ConversationHistory -> ConversationHistory -> bool;
  db_query : list ConversationHistory -> nat -> outcome json;
  file_writable : Memory.MemoryStore -> bool
}.

(** The readings of [time.time()] at the start and at the end of the
    handler, and [datetime.now()]. *)
Record Clock : Type := {
  time_start : Z;
  time_end : Z;
  datetime_now : string
}.

(** The global instances of the service and the state behind them. *)
Record App : Type := {
  memory_store : Memory.MemoryStore;
  conversation_history : list ConversationHistory;
  world : World
}.

Definition with_world (a : App) (w : World) : App :=
  {| memory_store := memory_store a;
     conversation_history := conversation_history a;
     world := w |}.

Definition with_memory (a : App) (s : Memory.MemoryStore) : App :=
  {| memory_store := s;
     conversation_history := conversation_history a;
     world := world a |}.

Section Webhook.

Variable py : Python.
Variable env : Services.
Variable db : Storage.
Variable recursion_limit : nat.

(** [add_conversation]: a failed commit is logged and rolled back. *)
Definition add_conversation (row : ConversationHistory) (a : App) : App :=
  if db_commit db (conversation_history a) row
  then {| memory_store := memory_store a;
          conversation_history := conversation_history a ++ [row];
          world := world a |}
  else a.

(** [get_recent_conversations(limit)] *)
Definition get_recent_conversations (limit : nat) (a : App) : outcome json :=
  db_query db (conversation_history a) limit.

Definition task_description (trigger : WebhookTrigger)
    (recent_convos context : json) : string :=
  "Action: " ++ action trigger ++ nl ++
  "Parameters: " ++ py_str py (JObj (trigger_parameters trigger)) ++ nl ++
  "Context: " ++ py_str py (match trigger_context trigger with
                            | Some c => JObj c
                            | None => JNull
                            end) ++ nl ++
  nl ++
  "Recent conversation history:" ++ nl ++
  py_str py recent_convos ++ nl ++
  nl ++
  "Memory context:" ++ nl ++
  py_str py context ++ nl.

(** [for key, value in trigger.context.items():
       memory_store.update_context(key, value)] *)
Fixpoint update_all (items : list (string * json)) (a : App)
  : outcome unit * App :=
  match items with
  | [] => (Ok tt, a)
  | (key, value) :: rest =>
      match Memory.update_context (file_writable db (memory_store a))
              key value (memory_store a) with
      | Ok s => update_all rest (with_memory a s)
      | Raise e => (Raise e, a)
      end
  end.

Definition run_row (trigger : WebhookTrigger) (result : RunOutput)
  : ConversationHistory :=
  {| row_trigger_id := trigger_id trigger;
     row_action := action trigger;
     row_parameters := trigger_parameters trigger;
     row_result := RunResult result;
     row_status := if String.eqb (status result) "success"
                   then "success" else "error" |}.

Definition error_row (trigger : WebhookTrigger) (e : exn)
  : ConversationHistory :=
  {| row_trigger_id := trigger_id trigger;
     row_action := action trigger;
     row_parameters := trigger_parameters trigger;
     row_result := ErrorResult (str_exn py e);
     row_status := "error" |}.

(** The [try] block of [handle_webhook]; what was stored before an
    exception stays stored. *)
Definition webhook_body (trigger : WebhookTrigger) (a : App)
  : outcome RunOutput * App :=
  match Memory.get_context (memory_store a) with
  | Raise e => (Raise e, a)
  | Ok context =>
      match get_recent_conversations 5 a with
      | Raise e => (Raise e, a)
      | Ok recent_convos =>
          match run py env recursion_limit
                  (task_description trigger recent_convos context) (world a) with
          | (Raise e, w) => (Raise e, with_world a w)
          | (Ok result, w) =>
              let a1 := add_conversation (run_row trigger result) (with_world a w) in
              match trigger_context trigger with
              | Some ((_ :: _) as items) =>
                  match update_all items a1 with
                  | (Ok _, a2) => (Ok result, a2)
                  | (Raise e, a2) => (Raise e, a2)
                  end
              | _ => (Ok result, a1)
              end
          end
      end
  end.

Definition handle_webhook (clock : Clock) (trigger : WebhookTrigger) (a : App)
  : AgentResponse * App :=
  match webhook_body trigger a with
  | (Ok result, a') =>
      ({| response_trigger_id := trigger_id trigger;
          response_status := "success";
          response_result := Some result;
          response_error := None;
          execution_time := time_end clock - time_start clock;
          timestamp := datetime_now clock |}, a')
  | (Raise e, a') =>
      ({| response_trigger_id := trigger_id trigger;
          response_status := "error";
          response_result := None;
          response_error := Some (str_exn py e);
          execution_time := time_end clock - time_start clock;
          timestamp := datetime_now clock |},
       add_conversation (error_row trigger e) a')
  end.

End Webhook.

(** A store that works, a clock, and a service that has just started on
    a given memory. *)
Definition working_storage : Storage :=
  {| db_commit := fun _ _ => true;
     db_query := fun _ _ => Ok (JArr []);
     file_writable := fun _ => true |}.

Definition scenario_clock : Clock :=
  {| time_start := 1000; time_end := 1042;
     datetime_now := "2024-01-01T10:00:00" |}.

Definition started_on (m : json) : App :=
  {| memory_store := {| Memory.memory := m; Memory.json_file := None |};
     conversation_history := [];
     world := world0 |}.

Definition scenario_trigger (context : option (list (string * json)))
  : WebhookTrigger :=
  {| trigger_id := "t-1";
     action := "list containers";
     trigger_parameters := [];
     trigger_context := context |}.

(** The rows a handler call added. *)
Definition rows_of (trigger : WebhookTrigger) (rows : list ConversationHistory)
  : Prop :=
  Forall (fun r => row_trigger_id r = trigger_id trigger
                   /\ row_action r = action trigger
                   /\ row_parameters r = trigger_parameters trigger) rows.

(** A memory dict whose context can be updated. *)
Definition context_usable (d : list (string * json)) : Prop :=
  lookup "context" d = None \/ exists c, lookup "context" d = Some (JObj c).

(** * Properties *)

Ltac break_match :=
  match goal with
  | |- context [match ?x with _ => _ end] => destruct x eqn:?
  end.

Ltac break_hyp :=
  match goal with
  | H : context [match ?x with _ => _ end] |- _ => destruct x eqn:?
  | H : (_, _) = (_, _) |- _ => inversion H; subst; clear H
  | H : Ok _ = Ok _ |- _ => inversion H; subst; clear H
  | H : Ok _ = Raise _ |- _ => discriminate H
  | H : Raise _ = Ok _ |- _ => discriminate H
  end.

Create HintDb agent.

Lemma one_of_tool_result s n o : one_of_result_error (tool_result s n o).
Proof. left; split; [discriminate | reflexivity]. Qed.

Lemma one_of_error_result s m : one_of_result_error (error_result s m).
Proof. right; split; [reflexivity | discriminate]. Qed.

Lemma one_of_no_plan_result : one_of_result_error no_plan_result.
Proof. right; split; [reflexivity | discriminate]. Qed.

#[export] Hint Resolve one_of_tool_result one_of_error_result one_of_no_plan_result : agent.

(** ** Text: what [strip] removes *)

Lemma lstrip_unfold s :
  lstrip s = match skip_space s with Some r => lstrip r | None => s end.
Proof.
  destruct s as [|c [|d [|e t]]]; cbn [lstrip skip_space]; try reflexivity.
  - now destruct (is_space c).
  - destruct (is_space c); [reflexivity|]. now destruct (is_space2 c d).
  - destruct (is_space c); [reflexivity|].
    destruct (is_space2 c d); [reflexivity|]. now destruct (is_space3 c d e).
Qed.

(** What [skip_space] takes off is one to three bytes, each of them a
    [space_byte]. *)
Lemma is_space_byte c : is_space c = true -> space_byte c = true.
Proof. intros H. unfold space_byte. now rewrite H. Qed.

Lemma byte_is_high n c :
  (128 <= n)%nat -> byte_is n c = true -> space_byte c = true.
Proof.
  unfold byte_is, space_byte. intros L H. apply Nat.eqb_eq in H.
  rewrite H. apply orb_true_iff. right. now apply Nat.leb_le.
Qed.

Lemma byte_in_high lo hi c :
  (128 <= lo)%nat -> byte_in lo hi c = true -> space_byte c = true.
Proof.
  unfold byte_in, space_byte. intros L H.
  apply andb_true_iff in H. destruct H as [H _]. apply Nat.leb_le in H.
  apply orb_true_iff. right. apply Nat.leb_le. lia.
Qed.

Lemma is_space2_bytes c d :
  is_space2 c d = true -> space_byte c = true /\ space_byte d = true.
Proof.
  unfold is_space2. intros H.
  apply andb_true_iff in H. destruct H as [Hc Hd].
  apply orb_true_iff in Hd.
  split; [apply (@byte_is_high 194 c); [lia | exact Hc]|].
  destruct Hd as [Hd|Hd];
    [apply (@byte_is_high 133 d) | apply (@byte_is_high 160 d)]; auto; lia.
Qed.

Lemma is_space3_bytes c d e :
  is_space3 c d e = true ->
  space_byte c = true /\ space_byte d = true /\ space_byte e = true.
Proof.
  unfold is_space3. intros H.
  repeat (apply orb_true_iff in H; destruct H as [H|H]);
    repeat (apply andb_true_iff in H; destruct H as [H ?]);
    repeat match goal with
           | X : (_ || _) = true |- _ => apply orb_true_iff in X; destruct X
           end;
    repeat split;
    solve [ eapply byte_is_high; [|eassumption]; lia
          | eapply byte_in_high; [|eassumption]; lia ].
Qed.

Lemma skip_space_prefix s r :
  skip_space s = Some r ->
  exists p, s = p ++ r /\ space_bytes p = true /\ p <> EmptyString.
Proof.
  destruct s as [|c t]; cbn [skip_space]; [discriminate|].
  destruct (is_space c) eqn:H1.
  { intros E; injection E as <-. exists (String c EmptyString).
    cbn. rewrite (is_space_byte c H1). repeat split. discriminate. }
  destruct t as [|d t2]; [discriminate|].
  destruct (is_space2 c d) eqn:H2.
  { intros E; injection E as <-. destruct (is_space2_bytes c d H2) as [Hc Hd].
    exists (String c (String d EmptyString)).
    cbn. rewrite Hc, Hd. repeat split. discriminate. }
  destruct t2 as [|e t3]; [discriminate|].
  destruct (is_space3 c d e) eqn:H3; [|discriminate].
  intros E; injection E as <-.
  destruct (is_space3_bytes c d e H3) as (Hc & Hd & He).
  exists (String c (String d (String e EmptyString))).
  cbn. rewrite Hc, Hd, He. repeat split. discriminate.
Qed.

Lemma length_append (a b : string) :
  String.length (a ++ b) = String.length a + String.length b.
Proof. induction a as [|c a IH]; cbn; [reflexivity | now rewrite IH]. Qed.

Lemma skip_space_shorter s r :
  skip_space s = Some r -> (String.length r < String.length s)%nat.
Proof.
  intros H. destruct (skip_space_prefix s H) as (p & -> & _ & N).
  rewrite length_append. destruct p; [congruence | cbn; lia].
Qed.

(** Induction along [lstrip]: a property holds of a text when it holds
    of what is left after its first whitespace character. *)
Lemma lstrip_induction (P : string -> Prop) :
  (forall s, (forall r, skip_space s = Some r -> P r) -> P s) ->
  forall s, P s.
Proof.
  intros Step s.
  assert (G : forall n s, (String.length s < n)%nat -> P s).
  { induction n as [|n IH]; intros s0 L; [lia|].
    apply Step. intros r Hr. apply IH.
    apply skip_space_shorter in Hr. lia. }
  apply (G (S (String.length s))). lia.
Qed.

Lemma skip_space_app s r b :
  skip_space s = Some r -> skip_space (s ++ b) = Some (r ++ b).
Proof.
  destruct s as [|c t]; cbn [skip_space append]; [discriminate|].
  destruct (is_space c); [intros E; now injection E as <-|].
  destruct t as [|d t2]; [discriminate|]. cbn [append].
  destruct (is_space2 c d); [intros E; now injection E as <-|].
  destruct t2 as [|e t3]; [discriminate|]. cbn [append].
  destruct (is_space3 c d e); [intros E; now injection E as <-|discriminate].
Qed.

(** What [lstrip] returns starts with no whitespace character. *)
Lemma skip_space_lstrip s : skip_space (lstrip s) = None.
Proof.
  induction s as [s IH] using lstrip_induction.
  rewrite lstrip_unfold. destruct (skip_space s) as [r|] eqn:E; [now apply IH | exact E].
Qed.

Lemma lstrip_fixed s : skip_space s = None -> lstrip s = s.
Proof. intros H. rewrite lstrip_unfold, H. reflexivity. Qed.

Lemma lstrip_app a b : lstrip a = EmptyString -> lstrip (a ++ b) = lstrip b.
Proof.
  induction a as [a IH] using lstrip_induction. intros H.
  rewrite lstrip_unfold in H. destruct (skip_space a) as [r|] eqn:E.
  - rewrite (lstrip_unfold (a ++ b)), (skip_space_app a b E). now apply IH.
  - subst a. reflexivity.
Qed.

Lemma space_bytes_app a b :
  space_bytes a = true -> space_bytes b = true -> space_bytes (a ++ b) = true.
Proof.
  induction a as [|c a IH]; cbn; [auto|]. intros H Hb.
  apply andb_true_iff in H. destruct H as [Hc Ha]. now rewrite Hc, IH.
Qed.

Lemma all_space_bytes s : all_space s = true -> space_bytes s = true.
Proof.
  unfold all_space. induction s as [s IH] using lstrip_induction. intros H.
  rewrite lstrip_unfold in H. destruct (skip_space s) as [r|] eqn:E.
  - destruct (skip_space_prefix s E) as (p & -> & Hp & _).
    apply space_bytes_app; [exact Hp | now apply IH].
  - now destruct s.
Qed.

Lemma rstrip_cons c t :
  (all_space (String c t) = true /\ rstrip (String c t) = EmptyString)
  \/ (all_space (String c t) = false
      /\ rstrip (String c t) = String c (rstrip t)).
Proof.
  cbn [rstrip]. destruct (all_space (String c t)); [now left | now right].
Qed.

(** ** Text: the test of the Reflector is a case-insensitive search *)

Lemma upper_ascii_space c : space_byte c = true -> upper_ascii c = c.
Proof.
  destruct c as [[] [] [] [] [] [] [] []]; intros H;
    try reflexivity; discriminate H.
Qed.

Lemma space_byte_upper_ascii c : space_byte (upper_ascii c) = space_byte c.
Proof. destruct c as [[] [] [] [] [] [] [] []]; reflexivity. Qed.

Lemma same_letter_space a c :
  space_byte a = false -> space_byte c = true -> same_letter a c = false.
Proof.
  intros Ha Hc. unfold same_letter. rewrite (upper_ascii_space c Hc).
  apply Ascii.eqb_neq. intros E.
  rewrite <- space_byte_upper_ascii, E, Hc in Ha. discriminate.
Qed.

Lemma prefix_upper needle hay :
  upper needle = needle ->
  prefix needle (upper hay) = prefix_nocase needle hay.
Proof.
  revert hay. induction needle as [|a n IH]; intros hay U.
  - destruct hay; reflexivity.
  - destruct hay as [|b h]; [reflexivity|].
    cbn in U. injection U as Ua Un.
    cbn [upper prefix prefix_nocase]. unfold same_letter. rewrite Ua.
    destruct (ascii_dec a (upper_ascii b)) as [E|E].
    + rewrite <- E, Ascii.eqb_refl. cbn. now apply IH.
    + apply Ascii.eqb_neq in E. rewrite E. reflexivity.
Qed.

Lemma contains_upper needle hay :
  upper needle = needle ->
  contains needle (upper hay) = contains_nocase needle hay.
Proof.
  intros U. induction hay as [|c t IH].
  - pose proof (prefix_upper EmptyString U) as P. cbn [upper] in P.
    cbn [upper contains contains_nocase]. now rewrite P.
  - pose proof (prefix_upper (String c t) U) as P. cbn [upper] in P.
    cbn [upper contains contains_nocase]. now rewrite P, IH.
Qed.

(** A needle that starts with a byte that is no [space_byte] is not
    found any earlier for the whitespace in front or behind. *)
Lemma contains_nocase_spaces a n p r :
  space_byte a = false -> space_bytes p = true ->
  contains_nocase (String a n) (p ++ r) = contains_nocase (String a n) r.
Proof.
  intros Ha. induction p as [|c p IH]; [reflexivity|].
  cbn [space_bytes]. intros H. apply andb_true_iff in H. destruct H as [Hc Hp].
  cbn [append contains_nocase prefix_nocase].
  rewrite (same_letter_space a c Ha Hc). cbn [andb orb]. now apply IH.
Qed.

Lemma contains_nocase_lstrip a n s :
  space_byte a = false ->
  contains_nocase (String a n) (lstrip s) = contains_nocase (String a n) s.
Proof.
  intros Ha. induction s as [s IH] using lstrip_induction.
  rewrite lstrip_unfold. destruct (skip_space s) as [r|] eqn:E; [|reflexivity].
  rewrite (IH r eq_refl).
  destruct (skip_space_prefix s E) as (p & -> & Hp & _).
  now rewrite contains_nocase_spaces.
Qed.

Lemma prefix_nocase_rstrip needle s :
  no_space needle = true ->
  prefix_nocase needle (rstrip s) = prefix_nocase needle s.
Proof.
  revert s. induction needle as [|a n IH]; intros s N.
  - reflexivity.
  - cbn in N. apply andb_true_iff in N. destruct N as [Ha N].
    apply negb_true_iff in Ha.
    destruct s as [|c t]; [reflexivity|].
    destruct (rstrip_cons c t) as [[A R]|[A R]]; rewrite R.
    + apply all_space_bytes in A. cbn [space_bytes] in A.
      apply andb_true_iff in A. destruct A as [Hc _].
      cbn [prefix_nocase]. now rewrite (same_letter_space a c Ha Hc).
    + cbn [prefix_nocase]. now rewrite (IH t N).
Qed.

Lemma contains_nocase_rstrip a n s :
  no_space (String a n) = true ->
  contains_nocase (String a n) (rstrip s) = contains_nocase (String a n) s.
Proof.
  intros N. induction s as [|c t IH]; [reflexivity|].
  pose proof (@prefix_nocase_rstrip (String a n) (String c t) N) as P.
  destruct (rstrip_cons c t) as [[A R]|[A R]]; rewrite R in *.
  - apply all_space_bytes in A.
    cbn in N. apply andb_true_iff in N. destruct N as [Ha _].
    apply negb_true_iff in Ha.
    pose proof (@contains_nocase_spaces a n (String c t) EmptyString Ha A) as C.
    assert (E : (String c t ++ EmptyString)%string = String c t).
    { clear. induction (String c t) as [|x s IHs]; cbn; [reflexivity | now rewrite IHs]. }
    rewrite E in C. now rewrite C.
  - cbn [contains_nocase]. now rewrite P, IH.
Qed.

(** The Reflector's test [ "DONE" in response.content.strip().upper() ]. *)
Lemma done_test_nocase reply :
  contains "DONE" (upper (strip reply)) = contains_nocase "DONE" reply.
Proof.
  rewrite contains_upper by reflexivity. unfold strip.
  rewrite contains_nocase_rstrip by reflexivity.
  now rewrite contains_nocase_lstrip by reflexivity.
Qed.

Section Facts.

Variable py : Python.
Variable env : Services.

(** *** The nodes one by one *)

(** The planning node always returns, with a plan and one message. *)
Lemma plan_node_returns st w :
  exists p text,
    plan_node py env st w =
      (Ok {| u_plan := Some p; u_messages := Some [assistant text];
             u_tool_results := None; u_iteration := None; u_finished := None |},
       {| llm_calls := S (llm_calls w); mcp_calls := mcp_calls w |})
    /\ (p = ["Error in planning"]
        \/ exists reply, llm env (llm_calls w) (plan_prompt py env st) = Content reply
                         /\ p = parse_plan reply).
Proof.
  unfold plan_node, try_except, bind, llm_ainvoke, ret.
  destruct (llm env (llm_calls w) (plan_prompt py env st)) as [reply|msg] eqn:E.
  - exists (parse_plan reply), ("Plan: " ++ reply). split; [reflexivity|].
    right. exists reply. auto.
  - exists ["Error in planning"], ("Planning error: " ++ str_exn py (LLMError msg)).
    split; [reflexivity | now left].
Qed.

(** A step that runs records one result and moves the cursor by one,
    whatever the model and the tool do. *)
Lemma execute_node_running st w :
  plan st <> [] -> (iteration st < List.length (plan st))%nat ->
  exists r w',
    execute_node py env st w = (Ok (advance (iteration st) r), w')
    /\ step r = Some (nth (iteration st) (plan st) EmptyString)
    /\ one_of_result_error r.
Proof.
  intros Hp Hi. unfold execute_node.
  destruct (plan st) as [|s0 rest] eqn:E; [congruence|].
  apply Nat.leb_gt in Hi. rewrite Hi.
  unfold try_except, bind, lift, llm_ainvoke, ret.
  break_match. destruct o.
  - repeat break_hyp;
      eexists; eexists; (split; [reflexivity|]); split; auto with agent.
  - eexists; eexists; (split; [reflexivity|]); split; auto with agent.
Qed.

Lemma execute_node_past_end st w :
  plan st <> [] -> (List.length (plan st) <= iteration st)%nat ->
  execute_node py env st w = (Ok (finish true), w).
Proof.
  intros Hp Hi. unfold execute_node.
  destruct (plan st) as [|s0 rest] eqn:E; [congruence|].
  apply Nat.leb_le in Hi. now rewrite Hi.
Qed.

Lemma execute_node_no_plan st w :
  plan st = [] ->
  execute_node py env st w =
    (Ok {| u_tool_results := Some [no_plan_result];
           u_messages := None; u_plan := None; u_iteration := None;
           u_finished := None |}, w).
Proof. intros Hp. unfold execute_node. now rewrite Hp. Qed.

(** *** The calls a tool function makes *)

Lemma call_tool_returns tool_name params w :
  call_tool py env tool_name params w =
    (Ok match mcp env (mcp_calls w) tool_name params with
        | Body v => v
        | HTTPFails msg => JObj [("error", JStr msg)]
        end,
     bump_mcp w).
Proof.
  unfold call_tool, try_except, http_post, ret.
  destruct (mcp env (mcp_calls w) tool_name params); reflexivity.
Qed.

(** After the error check the world is the one the rest leaves. *)
Lemma unless_error_world result rest w o w' :
  unless_error py result rest w = (o, w') ->
  w' = w \/ exists o', rest w = (o', w').
Proof.
  unfold unless_error, bind, lift, ret.
  destruct (py_in "error" result) as [[|]|e]; intros H.
  - destruct (py_getitem result "error"); inversion H; auto.
  - right. eauto.
  - inversion H; auto.
Qed.

Lemma lookup_registry name info :
  lookup name (AVAILABLE_TOOLS py env) = Some info ->
  (name = "docker_list_containers"
   /\ info = {| function := docker_list_containers py env;
                description := "List all Docker containers (running and stopped)";
                parameters := [] |})
  \/ (name = "docker_exec_command"
      /\ info = {| function := docker_exec_command py env;
                   description := "Execute a command inside a Docker container";
                   parameters := [("container_id", "ID of the container");
                                  ("command", "Command to execute")] |})
  \/ (name = "filesystem_read"
      /\ info = {| function := filesystem_read py env;
                   description := "Read contents of a file";
                   parameters := [("path", "Path to the file")] |})
  \/ (name = "filesystem_write"
      /\ info = {| function := filesystem_write py env;
                   description := "Write content to a file";
                   parameters := [("path", "Path to the file");
                                  ("content", "Content to write")] |})
  \/ (name = "filesystem_list"
      /\ info = {| function := filesystem_list py env;
                   description := "List contents of a directory";
                   parameters := [("path", "Path to the directory")] |}).
Proof.
  unfold AVAILABLE_TOOLS. cbn [lookup]. intros H.
  repeat match type of H with
         | (if String.eqb ?a ?b then _ else _) = _ =>
             destruct (String.eqb_spec a b) as [E|_];
               [subst; injection H as <-; tauto|]
         end.
  discriminate H.
Qed.

(** A tool function that got past its arguments makes one request and
    nothing else. *)
Lemma tool_body_world tool_name params (k : json -> M string) w o w' :
  (forall result w0 o0 w1, k result w0 = (o0, w1) -> w1 = w0) ->
  (result <- call_tool py env tool_name params ;;
   unless_error py result (k result)) w = (o, w') ->
  w' = bump_mcp w.
Proof.
  intros Hk. unfold bind at 1. rewrite call_tool_returns. intros U.
  apply unless_error_world in U. destruct U as [->|[o' U]]; [reflexivity|].
  now apply Hk in U.
Qed.

Lemma tool_function_calls name info kwargs w o w' :
  lookup name (AVAILABLE_TOOLS py env) = Some info ->
  function info kwargs w = (o, w') ->
  llm_calls w' = llm_calls w
  /\ (mcp_calls w <= mcp_calls w' <= S (mcp_calls w))%nat.
Proof.
  intros H F.
  assert (G : w' = w \/ w' = bump_mcp w).
  { destruct (lookup_registry name H)
      as [[-> ->]|[[-> ->]|[[-> ->]|[[-> ->]|[-> ->]]]]];
      cbn [function] in F.
    - unfold docker_list_containers in F.
      destruct (has_key "mcp_client" kwargs); [inversion F; now left|].
      right. apply tool_body_world in F; [exact F|].
      intros result w0 o0 w1 K. unfold bind, lift, ret in K.
      repeat break_hyp; reflexivity.
    - unfold docker_exec_command in F.
      destruct (has_key "mcp_client" kwargs), (lookup "container_id" kwargs),
        (lookup "command" kwargs); try (inversion F; now left).
      right. apply tool_body_world in F; [exact F|].
      intros result w0 o0 w1 K. unfold bind, lift, ret in K.
      repeat break_hyp; reflexivity.
    - unfold filesystem_read in F.
      destruct (has_key "mcp_client" kwargs), (lookup "path" kwargs);
        try (inversion F; now left).
      right. apply tool_body_world in F; [exact F|].
      intros result w0 o0 w1 K. unfold bind, lift, ret in K.
      repeat break_hyp; reflexivity.
    - unfold filesystem_write in F.
      destruct (has_key "mcp_client" kwargs), (lookup "path" kwargs),
        (lookup "content" kwargs); try (inversion F; now left).
      right. apply tool_body_world in F; [exact F|].
      intros result w0 o0 w1 K. unfold ret in K. now inversion K.
    - unfold filesystem_list in F.
      destruct (has_key "mcp_client" kwargs), (lookup "path" kwargs);
        try (inversion F; now left).
      right. apply tool_body_world in F; [exact F|].
      intros result w0 o0 w1 K. unfold bind, lift, ret in K.
      repeat break_hyp; reflexivity. }
  destruct G as [->| ->]; cbn; split; lia.
Qed.

(** A step that runs asks the model once, for the tool choice, and the
    tool service at most once. *)
Lemma execute_node_calls st w :
  plan st <> [] -> (iteration st < List.length (plan st))%nat ->
  exists r w',
    execute_node py env st w = (Ok (advance (iteration st) r), w')
    /\ step r = Some (nth (iteration st) (plan st) EmptyString)
    /\ one_of_result_error r
    /\ llm_calls w' = S (llm_calls w)
    /\ (mcp_calls w <= mcp_calls w' <= S (mcp_calls w))%nat.
Proof.
  intros Hp Hi. unfold execute_node.
  destruct (plan st) as [|s0 rest] eqn:E; [congruence|].
  apply Nat.leb_gt in Hi. rewrite Hi.
  unfold try_except, bind, lift, llm_ainvoke, ret.
  destruct (llm env (llm_calls w) _) as [reply|msg];
    [|eexists; eexists; split; [reflexivity|]; cbn;
      repeat split; auto with agent; lia].
  destruct (json_loads py (strip reply)) as [d|e];
    [|eexists; eexists; split; [reflexivity|]; cbn;
      repeat split; auto with agent; lia].
  destruct (py_get d "tool" JNull) as [tn|e];
    [|eexists; eexists; split; [reflexivity|]; cbn;
      repeat split; auto with agent; lia].
  destruct (py_get d "parameters" (JObj [])) as [params|e];
    [|eexists; eexists; split; [reflexivity|]; cbn;
      repeat split; auto with agent; lia].
  destruct (registry_find py env tn) as [[[name info]|]|e] eqn:R;
    try (eexists; eexists; split; [reflexivity|]; cbn;
         repeat split; auto with agent; lia).
  assert (Hr : lookup name (AVAILABLE_TOOLS py env) = Some info).
  { unfold registry_find in R. destruct tn; try discriminate R.
    destruct (lookup s (AVAILABLE_TOOLS py env)) eqn:L;
      inversion R; subst; exact L. }
  set (w1 := {| llm_calls := S (llm_calls w); mcp_calls := mcp_calls w |}).
  assert (T : exists o w2,
             call_with (function info) params w1 = (o, w2)
             /\ llm_calls w2 = llm_calls w1
             /\ (mcp_calls w1 <= mcp_calls w2 <= S (mcp_calls w1))%nat).
  { destruct (call_with (function info) params w1) as [o w2] eqn:C.
    exists o, w2. split; [reflexivity|].
    destruct params as [| | | | | |kwargs];
      try (inversion C; subst; split; [reflexivity | lia]).
    cbn [call_with] in C. exact (tool_function_calls name kwargs w1 Hr C). }
  destruct T as (o & w2 & T & L & M). rewrite T.
  destruct o; eexists; eexists; (split; [reflexivity|]);
    cbn [step tool_result error_result]; (split; [reflexivity|]);
    subst w1; cbn in L, M; (split; [auto with agent|]); split; lia.
Qed.

(** The reflection node always returns a verdict; it can only be
    [False] below both bounds. *)
Lemma reflect_node_returns st w :
  exists b w',
    reflect_node py env st w = (Ok (finish b), w')
    /\ (b = false ->
        (iteration st < List.length (plan st))%nat
        /\ (iteration st < max_iterations)%nat).
Proof.
  unfold reflect_node.
  destruct ((List.length (plan st) <=? iteration st)%nat
            || (max_iterations <=? iteration st)%nat) eqn:G.
  - exists true, w. split; [reflexivity | discriminate].
  - apply orb_false_iff in G. destruct G as [G1 G2].
    apply Nat.leb_gt in G1. apply Nat.leb_gt in G2.
    unfold try_except, bind, llm_ainvoke, ret.
    destruct (llm env (llm_calls w) (reflect_prompt py st)) as [reply|msg].
    + destruct (contains "DONE" (upper (strip reply)));
        eexists; eexists; (split; [reflexivity|]); auto; discriminate.
    + eexists; eexists; (split; [reflexivity|]); discriminate.
Qed.

(** *** One super-step from each node *)

Lemma graph_step_plan st w :
  exists st' w',
    graph_step py env NPlan st w = (Ok (Node NExecute, st'), w')
    /\ iteration st' = iteration st
    /\ tool_results st' = tool_results st
    /\ finished st' = finished st.
Proof.
  destruct (plan_node_returns st w) as (p & text & H & _).
  unfold graph_step, bind, ret. cbn [run_node]. rewrite H.
  eexists; eexists; split; [reflexivity|]. cbn. auto.
Qed.

Lemma graph_step_execute st w :
  exists st' w',
    graph_step py env NExecute st w = (Ok (Node NReflect, st'), w')
    /\ plan st' = plan st
    /\ executed st st'.
Proof.
  unfold graph_step, bind, ret. cbn [run_node].
  destruct (plan st) as [|s0 rest] eqn:E.
  - rewrite (execute_node_no_plan st w E).
    eexists; eexists; split; [reflexivity|]. split; [exact E|].
    now apply executed_no_plan.
  - assert (Hp : plan st <> []) by (rewrite E; discriminate).
    destruct (Nat.le_gt_cases (List.length (plan st)) (iteration st)) as [Hi|Hi].
    + rewrite (execute_node_past_end st w Hp Hi).
      eexists; eexists; split; [reflexivity|]. split; [exact E|].
      now apply executed_past_end.
    + destruct (execute_node_running st w Hp Hi) as (r & w' & H & Hs & Ho).
      rewrite H.
      eexists; eexists; split; [reflexivity|]. split; [exact E|].
      now apply executed_step with r.
Qed.

Lemma graph_step_reflect st w :
  exists t st' w',
    graph_step py env NReflect st w = (Ok (t, st'), w')
    /\ plan st' = plan st
    /\ tool_results st' = tool_results st
    /\ iteration st' = iteration st
    /\ ((t = END /\ finished st' = true)
        \/ (t = Node NPlan /\ finished st' = false
            /\ (iteration st < List.length (plan st))%nat
            /\ (iteration st < max_iterations)%nat)).
Proof.
  destruct (reflect_node_returns st w) as (b & w' & H & Hb).
  unfold graph_step, bind, ret. cbn [run_node]. rewrite H.
  eexists; eexists; eexists; split; [reflexivity|].
  cbn. split; [reflexivity|]. split; [reflexivity|]. split; [reflexivity|].
  destruct b; cbn; [left; auto | right].
  destruct (Hb eq_refl). auto.
Qed.

Lemma graph_step_returns n st w :
  exists t st' w', graph_step py env n st w = (Ok (t, st'), w').
Proof.
  destruct n.
  - destruct (graph_step_plan st w) as (st' & w' & H & _); eauto.
  - destruct (graph_step_execute st w) as (st' & w' & H & _); eauto.
  - destruct (graph_step_reflect st w) as (t & st' & w' & H & _); eauto.
Qed.


(** *** Runs of several super-steps *)

Lemma graph_steps_END k st w :
  graph_steps py env k END st w = (Ok (END, st), w).
Proof. destruct k; reflexivity. Qed.

Lemma node_trace_END k st w :
  node_trace py env k END st w = (Ok [], w).
Proof. destruct k; reflexivity. Qed.

(** A property of configurations that every super-step preserves holds
    along every run, and no run is ever stuck on a raising node. *)
Lemma graph_steps_invariant (P : target -> AgentState -> Prop) :
  (forall n st w t' st' w',
      P (Node n) st -> graph_step py env n st w = (Ok (t', st'), w') -> P t' st') ->
  forall k t st w, P t st ->
  exists t' st' w', graph_steps py env k t st w = (Ok (t', st'), w') /\ P t' st'.
Proof.
  intros Hstep. induction k as [|k IH]; intros t st w HP.
  - exists t, st, w. split; [reflexivity | exact HP].
  - destruct t as [n|].
    + destruct (graph_step_returns n st w) as (t1 & st1 & w1 & H1).
      cbn [graph_steps]. unfold bind. rewrite H1. cbn [fst snd].
      apply IH. eapply Hstep; eauto.
    + exists END, st, w. split; [reflexivity | exact HP].
Qed.

Lemma graph_steps_add k f t st w :
  graph_steps py env (k + f) t st w =
    match graph_steps py env k t st w with
    | (Ok c, w') => graph_steps py env f (fst c) (snd c) w'
    | (Raise e, w') => (Raise e, w')
    end.
Proof.
  revert t st w. induction k as [|k IH]; intros t st w.
  - reflexivity.
  - destruct t as [n|].
    + cbn [Nat.add graph_steps]. unfold bind.
      destruct (graph_step py env n st w) as [[c|e] w1]; [apply IH | reflexivity].
    + rewrite !graph_steps_END. cbn [fst snd]. rewrite ?graph_steps_END. reflexivity.
Qed.

Lemma graph_loop_add limit k f t st w :
  graph_loop py env limit (k + S f) t st w =
    match graph_steps py env k t st w with
    | (Ok c, w') => graph_loop py env limit (S f) (fst c) (snd c) w'
    | (Raise e, w') => (Raise e, w')
    end.
Proof.
  revert t st w. induction k as [|k IH]; intros t st w.
  - reflexivity.
  - destruct t as [n|].
    + cbn [Nat.add graph_steps graph_loop]. unfold bind.
      destruct (graph_step py env n st w) as [[c|e] w1]; [apply IH | reflexivity].
    + rewrite graph_steps_END. reflexivity.
Qed.

(** The engine returns the final state when the graph ends in fewer
    super-steps than the budget. *)
Lemma graph_loop_returns limit k fuel t st w stf wf :
  graph_steps py env k t st w = (Ok (END, stf), wf) ->
  (k < fuel)%nat ->
  graph_loop py env limit fuel t st w = (Ok stf, wf).
Proof.
  intros H L. replace fuel with (k + S (fuel - k - 1)) by lia.
  rewrite graph_loop_add, H. reflexivity.
Qed.

Lemma node_trace_add k f t st w t1 st1 w1 tr1 :
  graph_steps py env k t st w = (Ok (t1, st1), w1) ->
  node_trace py env k t st w = (Ok tr1, w1) ->
  node_trace py env (k + f) t st w =
    match node_trace py env f t1 st1 w1 with
    | (Ok tr2, w2) => (Ok (tr1 ++ tr2)%list, w2)
    | (Raise e, w2) => (Raise e, w2)
    end.
Proof.
  revert t st w tr1. induction k as [|k IH]; intros t st w tr1 Hs Ht.
  - cbn in Hs, Ht. inversion Hs; subst. inversion Ht; subst. cbn [Nat.add app].
    destruct (node_trace py env f t1 st1 w1) as [[tr2|e] w2]; reflexivity.
  - destruct t as [n|].
    + cbn [Nat.add graph_steps node_trace] in *. unfold bind, ret in *.
      destruct (graph_step py env n st w) as [[c|e] w0]; [|discriminate].
      destruct (node_trace py env k (fst c) (snd c) w0) as [[tr|e] w0'] eqn:Hk;
        [|discriminate].
      inversion Ht; subst.
      rewrite (IH _ _ _ _ Hs Hk).
      destruct (node_trace py env f t1 st1 w1) as [[tr2|e] w2]; reflexivity.
    + rewrite graph_steps_END in Hs. rewrite node_trace_END in Ht.
      inversion Hs; subst. inversion Ht; subst.
      rewrite !node_trace_END. reflexivity.
Qed.

(** The engine raises when every super-step of the budget ran a node. *)
Lemma graph_loop_cut limit fuel :
  forall t st w tr w',
    node_trace py env fuel t st w = (Ok tr, w') ->
    List.length tr = fuel ->
    graph_loop py env limit fuel t st w = (Raise (GraphRecursionError limit), w').
Proof.
  induction fuel as [|f IH]; intros t st w tr w' H L.
  - cbn in H. inversion H; subst. reflexivity.
  - destruct t as [n|].
    + cbn [node_trace graph_loop] in *. unfold bind, ret in *.
      destruct (graph_step py env n st w) as [[c|e] w1]; [|discriminate].
      destruct (node_trace py env f (fst c) (snd c) w1) as [[rest|e] w2] eqn:E;
        [|discriminate].
      inversion H; subst. cbn in L. apply (IH _ _ _ rest); [exact E | lia].
    + rewrite node_trace_END in H. inversion H; subst. discriminate L.
Qed.

Lemma node_trace_returns k :
  forall t st w,
  exists t' st' w' tr,
    graph_steps py env k t st w = (Ok (t', st'), w')
    /\ node_trace py env k t st w = (Ok tr, w')
    /\ (List.length tr <= k)%nat.
Proof.
  induction k as [|k IH]; intros t st w.
  - exists t, st, w, []. repeat split. cbn. lia.
  - destruct t as [n|].
    + destruct (graph_step_returns n st w) as (t1 & st1 & w1 & H1).
      destruct (IH t1 st1 w1) as (t' & st' & w' & tr & Hs & Ht & L).
      exists t', st', w', (n :: tr). cbn [graph_steps node_trace].
      unfold bind, ret. rewrite H1. cbn [fst snd]. rewrite Hs, Ht.
      repeat split. cbn. lia.
    + exists END, st, w, []. rewrite graph_steps_END, node_trace_END.
      repeat split. cbn. lia.
Qed.

(** A graph that ends after exactly [k] super-steps: the engine returns
    its final state when the budget is above [k]; with a budget of at
    least 1 and at most [k] it raises, after the nodes of the first
    [limit] super-steps. *)
Lemma ainvoke_budget k st0 w stf wf tr :
  graph_steps py env k entry_point st0 w = (Ok (END, stf), wf) ->
  node_trace py env k entry_point st0 w = (Ok tr, wf) ->
  List.length tr = k ->
  forall limit,
    ((k < limit)%nat ->
     ainvoke py env limit st0 w = (Ok stf, wf)
     /\ node_trace py env limit entry_point st0 w = (Ok tr, wf))
    /\ ((1 <= limit <= k)%nat ->
        exists w',
          ainvoke py env limit st0 w = (Raise (GraphRecursionError limit), w')
          /\ node_trace py env limit entry_point st0 w
             = (Ok (firstn limit tr), w')).
Proof.
  intros Hs Ht Hl limit.
  assert (U : (1 <= limit)%nat ->
              ainvoke py env limit st0 w
              = graph_loop py env limit limit entry_point st0 w).
  { intros P. unfold ainvoke. destruct limit; [lia | reflexivity]. }
  split; intros L.
  - split; [rewrite U by lia; now apply graph_loop_returns with k|].
    replace limit with (k + (limit - k)) by lia.
    rewrite (@node_trace_add k (limit - k) _ _ _ _ _ _ _ Hs Ht).
    rewrite node_trace_END, app_nil_r. reflexivity.
  - destruct (node_trace_returns limit entry_point st0 w)
      as (t1 & st1 & w1 & tr1 & Hs1 & Ht1 & L1).
    destruct (node_trace_returns (k - limit) t1 st1 w1)
      as (t2 & st2 & w2 & tr2 & _ & Ht2 & L2).
    pose proof (@node_trace_add limit (k - limit) _ _ _ _ _ _ _ Hs1 Ht1) as A.
    replace (limit + (k - limit)) with k in A by lia.
    rewrite Ht, Ht2 in A. injection A as Etr Ew.
    rewrite Etr, length_app in Hl.
    assert (E : List.length tr1 = limit) by lia.
    exists w1. split.
    + rewrite U by lia. now apply graph_loop_cut with tr1.
    + rewrite Ht1, Etr, <- E, firstn_app, Nat.sub_diag, firstn_all.
      cbn. now rewrite app_nil_r.
Qed.

(** One round from the planning node: plan, execute, reflect.  The
    round either ends the run or comes back to planning with the cursor
    one further and still below the cap. *)
Lemma round_from_plan st w :
  exists t st3 w3,
    graph_steps py env 3 (Node NPlan) st w = (Ok (t, st3), w3)
    /\ node_trace py env 3 (Node NPlan) st w = (Ok round, w3)
    /\ ((t = END /\ finished st3 = true)
        \/ (t = Node NPlan /\ finished st3 = false
            /\ iteration st3 = iteration st + 1
            /\ (iteration st3 < max_iterations)%nat)).
Proof.
  destruct (graph_step_plan st w) as (st1 & w1 & H1 & I1 & _ & _).
  destruct (graph_step_execute st1 w1) as (st2 & w2 & H2 & P2 & X2).
  destruct (graph_step_reflect st2 w2)
    as (t & st3 & w3 & H3 & P3 & _ & I3 & Hend).
  exists t, st3, w3. repeat split.
  - cbn [graph_steps]. unfold bind. rewrite H1. cbn [fst snd].
    rewrite H2. cbn [fst snd]. rewrite H3. reflexivity.
  - cbn [node_trace]. unfold bind. rewrite H1. cbn [fst snd].
    rewrite H2. cbn [fst snd]. rewrite H3. reflexivity.
  - destruct Hend as [[-> F]|(-> & F & L & C)]; [left; auto | right].
    repeat split; auto; rewrite I3; auto.
    rewrite P2 in L.
    destruct X2 as [E _ J _|_ E _ J _|r _ _ _ _ _ J _].
    + rewrite E in L. cbn in L. lia.
    + lia.
    + lia.
Qed.

(** From the planning node the run reaches [END] after a whole number of
    rounds, at most as many as the cursor is below the cap. *)
Lemma rounds_to_end m :
  forall st w,
    (1 <= m)%nat -> (max_iterations - iteration st <= m)%nat ->
    exists n stf wf,
      (1 <= n <= m)%nat
      /\ graph_steps py env (3 * n) (Node NPlan) st w = (Ok (END, stf), wf)
      /\ finished stf = true
      /\ node_trace py env (3 * n) (Node NPlan) st w
         = (Ok (concat (repeat round n)), wf).
Proof.
  unfold max_iterations.
  induction m as [|m IH]; intros st w Hm Hi; [lia|].
  destruct (round_from_plan st w) as (t & st3 & w3 & Hs & Ht & Hend).
  destruct Hend as [[-> F]|(-> & F & I & C)].
  - exists 1, st3, w3. repeat split; auto; lia.
  - unfold max_iterations in C.
    destruct (IH st3 w3) as (n & stf & wf & Hn & Hs' & F' & Ht'); [lia | lia |].
    exists (S n), stf, wf. split; [lia|].
    replace (3 * S n) with (3 + 3 * n) by lia.
    split; [|split; [exact F'|]].
    + rewrite graph_steps_add, Hs. exact Hs'.
    + rewrite (@node_trace_add 3 (3 * n) _ _ _ _ _ _ _ Hs Ht), Ht'. reflexivity.
Qed.

(** *** Two invariants of every run *)

Lemma no_plan_count_snoc l r :
  no_plan_count (l ++ [r]) = no_plan_count l + (if is_no_plan r then 1 else 0).
Proof.
  unfold no_plan_count. rewrite filter_app, length_app. cbn.
  destruct (is_no_plan r); reflexivity.
Qed.

Lemma executed_results_counted st st' :
  executed st st' -> results_counted st -> results_counted st'.
Proof.
  unfold results_counted.
  intros [P R I F|P L R I F|r P L R S O I F] H.
  - rewrite R, I, no_plan_count_snoc, length_app. cbn. lia.
  - rewrite R, I. exact H.
  - rewrite R, I, no_plan_count_snoc, length_app.
    unfold is_no_plan. rewrite S. cbn. lia.
Qed.

Lemma results_counted_step n st w t' st' w' :
  results_counted st ->
  graph_step py env n st w = (Ok (t', st'), w') ->
  results_counted st'.
Proof.
  intros H Hs. destruct n.
  - destruct (graph_step_plan st w) as (st1 & w1 & H1 & I & R & _).
    rewrite H1 in Hs. inversion Hs; subst.
    unfold results_counted in *. now rewrite R, I.
  - destruct (graph_step_execute st w) as (st1 & w1 & H1 & _ & X).
    rewrite H1 in Hs. inversion Hs; subst.
    eapply executed_results_counted; eauto.
  - destruct (graph_step_reflect st w) as (t1 & st1 & w1 & H1 & _ & R & I & _).
    rewrite H1 in Hs. inversion Hs; subst.
    unfold results_counted in *. now rewrite R, I.
Qed.

Lemma results_one_of_step n st w t' st' w' :
  Forall one_of_result_error (tool_results st) ->
  graph_step py env n st w = (Ok (t', st'), w') ->
  Forall one_of_result_error (tool_results st').
Proof.
  intros H Hs. destruct n.
  - destruct (graph_step_plan st w) as (st1 & w1 & H1 & _ & R & _).
    rewrite H1 in Hs. inversion Hs; subst. now rewrite R.
  - destruct (graph_step_execute st w) as (st1 & w1 & H1 & _ & X).
    rewrite H1 in Hs. inversion Hs; subst.
    destruct X as [_ R _ _|_ _ R _ _|r _ _ R _ O _ _]; rewrite R; auto;
      apply Forall_app; split; auto; constructor; auto with agent.
  - destruct (graph_step_reflect st w) as (t1 & st1 & w1 & H1 & _ & R & _).
    rewrite H1 in Hs. inversion Hs; subst. now rewrite R.
Qed.

Lemma cursor_below_cap_step n st w t' st' w' :
  cursor_below_cap (Node n) st ->
  graph_step py env n st w = (Ok (t', st'), w') ->
  cursor_below_cap t' st'.
Proof.
  unfold cursor_below_cap, max_iterations.
  intros H Hs. destruct n.
  - destruct (graph_step_plan st w) as (st1 & w1 & H1 & I & _).
    rewrite H1 in Hs. inversion Hs; subst. now rewrite I.
  - destruct (graph_step_execute st w) as (st1 & w1 & H1 & _ & X).
    rewrite H1 in Hs. inversion Hs; subst.
    destruct X as [_ _ I _|_ _ _ I _|r _ _ _ _ _ I _]; rewrite I; lia.
  - destruct (graph_step_reflect st w) as (t1 & st1 & w1 & H1 & _ & _ & I & E).
    rewrite H1 in Hs. inversion Hs; subst. rewrite I.
    destruct E as [[-> _]|(-> & _ & _ & C)]; [exact H | exact C].
Qed.

(** *** What each node does with the model's reply *)

Lemma plan_node_failure st w msg :
  llm env (llm_calls w) (plan_prompt py env st) = LLMFails msg ->
  plan_node py env st w =
    (Ok {| u_plan := Some ["Error in planning"];
           u_messages := Some [assistant ("Planning error: " ++ msg)];
           u_tool_results := None; u_iteration := None; u_finished := None |},
     bump_llm w).
Proof.
  intros H. unfold plan_node, try_except, bind, llm_ainvoke, ret.
  rewrite H. reflexivity.
Qed.

Lemma plan_node_content st w reply :
  llm env (llm_calls w) (plan_prompt py env st) = Content reply ->
  plan_node py env st w =
    (Ok {| u_plan := Some (parse_plan reply);
           u_messages := Some [assistant ("Plan: " ++ reply)];
           u_tool_results := None; u_iteration := None; u_finished := None |},
     bump_llm w).
Proof.
  intros H. unfold plan_node, try_except, bind, llm_ainvoke, ret.
  rewrite H. reflexivity.
Qed.

(** The verdict of a reply to the reflection prompt. *)
Lemma reflect_node_asks st w :
  (iteration st < List.length (plan st))%nat ->
  (iteration st < max_iterations)%nat ->
  reflect_node py env st w =
    (Ok (finish match llm env (llm_calls w) (reflect_prompt py st) with
                | Content reply => contains "DONE" (upper (strip reply))
                | LLMFails _ => true
                end),
     bump_llm w).
Proof.
  intros H1 H2. unfold reflect_node.
  apply Nat.leb_gt in H1. apply Nat.leb_gt in H2. rewrite H1, H2. cbn [orb].
  unfold try_except, bind, llm_ainvoke, ret.
  destruct (llm env (llm_calls w) (reflect_prompt py st)) as [reply|msg].
  - destruct (contains "DONE" (upper (strip reply))); reflexivity.
  - reflexivity.
Qed.

(** *** Every run ends *)

Lemma round_trace_length n : List.length (concat (repeat round n)) = 3 * n.
Proof.
  induction n as [|n IH]; [reflexivity|].
  cbn [repeat concat]. rewrite length_app, IH. cbn. lia.
Qed.

(** The graph ends after a whole number of rounds, at most ten; the
    engine returns then when its budget is above three times that
    number, and raises when it is at least 1 and not above it. *)
Lemma ainvoke_returns task w :
  exists n stf wf,
    (1 <= n <= max_iterations)%nat
    /\ graph_steps py env (3 * n) entry_point (initial_state task) w
       = (Ok (END, stf), wf)
    /\ finished stf = true
    /\ node_trace py env (3 * n) entry_point (initial_state task) w
       = (Ok (concat (repeat round n)), wf)
    /\ forall limit,
         ((3 * n < limit)%nat ->
          ainvoke py env limit (initial_state task) w = (Ok stf, wf)
          /\ node_trace py env limit entry_point (initial_state task) w
             = (Ok (concat (repeat round n)), wf))
         /\ ((1 <= limit <= 3 * n)%nat ->
             exists w',
               ainvoke py env limit (initial_state task) w
               = (Raise (GraphRecursionError limit), w')
               /\ node_trace py env limit entry_point (initial_state task) w
                  = (Ok (firstn limit (concat (repeat round n))), w')).
Proof.
  destruct (@rounds_to_end max_iterations (initial_state task) w)
    as (n & stf & wf & Hn & Hs & F & Ht);
    [unfold max_iterations; lia | unfold max_iterations; cbn; lia |].
  exists n, stf, wf. split; [exact Hn|].
  change entry_point with (Node NPlan).
  split; [exact Hs|]. split; [exact F|]. split; [exact Ht|].
  exact (@ainvoke_budget (3 * n) (initial_state task) w stf wf _ Hs Ht
           (round_trace_length n)).
Qed.

End Facts.

(** *** The fifteen-step scenario *)

Section FifteenSteps.

Variable py : Python.
Variable env : Services.

(** Every planning yields fifteen steps; no reflection reply says DONE. *)
Hypothesis plans_fifteen :
  forall n st, exists reply,
    llm env n (plan_prompt py env st) = Content reply
    /\ List.length (parse_plan reply) = 15.

Hypothesis never_done :
  forall n st, exists reply,
    llm env n (reflect_prompt py st) = Content reply
    /\ contains "DONE" (upper (strip reply)) = false.

Lemma fifteen_round st w :
  (iteration st < max_iterations)%nat ->
  exists t st3 w3 r st1 w1,
    graph_steps py env 3 (Node NPlan) st w = (Ok (t, st3), w3)
    /\ node_trace py env 3 (Node NPlan) st w = (Ok round, w3)
    /\ List.length (plan st3) = 15
    /\ iteration st3 = iteration st + 1
    /\ tool_results st3 = (tool_results st ++ [r])%list
    /\ graph_steps py env 1 (Node NPlan) st w = (Ok (Node NExecute, st1), w1)
    /\ iteration st1 = iteration st
    /\ List.length (plan st1) = 15
    /\ step r = nth_error (plan st1) (iteration st)
    /\ (((iteration st3 < max_iterations)%nat /\ t = Node NPlan)
        \/ (iteration st3 = max_iterations /\ t = END /\ finished st3 = true)).
Proof.
  unfold max_iterations. intros C.
  destruct (plans_fifteen (llm_calls w) st) as (reply & Hl & H15).
  pose proof (plan_node_content py env st w Hl) as P.
  set (st1 := apply_update st
                {| u_plan := Some (parse_plan reply);
                   u_messages := Some [assistant ("Plan: " ++ reply)];
                   u_tool_results := None; u_iteration := None;
                   u_finished := None |}).
  assert (H1 : graph_step py env NPlan st w = (Ok (Node NExecute, st1), bump_llm w)).
  { unfold graph_step, bind, ret. cbn [run_node]. rewrite P. reflexivity. }
  assert (P1 : plan st1 = parse_plan reply) by reflexivity.
  assert (I1 : iteration st1 = iteration st) by reflexivity.
  assert (R1 : tool_results st1 = tool_results st) by reflexivity.
  destruct (graph_step_execute py env st1 (bump_llm w)) as (st2 & w2 & H2 & P2 & X).
  assert (I2 : iteration st2 = iteration st + 1
               /\ exists r, tool_results st2 = (tool_results st ++ [r])%list
                            /\ step r = nth_error (plan st1) (iteration st)).
  { destruct X as [E _ _ _|_ L _ _ _|r _ _ R S _ I _].
    - rewrite P1 in E. rewrite E in H15. discriminate.
    - rewrite P1, H15, I1 in L. lia.
    - split; [now rewrite I, I1|]. exists r. split; [now rewrite R, R1|].
      rewrite I1 in S. rewrite S. symmetry.
      apply nth_error_nth'. rewrite P1, H15. lia. }
  destruct I2 as (I2 & r & R2 & Q).
  assert (G1 : graph_steps py env 1 (Node NPlan) st w
               = (Ok (Node NExecute, st1), bump_llm w)).
  { cbn [graph_steps]. unfold bind. rewrite H1. reflexivity. }
  assert (G : forall b w3,
             reflect_node py env st2 w2 = (Ok (finish b), w3) ->
             graph_steps py env 3 (Node NPlan) st w
             = (Ok (next_target NReflect (apply_update st2 (finish b)),
                    apply_update st2 (finish b)), w3)).
  { intros b w3 Hr. cbn [graph_steps]. unfold bind. rewrite H1. cbn [fst snd].
    rewrite H2. cbn [fst snd].
    unfold graph_step, bind, ret. cbn [run_node]. rewrite Hr. reflexivity. }
  assert (T : forall t st3 w3,
             graph_steps py env 3 (Node NPlan) st w = (Ok (t, st3), w3) ->
             node_trace py env 3 (Node NPlan) st w = (Ok round, w3)).
  { intros t st3 w3 Hs.
    destruct (round_from_plan py env st w) as (t' & st3' & w3' & Hs' & Ht' & _).
    rewrite Hs in Hs'. injection Hs' as _ _ <-. exact Ht'. }
  assert (L15 : List.length (plan st1) = 15) by (rewrite P1; exact H15).
  destruct (Nat.lt_ge_cases (iteration st2) 10) as [C2|C2].
  - destruct (never_done (llm_calls w2) st2) as (verdict & Hv & Hd).
    pose proof (@reflect_node_asks py env st2 w2) as A.
    rewrite Hv, Hd in A.
    assert (L2 : (iteration st2 < List.length (plan st2))%nat)
      by (rewrite P2, L15; lia).
    specialize (G _ _ (A L2 C2)).
    eexists; eexists; eexists; exists r, st1, (bump_llm w). split; [exact G|].
    split; [exact (T _ _ _ G)|].
    cbn. rewrite P2. repeat split; auto.
  - assert (A : reflect_node py env st2 w2 = (Ok (finish true), w2)).
    { unfold reflect_node. apply Nat.leb_le in C2. unfold max_iterations.
      rewrite C2, orb_true_r. reflexivity. }
    specialize (G _ _ A).
    eexists; eexists; eexists; exists r, st1, (bump_llm w). split; [exact G|].
    split; [exact (T _ _ _ G)|].
    cbn. rewrite P2. repeat split; auto. right. repeat split; lia.
Qed.

Lemma fifteen_rounds task w0 m :
  forall st w,
    (1 <= m)%nat -> iteration st + m = max_iterations ->
    graph_steps py env (3 * iteration st) entry_point (initial_state task) w0
    = (Ok (Node NPlan, st), w) ->
    List.length (tool_results st) = iteration st ->
    (forall i r, nth_error (tool_results st) i = Some r ->
                 round_step py env task w0 i r) ->
    exists stf wf,
      graph_steps py env (3 * m) (Node NPlan) st w = (Ok (END, stf), wf)
      /\ node_trace py env (3 * m) (Node NPlan) st w
         = (Ok (concat (repeat round m)), wf)
      /\ iteration stf = max_iterations
      /\ List.length (tool_results stf) = max_iterations
      /\ List.length (plan stf) = 15
      /\ finished stf = true
      /\ (forall i r, nth_error (tool_results stf) i = Some r ->
                      round_step py env task w0 i r).
Proof.
  induction m as [|m IH]; intros st w Hm Hi Hg Hl Hq; [lia|].
  destruct (@fifteen_round st w)
    as (t & st3 & w3 & r & st1 & w1 & Hs & Ht & P & I & R & G1 & I1 & P1 & Q & E);
    [lia|].
  assert (Hl3 : List.length (tool_results st3) = iteration st3).
  { rewrite R, length_app, I, Hl. reflexivity. }
  assert (Hr : round_step py env task w0 (iteration st) r).
  { exists st1, w1. split.
    - rewrite graph_steps_add, Hg. exact G1.
    - split; [exact I1|]. split; [rewrite P1; unfold max_iterations in Hi; lia | exact Q]. }
  assert (Hq3 : forall i r0, nth_error (tool_results st3) i = Some r0 ->
                             round_step py env task w0 i r0).
  { intros i r0 N. rewrite R in N.
    destruct (Nat.lt_ge_cases i (List.length (tool_results st))) as [L|L].
    - rewrite nth_error_app1 in N by exact L. now apply Hq.
    - rewrite nth_error_app2 in N by exact L.
      destruct (i - List.length (tool_results st)) as [|d] eqn:D.
      + cbn in N. injection N as <-.
        replace i with (iteration st) by lia. exact Hr.
      + destruct d; discriminate N. }
  destruct E as [[C ->]|(C & -> & F)].
  - assert (Hg3 : graph_steps py env (3 * iteration st3) entry_point
                    (initial_state task) w0 = (Ok (Node NPlan, st3), w3)).
    { rewrite I. replace (3 * (iteration st + 1)) with (3 * iteration st + 3) by lia.
      rewrite graph_steps_add, Hg. exact Hs. }
    destruct (IH st3 w3) as (stf & wf & Hs' & Ht' & I' & R' & P' & F' & Q');
      [lia | lia | exact Hg3 | exact Hl3 | exact Hq3 |].
    exists stf, wf. replace (3 * S m) with (3 + 3 * m) by lia.
    rewrite graph_steps_add, Hs. cbn [fst snd].
    split; [exact Hs'|].
    split; [rewrite (@node_trace_add py env 3 (3 * m) _ _ _ _ _ _ _ Hs Ht), Ht';
            reflexivity|].
    repeat split; auto.
  - assert (m = 0) by lia. subst m.
    exists st3, w3. split; [exact Hs|]. split; [exact Ht|].
    repeat split; auto. rewrite Hl3. exact C.
Qed.

(** The fifteen-step run: thirty super-steps, ten results, each the
    record of the step at its own position in the plan of its round;
    the engine returns when its budget is above thirty. *)
Lemma fifteen_steps_run task w :
  exists stf wf,
    graph_steps py env 30 entry_point (initial_state task) w = (Ok (END, stf), wf)
    /\ iteration stf = max_iterations
    /\ List.length (tool_results stf) = max_iterations
    /\ List.length (plan stf) = 15
    /\ finished stf = true
    /\ (forall i r, nth_error (tool_results stf) i = Some r ->
                    round_step py env task w i r)
    /\ forall limit,
         ((30 < limit)%nat ->
          ainvoke py env limit (initial_state task) w = (Ok stf, wf))
         /\ ((1 <= limit <= 30)%nat ->
             exists w',
               ainvoke py env limit (initial_state task) w
               = (Raise (GraphRecursionError limit), w')).
Proof.
  destruct (@fifteen_rounds task w max_iterations (initial_state task) w)
    as (stf & wf & Hs & Ht & I & R & P & F & Q);
    [unfold max_iterations; lia | reflexivity | reflexivity | reflexivity
     | intros [|i] r N; discriminate N |].
  change (3 * max_iterations) with 30 in Hs, Ht.
  change (Node NPlan) with entry_point in Hs, Ht.
  exists stf, wf. split; [exact Hs|]. repeat (split; [assumption|]).
  intros limit.
  destruct (@ainvoke_budget py env 30 (initial_state task) w stf wf _ Hs Ht
              (round_trace_length max_iterations) limit) as [A B].
  split.
  - intros L. exact (proj1 (A L)).
  - intros L. destruct (B L) as (w' & Hw & _). now exists w'.
Qed.

End FifteenSteps.

(** * The claims *)

(** C1, as stated, fails: in the run where the model answers the
    planning prompt without a numbered line the plan is empty, and after
    the Step Executor ran (second super-step) there is one result while
    the cursor is still 0. *)
Lemma empty_plan_breaks_results_cursor :
  exists st w,
    graph_steps demo_python no_plan_env 2 entry_point
      (initial_state "list containers") world0 = (Ok (Node NReflect, st), w)
    /\ plan st = []
    /\ tool_results st = [no_plan_result]
    /\ iteration st = 0
    /\ List.length (tool_results st) <> iteration st.
Proof.
  eexists; eexists. split; [vm_compute; reflexivity|].
  cbn. repeat split. discriminate.
Qed.

(** C1 (amended). On a non-empty plan a Step Executor invocation either
    appends exactly one result and advances the cursor by one (cursor
    below the plan length) or appends nothing and leaves the cursor
    where it is (cursor at or past the end), so it preserves
    [len(results) == cursor]; on an empty plan it appends the
    "No plan available" result and does not advance.  Along every run
    the number of results is the cursor plus the number of
    "No plan available" results. *)
Theorem execute_node_results_and_cursor :
  forall py env,
    (forall st w, exists u w',
        execute_node py env st w = (Ok u, w')
        /\ let st' := apply_update st u in
           match plan st with
           | [] =>
               tool_results st' = (tool_results st ++ [no_plan_result])%list
               /\ iteration st' = iteration st
           | _ :: _ =>
               (if (List.length (plan st) <=? iteration st)%nat
                then tool_results st' = tool_results st
                     /\ iteration st' = iteration st
                else (exists r, tool_results st' = (tool_results st ++ [r])%list)
                     /\ iteration st' = iteration st + 1)
               /\ (List.length (tool_results st) = iteration st ->
                   List.length (tool_results st') = iteration st')
           end)
    /\ (forall task k, exists t st w,
          graph_steps py env k entry_point (initial_state task) world0
            = (Ok (t, st), w)
          /\ List.length (tool_results st)
             = iteration st + no_plan_count (tool_results st)).
Proof.
  intros py env. split.
  - intros st w.
    destruct (plan st) as [|s0 rest] eqn:E.
    + rewrite (execute_node_no_plan py env st w E).
      eexists; eexists; split; [reflexivity|]. cbn. auto.
    + assert (Hp : plan st <> []) by (rewrite E; discriminate).
      rewrite <- E.
      destruct (Nat.leb_spec (List.length (plan st)) (iteration st)) as [Hi|Hi].
      * rewrite (execute_node_past_end py env st w Hp Hi).
        eexists; eexists; split; [reflexivity|]. cbn. auto.
      * destruct (execute_node_running py env st w Hp Hi) as (r & w' & H & _).
        rewrite H. eexists; eexists; split; [reflexivity|]. cbn.
        split; [split; [now exists r | reflexivity]|].
        intros L. rewrite length_app, L. reflexivity.
  - intros task k.
    destruct (@graph_steps_invariant py env (fun _ st => results_counted st)
                (fun n st w t' st' w' H Hs =>
                   @results_counted_step py env n st w t' st' w' H Hs)
                k entry_point (initial_state task) world0 eq_refl)
      as (t & st & w & H & I).
    exists t, st, w. split; [exact H | exact I].
Qed.

Lemma execute_node_results_and_cursor_witness :
  exists t st w,
    graph_steps demo_python list_containers_env 3 entry_point
      (initial_state "list containers") world0 = (Ok (t, st), w)
    /\ List.length (tool_results st)
       = iteration st + no_plan_count (tool_results st).
Proof.
  exact (proj2 (execute_node_results_and_cursor demo_python list_containers_env)
           "list containers" 3).
Defined.

(** C2, as stated, fails: with a model that keeps answering CONTINUE
    the planning node runs three times in one run, the reflection node
    is followed by the planning node, and the third planning replaces
    the three-step plan by a one-step plan. *)
Lemma planning_runs_again :
  exists w st1 w1 st3 w3 st7 w7,
    node_trace demo_python shrinking_plan_env 30 entry_point
      (initial_state "list containers") world0
    = (Ok [NPlan; NExecute; NReflect; NPlan; NExecute; NReflect;
           NPlan; NExecute; NReflect], w)
    /\ graph_steps demo_python shrinking_plan_env 1 entry_point
         (initial_state "list containers") world0 = (Ok (Node NExecute, st1), w1)
    /\ plan st1 = ["1. List docker containers"; "2. List docker containers";
                   "3. List docker containers"]
    /\ graph_steps demo_python shrinking_plan_env 3 entry_point
         (initial_state "list containers") world0 = (Ok (Node NPlan, st3), w3)
    /\ finished st3 = false
    /\ graph_steps demo_python shrinking_plan_env 7 entry_point
         (initial_state "list containers") world0 = (Ok (Node NExecute, st7), w7)
    /\ plan st7 = ["1. List docker containers"].
Proof.
  do 7 eexists.
  split; [vm_compute; reflexivity|].
  split; [vm_compute; reflexivity|]. split; [reflexivity|].
  split; [vm_compute; reflexivity|]. split; [reflexivity|].
  split; [vm_compute; reflexivity|]. reflexivity.
Qed.

(** C2 (amended). Planning is entered once per round of the loop: the
    edge taken when reflection decides to continue leads to the planning
    node, every invocation of the Plan Generator sets the plan field to
    the plan it has just produced, and the graph ends after between one
    and ten rounds plan, execute, reflect.  The engine returns the final
    state when its recursion limit is above three times the number of
    rounds; with a limit of at least 1 and at most that it raises
    GraphRecursionError, after the nodes of the first [limit]
    super-steps of those rounds. *)
Theorem planning_once_per_round :
  forall py env,
    (forall st, next_target NReflect st = if finished st then END else Node NPlan)
    /\ (forall st w, exists u w' p,
          plan_node py env st w = (Ok u, w')
          /\ plan (apply_update st u) = p
          /\ (p = ["Error in planning"]
              \/ exists reply,
                   llm env (llm_calls w) (plan_prompt py env st) = Content reply
                   /\ p = parse_plan reply))
    /\ (forall task,
          exists n stf wf,
            (1 <= n <= max_iterations)%nat
            /\ graph_steps py env (3 * n) entry_point (initial_state task) world0
               = (Ok (END, stf), wf)
            /\ node_trace py env (3 * n) entry_point (initial_state task) world0
               = (Ok (concat (repeat round n)), wf)
            /\ forall limit,
                 ((3 * n < limit)%nat ->
                  ainvoke py env limit (initial_state task) world0 = (Ok stf, wf)
                  /\ node_trace py env limit entry_point (initial_state task) world0
                     = (Ok (concat (repeat round n)), wf))
                 /\ ((1 <= limit <= 3 * n)%nat ->
                     exists w',
                       ainvoke py env limit (initial_state task) world0
                       = (Raise (GraphRecursionError limit), w')
                       /\ node_trace py env limit entry_point
                            (initial_state task) world0
                          = (Ok (firstn limit (concat (repeat round n))), w'))).
Proof.
  intros py env. split; [|split].
  - intros st. unfold next_target. cbn [edges build_graph].
    unfold should_continue. destruct (finished st); reflexivity.
  - intros st w.
    destruct (plan_node_returns py env st w) as (p & text & H & D).
    eexists; eexists; exists p. split; [exact H|]. split; [reflexivity | exact D].
  - intros task.
    destruct (ainvoke_returns py env task world0)
      as (n & stf & wf & Hn & Hs & _ & Ht & Hl).
    exists n, stf, wf. auto.
Qed.

Lemma planning_once_per_round_witness :
  exists n stf wf,
    (1 <= n <= max_iterations)%nat
    /\ ainvoke demo_python shrinking_plan_env 31 (initial_state "list containers")
         world0 = (Ok stf, wf)
    /\ node_trace demo_python shrinking_plan_env 31 entry_point
         (initial_state "list containers") world0
       = (Ok (concat (repeat round n)), wf).
Proof.
  destruct (proj2 (proj2 (planning_once_per_round demo_python shrinking_plan_env))
              "list containers") as (n & stf & wf & Hn & _ & _ & Hl).
  exists n, stf, wf. split; [exact Hn|].
  apply (proj1 (Hl 31)). unfold max_iterations in Hn. lia.
Defined.

(** C3, as stated, fails: with an engine budget of 25 super-steps the
    fifteen-step run has recorded eight results when the engine raises,
    and the output of [run] has status "error" and no results. *)
Lemma partial_results_not_returned :
  exists st w out w',
    graph_steps demo_python long_plan_env 25 entry_point
      (initial_state "list containers") world0 = (Ok (Node NExecute, st), w)
    /\ List.length (tool_results st) = 8
    /\ ainvoke demo_python long_plan_env 25 (initial_state "list containers") world0
       = (Raise (GraphRecursionError 25), w)
    /\ run demo_python long_plan_env 25 "list containers" world0 = (Ok out, w')
    /\ status out = "error"
    /\ out_results out = None.
Proof.
  do 4 eexists.
  split; [vm_compute; reflexivity|]. split; [reflexivity|].
  split; [vm_compute; reflexivity|].
  split; [vm_compute; reflexivity|]. split; reflexivity.
Qed.

(** C3 (amended). When the pipeline raises, the output of [run] has
    status "error" and the text of the exception, and nothing else: no
    results, no plan and no messages are returned. *)
Theorem run_error_has_no_results :
  forall py env limit task w e w',
    ainvoke py env limit (initial_state task) w = (Raise e, w') ->
    run py env limit task w =
      (Ok {| status := "error";
             out_error := Some (str_exn py e);
             out_results := None; out_plan := None; out_messages := None |},
       w').
Proof.
  intros py env limit task w e w' H.
  unfold run, try_except, bind, ret. rewrite H. reflexivity.
Qed.

Lemma run_error_has_no_results_witness :
  exists w',
    ainvoke demo_python long_plan_env 25 (initial_state "list containers") world0
    = (Raise (GraphRecursionError 25), w')
    /\ run demo_python long_plan_env 25 "list containers" world0 =
         (Ok {| status := "error";
                out_error := Some "Recursion limit of 25 reached without hitting a stop condition";
                out_results := None; out_plan := None; out_messages := None |},
          w').
Proof.
  eexists. split; [vm_compute; reflexivity|].
  apply (run_error_has_no_results demo_python long_plan_env 25
           "list containers" world0 (e := GraphRecursionError 25)).
  vm_compute; reflexivity.
Defined.

(** C4, as stated, fails: after two steps of a three-step plan the
    third planning installs a one-step plan, and the cursor (2) exceeds
    the length of the plan (1). *)
Lemma cursor_past_shrunk_plan :
  exists st w,
    graph_steps demo_python shrinking_plan_env 7 entry_point
      (initial_state "list containers") world0 = (Ok (Node NExecute, st), w)
    /\ iteration st = 2
    /\ List.length (plan st) = 1
    /\ ~ (iteration st <= List.length (plan st))%nat.
Proof.
  do 2 eexists. split; [vm_compute; reflexivity|].
  cbn. repeat split. lia.
Qed.

(** C4 (amended). At every point of every run the cursor is at most
    MAX_ITERATIONS (10).  The Step Executor and the Reflector leave the
    plan alone and keep the cursor within the plan when it was within
    it; only a later planning that returns a shorter plan can leave the
    cursor above the plan length.  When every planning yields fifteen
    steps and no reflection reply says DONE, the graph ends after thirty
    super-steps with cursor 10, ten results, [finished = True] and the
    plan still fifteen steps long; the result at position i records the
    step at position i of the plan in force in its round, so of every
    plan one of the first ten steps is run and the last five never are.
    The engine returns that state when its recursion limit is above
    thirty, and raises GraphRecursionError when it is between one and
    thirty. *)
Theorem cursor_bounds :
  forall py env,
    (forall task k, exists t st w,
        graph_steps py env k entry_point (initial_state task) world0
          = (Ok (t, st), w)
        /\ (iteration st <= max_iterations)%nat)
    /\ (forall st w, exists u w',
          execute_node py env st w = (Ok u, w')
          /\ plan (apply_update st u) = plan st
          /\ (iteration (apply_update st u)
              <= Nat.max (iteration st) (List.length (plan st)))%nat)
    /\ (forall st w, exists u w',
          reflect_node py env st w = (Ok u, w')
          /\ plan (apply_update st u) = plan st
          /\ iteration (apply_update st u) = iteration st)
    /\ ((forall n st, exists reply,
            llm env n (plan_prompt py env st) = Content reply
            /\ List.length (parse_plan reply) = 15) ->
        (forall n st, exists reply,
            llm env n (reflect_prompt py st) = Content reply
            /\ contains "DONE" (upper (strip reply)) = false) ->
        forall task,
          exists stf wf,
            graph_steps py env 30 entry_point (initial_state task) world0
            = (Ok (END, stf), wf)
            /\ iteration stf = 10
            /\ List.length (tool_results stf) = 10
            /\ List.length (plan stf) = 15
            /\ finished stf = true
            /\ (forall i r, nth_error (tool_results stf) i = Some r ->
                            (i < 10)%nat /\ round_step py env task world0 i r)
            /\ forall limit,
                 ((30 < limit)%nat ->
                  ainvoke py env limit (initial_state task) world0 = (Ok stf, wf))
                 /\ ((1 <= limit <= 30)%nat ->
                     exists w',
                       ainvoke py env limit (initial_state task) world0
                       = (Raise (GraphRecursionError limit), w'))).
Proof.
  intros py env. split; [|split; [|split]].
  - intros task k.
    destruct (@graph_steps_invariant py env cursor_below_cap
                (fun n st w t' st' w' H Hs =>
                   @cursor_below_cap_step py env n st w t' st' w' H Hs)
                k entry_point (initial_state task) world0)
      as (t & st & w & H & I).
    + unfold cursor_below_cap, max_iterations. cbn. lia.
    + exists t, st, w. split; [exact H|].
      unfold cursor_below_cap in I. destruct t as [[| |]|]; lia.
  - intros st w.
    destruct (graph_step_execute py env st w) as (st' & w' & H & P & X).
    unfold graph_step, bind, ret in H. cbn [run_node] in H.
    destruct (execute_node py env st w) as [[u|e] w1]; [|discriminate].
    inversion H; subst. exists u, w'. split; [reflexivity|]. split; [exact P|].
    destruct X as [_ _ I _|_ _ _ I _|r _ L _ _ _ I _]; rewrite I; lia.
  - intros st w.
    destruct (reflect_node_returns py env st w) as (b & w' & H & _).
    exists (finish b), w'. split; [exact H|]. split; reflexivity.
  - intros Hp Hr task.
    destruct (@fifteen_steps_run py env Hp Hr task world0)
      as (stf & wf & Hs & I & R & P & F & Q & L).
    exists stf, wf. split; [exact Hs|]. repeat (split; [assumption|]).
    split; [|exact L].
    intros i r N. split; [|now apply Q].
    assert (B : (i < List.length (tool_results stf))%nat).
    { apply nth_error_Some. rewrite N. discriminate. }
    rewrite R in B. exact B.
Qed.

Lemma cursor_bounds_witness :
  exists stf wf w',
    ainvoke demo_python long_plan_env 31 (initial_state "list containers") world0
    = (Ok stf, wf)
    /\ ainvoke demo_python long_plan_env 30 (initial_state "list containers") world0
       = (Raise (GraphRecursionError 30), w')
    /\ iteration stf = 10
    /\ List.length (plan stf) = 15
    /\ finished stf = true
    /\ map step (tool_results stf)
       = map (fun i => Some (str_nat i ++ ". List docker containers")) (seq 1 10).
Proof.
  destruct (proj2 (proj2 (proj2 (cursor_bounds demo_python long_plan_env))))
    with (task := "list containers")
    as (stf & wf & Hs & I & R & P & F & Q & L).
  - intros n st. exists (numbered_plan 15). split; [reflexivity|].
    vm_compute; reflexivity.
  - intros n st. exists "CONTINUE". split; reflexivity.
  - destruct (proj2 (L 30)) as (w' & Hw); [lia|].
    exists stf, wf, w'. split; [apply (proj1 (L 31)); lia|].
    split; [exact Hw|]. split; [exact I|]. split; [exact P|]. split; [exact F|].
    vm_compute in Hs. injection Hs as <- _. reflexivity.
Defined.

(** C5, as stated, fails: the first planning yields two steps, the
    first is run, reflection answers CONTINUE and the second planning
    fails.  The plan is then ["Error in planning"] with the cursor at 1:
    the Step Executor runs nothing and sets [finished], and the run ends
    with the one result of the first plan; no step of the fallback plan
    is executed. *)
Lemma failed_replanning_runs_nothing :
  exists st w stf wf,
    graph_steps demo_python replanning_fails_env 4 entry_point
      (initial_state "list containers") world0 = (Ok (Node NExecute, st), w)
    /\ plan st = ["Error in planning"]
    /\ iteration st = 1
    /\ execute_node demo_python replanning_fails_env st w = (Ok (finish true), w)
    /\ ainvoke demo_python replanning_fails_env 25
         (initial_state "list containers") world0 = (Ok stf, wf)
    /\ plan stf = ["Error in planning"]
    /\ map step (tool_results stf) = [Some "1. List docker containers"]
    /\ llm_calls wf = 4.
Proof.
  do 4 eexists.
  split; [vm_compute; reflexivity|]. split; [reflexivity|].
  split; [reflexivity|]. split; [vm_compute; reflexivity|].
  split; [vm_compute; reflexivity|]. repeat split.
Qed.

(** C5 (amended). When the model call of the Plan Generator fails, the
    planning node returns (it does not raise) the one-element plan
    ["Error in planning"], and the graph moves on to the execution node
    with that plan in the state, the results and the cursor untouched.
    What the Step Executor then does depends on the cursor.  At cursor 0
    (the first planning failed) it runs the step "Error in planning": it
    asks the model once for the tool choice, the tool service at most
    once, appends one result for that step and moves the cursor to 1.
    At cursor 1 or more (a later planning failed) it runs nothing: it
    returns [finished = True] without any call, and the round ends the
    graph with the results the run had before. *)
Theorem plan_node_completion_failure :
  forall py env st w msg,
    llm env (llm_calls w) (plan_prompt py env st) = LLMFails msg ->
    plan_node py env st w =
      (Ok {| u_plan := Some ["Error in planning"];
             u_messages := Some [assistant ("Planning error: " ++ msg)];
             u_tool_results := None; u_iteration := None; u_finished := None |},
       bump_llm w)
    /\ exists st',
         graph_step py env NPlan st w = (Ok (Node NExecute, st'), bump_llm w)
         /\ plan st' = ["Error in planning"]
         /\ tool_results st' = tool_results st
         /\ iteration st' = iteration st
         /\ (iteration st = 0 ->
             exists r w'',
               execute_node py env st' (bump_llm w) = (Ok (advance 0 r), w'')
               /\ step r = Some "Error in planning"
               /\ one_of_result_error r
               /\ llm_calls w'' = S (S (llm_calls w))
               /\ (mcp_calls w <= mcp_calls w'' <= S (mcp_calls w))%nat
               /\ tool_results (apply_update st' (advance 0 r))
                  = (tool_results st ++ [r])%list
               /\ iteration (apply_update st' (advance 0 r)) = 1)
         /\ ((1 <= iteration st)%nat ->
             execute_node py env st' (bump_llm w) = (Ok (finish true), bump_llm w)
             /\ exists stf,
                  graph_steps py env 3 (Node NPlan) st w
                  = (Ok (END, stf), bump_llm w)
                  /\ plan stf = ["Error in planning"]
                  /\ tool_results stf = tool_results st
                  /\ iteration stf = iteration st
                  /\ finished stf = true).
Proof.
  intros py env st w msg H.
  pose proof (plan_node_failure py env st w H) as P.
  split; [exact P|].
  set (st' := apply_update st
                {| u_plan := Some ["Error in planning"];
                   u_messages := Some [assistant ("Planning error: " ++ msg)];
                   u_tool_results := None; u_iteration := None;
                   u_finished := None |}).
  assert (G : graph_step py env NPlan st w = (Ok (Node NExecute, st'), bump_llm w)).
  { unfold graph_step, bind, ret. cbn [run_node]. rewrite P. reflexivity. }
  exists st'. split; [exact G|]. split; [reflexivity|].
  split; [reflexivity|]. split; [reflexivity|]. split.
  - intros I.
    destruct (@execute_node_calls py env st' (bump_llm w))
      as (r & w'' & E & S & O & L & M).
    + discriminate.
    + cbn. lia.
    + assert (I' : iteration st' = 0) by exact I.
      rewrite I' in E, S. exists r, w''.
      split; [exact E|]. split; [exact S|]. split; [exact O|].
      split; [exact L|]. split; [exact M|]. split; reflexivity.
  - intros I.
    assert (X : execute_node py env st' (bump_llm w) = (Ok (finish true), bump_llm w)).
    { apply execute_node_past_end; [discriminate | exact I]. }
    split; [exact X|].
    assert (R : forall s, plan s = plan st' -> iteration s = iteration st' ->
                          reflect_node py env s (bump_llm w)
                          = (Ok (finish true), bump_llm w)).
    { intros s Ps Is. unfold reflect_node. rewrite Ps, Is.
      assert (B : (List.length (plan st') <=? iteration st')%nat = true)
        by (apply Nat.leb_le; exact I).
      rewrite B. reflexivity. }
    assert (S2 : graph_step py env NExecute st' (bump_llm w)
                 = (Ok (Node NReflect, apply_update st' (finish true)), bump_llm w)).
    { unfold graph_step, bind, ret. cbn [run_node]. rewrite X. reflexivity. }
    assert (S3 : graph_step py env NReflect (apply_update st' (finish true))
                   (bump_llm w)
                 = (Ok (END, apply_update (apply_update st' (finish true))
                               (finish true)), bump_llm w)).
    { unfold graph_step, bind, ret. cbn [run_node].
      rewrite R by reflexivity. reflexivity. }
    eexists. split.
    + cbn [graph_steps]. unfold bind. rewrite G. cbn [fst snd].
      rewrite S2. cbn [fst snd]. rewrite S3. reflexivity.
    + repeat split.
Qed.

Lemma plan_node_completion_failure_witness :
  llm offline_env (llm_calls world0)
    (plan_prompt demo_python offline_env (initial_state "list containers"))
  = LLMFails "connection refused"
  /\ plan_node demo_python offline_env (initial_state "list containers") world0 =
       (Ok {| u_plan := Some ["Error in planning"];
              u_messages := Some [assistant "Planning error: connection refused"];
              u_tool_results := None; u_iteration := None; u_finished := None |},
        bump_llm world0)
  /\ exists st' r w'',
       graph_step demo_python offline_env NPlan (initial_state "list containers")
         world0 = (Ok (Node NExecute, st'), bump_llm world0)
       /\ execute_node demo_python offline_env st' (bump_llm world0)
          = (Ok (advance 0 r), w'')
       /\ step r = Some "Error in planning"
       /\ llm_calls w'' = 2.
Proof.
  split; [reflexivity|].
  destruct (plan_node_completion_failure demo_python offline_env
              (initial_state "list containers") world0 (msg := "connection refused")
              eq_refl)
    as (P & st' & G & _ & _ & _ & Z & _).
  split; [exact P|].
  destruct (Z eq_refl) as (r & w'' & E & S & _ & L & _).
  exists st', r, w''. auto.
Defined.

(** C6. Every result the Step Executor appends has exactly one of
    ["result"] (the spec's output) and ["error"], and so has every
    result in the state at every point of every run.  In the scenario
    (plan ["1. List docker containers"], the model chooses
    docker_list_containers with no parameters, the tool service answers
    with two containers) the one appended result has that step, that
    tool, the output "Found 2 containers: " followed by the list's
    text, and no error. *)
Theorem execute_node_one_of_output_error :
  forall py env,
    (forall st w, exists u w',
        execute_node py env st w = (Ok u, w')
        /\ Forall one_of_result_error (appended u))
    /\ (forall task k, exists t st w,
          graph_steps py env k entry_point (initial_state task) world0
            = (Ok (t, st), w)
          /\ Forall one_of_result_error (tool_results st))
    /\ (forall st w reply c1 c2,
          plan st = ["1. List docker containers"] ->
          iteration st = 0 ->
          llm env (llm_calls w) (execute_prompt py env "1. List docker containers")
          = Content reply ->
          json_loads py (strip reply) = Ok (tool_choice "docker_list_containers") ->
          mcp env (mcp_calls w) "docker_list" (JObj [])
          = Body (JObj [("containers", JArr [c1; c2])]) ->
          execute_node py env st w =
            (Ok (advance 0
                   {| step := Some "1. List docker containers";
                      tool := Some "docker_list_containers";
                      result := Some ("Found 2 containers: " ++ repr py (JArr [c1; c2]));
                      error := None |}),
             {| llm_calls := S (llm_calls w); mcp_calls := S (mcp_calls w) |})).
Proof.
  intros py env. split; [|split].
  - intros st w.
    destruct (plan st) as [|s0 rest] eqn:E.
    + rewrite (execute_node_no_plan py env st w E).
      eexists; eexists; split; [reflexivity|].
      cbn. constructor; auto with agent.
    + assert (Hp : plan st <> []) by (rewrite E; discriminate).
      destruct (Nat.le_gt_cases (List.length (plan st)) (iteration st)) as [Hi|Hi].
      * rewrite (execute_node_past_end py env st w Hp Hi).
        eexists; eexists; split; [reflexivity|]. constructor.
      * destruct (execute_node_running py env st w Hp Hi) as (r & w' & H & _ & O).
        rewrite H. eexists; eexists; split; [reflexivity|].
        cbn. constructor; auto.
  - intros task k.
    destruct (@graph_steps_invariant py env
                (fun _ st => Forall one_of_result_error (tool_results st))
                (fun n st w t' st' w' H Hs =>
                   @results_one_of_step py env n st w t' st' w' H Hs)
                k entry_point (initial_state task) world0)
      as (t & st & w & H & I); [constructor|].
    exists t, st, w. split; [exact H | exact I].
  - intros st w reply c1 c2 Hp Hi Hl Hj Hm.
    unfold execute_node. rewrite Hp, Hi. cbn [List.length Nat.leb nth].
    unfold try_except, bind, lift, llm_ainvoke, ret.
    rewrite Hl, Hj. cbn.
    unfold call_tool, try_except, http_post, bind. cbn [mcp_calls llm_calls].
    rewrite Hm. reflexivity.
Qed.

Lemma execute_node_one_of_output_error_witness :
  execute_node demo_python list_containers_env
    {| messages := []; current_task := "list containers";
       plan := ["1. List docker containers"]; tool_results := [];
       iteration := 0; finished := false |} world0 =
    (Ok (advance 0
           {| step := Some "1. List docker containers";
              tool := Some "docker_list_containers";
              result := Some "Found 2 containers: [...]";
              error := None |}),
     {| llm_calls := 1; mcp_calls := 1 |})
  /\ fst (run demo_python list_containers_env 25 "list containers" world0) =
       Ok {| status := "success";
             out_results :=
               Some [{| step := Some "1. List docker containers";
                        tool := Some "docker_list_containers";
                        result := Some "Found 2 containers: [...]";
                        error := None |}];
             out_plan := Some ["1. List docker containers"];
             out_messages :=
               Some [{| role := "user"; content := "list containers" |};
                     assistant "Plan: 1. List docker containers"];
             out_error := None |}.
Proof.
  split; [|vm_compute; reflexivity].
  apply (proj2 (proj2 (execute_node_one_of_output_error demo_python list_containers_env))
           {| messages := []; current_task := "list containers";
              plan := ["1. List docker containers"]; tool_results := [];
              iteration := 0; finished := false |} world0
           (tool_choice_text "docker_list_containers")
           (container "0123456789ab" "web") (container "ba9876543210" "db"));
    reflexivity.
Defined.

(** C7. When the tool choice names a tool that is not a key of the
    registry, the Step Executor records the step with the error
    "Unknown tool: <name>", makes no call to the tool service and
    advances the cursor by one. *)
Theorem execute_node_unknown_tool :
  forall py env st w reply fields name,
    plan st <> [] ->
    (iteration st < List.length (plan st))%nat ->
    llm env (llm_calls w)
      (execute_prompt py env (nth (iteration st) (plan st) EmptyString))
    = Content reply ->
    json_loads py (strip reply) = Ok (JObj fields) ->
    lookup "tool" fields = Some (JStr name) ->
    lookup name (AVAILABLE_TOOLS py env) = None ->
    let r := {| step := Some (nth (iteration st) (plan st) EmptyString);
                tool := None; result := None;
                error := Some ("Unknown tool: " ++ name) |} in
    let u := advance (iteration st) r in
    execute_node py env st w = (Ok u, bump_llm w)
    /\ mcp_calls (bump_llm w) = mcp_calls w
    /\ tool_results (apply_update st u) = (tool_results st ++ [r])%list
    /\ iteration (apply_update st u) = iteration st + 1.
Proof.
  intros py env st w reply fields name Hp Hi Hl Hj Ht Hr r u.
  split; [|repeat split].
  subst r u. unfold execute_node.
  destruct (plan st) as [|s0 rest] eqn:E; [congruence|].
  apply Nat.leb_gt in Hi. rewrite Hi.
  unfold try_except, bind, lift, llm_ainvoke, ret.
  rewrite Hl, Hj. cbn [py_get]. rewrite Ht.
  destruct (lookup "parameters" fields); cbn [registry_find]; rewrite Hr;
    reflexivity.
Qed.

Lemma execute_node_unknown_tool_witness :
  execute_node demo_python unknown_tool_env
    {| messages := []; current_task := "clean up";
       plan := ["1. Clean the cache"]; tool_results := [];
       iteration := 0; finished := false |} world0
  = (Ok (advance 0 (error_result "1. Clean the cache"
                      "Unknown tool: nonexistent_tool")),
     {| llm_calls := 1; mcp_calls := 0 |}).
Proof.
  apply (execute_node_unknown_tool demo_python unknown_tool_env
           {| messages := []; current_task := "clean up";
              plan := ["1. Clean the cache"]; tool_results := [];
              iteration := 0; finished := false |} world0
           (reply := tool_choice_text "nonexistent_tool")
           (fields := [("tool", JStr "nonexistent_tool"); ("parameters", JObj [])])
           (name := "nonexistent_tool")).
  - discriminate.
  - cbn. lia.
  - reflexivity.
  - reflexivity.
  - reflexivity.
  - reflexivity.
Defined.

(** C8, as stated, fails: in the fifteen-step run the cursor is 1 after
    the first step, below the plan length and below the cap; the model
    answers the reflection prompt with CONTINUE, the Reflector returns
    [finished = False] and the graph goes back to planning. *)
Lemma continue_reply_keeps_running :
  exists st w st',
    graph_steps demo_python long_plan_env 2 entry_point
      (initial_state "list containers") world0 = (Ok (Node NReflect, st), w)
    /\ iteration st = 1 /\ List.length (plan st) = 15
    /\ llm long_plan_env (llm_calls w) (reflect_prompt demo_python st)
       = Content "CONTINUE"
    /\ reflect_node demo_python long_plan_env st w = (Ok (finish false), bump_llm w)
    /\ graph_step demo_python long_plan_env NReflect st w
       = (Ok (Node NPlan, st'), bump_llm w)
    /\ finished st' = false.
Proof.
  eexists; eexists; eexists.
  split; [vm_compute; reflexivity|].
  split; [reflexivity|]. split; [reflexivity|].
  split; [reflexivity|].
  split; [vm_compute; reflexivity|].
  split; [vm_compute; reflexivity|].
  reflexivity.
Qed.

(** C8 (amended). When the Reflector consults the model (cursor below
    the plan length and below the cap) the verdict is [finished = True]
    for a reply that contains DONE as a case-insensitive substring and
    for a failed call, and [finished = False] for every other reply.
    The run still cannot loop for ever: the graph ends, with
    [finished = True], after at most ten rounds (thirty super-steps);
    the engine returns that state when its recursion limit is above the
    number of super-steps taken and raises GraphRecursionError when it
    is at least 1 and not above it. *)
Theorem reflect_node_verdict :
  forall py env st w,
    (iteration st < List.length (plan st))%nat ->
    (iteration st < max_iterations)%nat ->
    reflect_node py env st w =
      (Ok (finish match llm env (llm_calls w) (reflect_prompt py st) with
                  | Content reply => contains_nocase "DONE" reply
                  | LLMFails _ => true
                  end),
       bump_llm w)
    /\ (forall task w0,
          exists n stf wf,
            (1 <= n <= max_iterations)%nat
            /\ graph_steps py env (3 * n) entry_point (initial_state task) w0
               = (Ok (END, stf), wf)
            /\ finished stf = true
            /\ forall limit,
                 ((3 * n < limit)%nat ->
                  ainvoke py env limit (initial_state task) w0 = (Ok stf, wf))
                 /\ ((1 <= limit <= 3 * n)%nat ->
                     exists w',
                       ainvoke py env limit (initial_state task) w0
                       = (Raise (GraphRecursionError limit), w'))).
Proof.
  intros py env st w H1 H2. split.
  - rewrite (reflect_node_asks py env st w H1 H2).
    destruct (llm env (llm_calls w) (reflect_prompt py st)) as [reply|msg];
      [rewrite done_test_nocase|]; reflexivity.
  - intros task w0.
    destruct (ainvoke_returns py env task w0)
      as (n & stf & wf & Hn & Hs & F & _ & Hl).
    exists n, stf, wf. split; [exact Hn|]. split; [exact Hs|]. split; [exact F|].
    intros limit. destruct (Hl limit) as [A B]. split.
    + intros L. exact (proj1 (A L)).
    + intros L. destruct (B L) as (w' & Hw & _). now exists w'.
Qed.

Lemma reflect_node_verdict_witness :
  reflect_node demo_python lowercase_done_env
    {| messages := []; current_task := "list containers";
       plan := ["1. List docker containers"; "2. List docker containers"];
       tool_results := [tool_result "1. List docker containers"
                          "docker_list_containers" "Found 2 containers: [...]"];
       iteration := 1; finished := false |} world0
  = (Ok (finish true), bump_llm world0).
Proof.
  apply (reflect_node_verdict demo_python lowercase_done_env
           {| messages := []; current_task := "list containers";
              plan := ["1. List docker containers"; "2. List docker containers"];
              tool_results := [tool_result "1. List docker containers"
                                 "docker_list_containers" "Found 2 containers: [...]"];
              iteration := 1; finished := false |} world0).
  - cbn. lia.
  - unfold max_iterations. cbn. lia.
Defined.

(** C9. With the cursor at or past the end of the plan the Reflector
    returns [finished = True] without a call to the model (the call
    counters are unchanged); merging that verdict leaves a state on
    which it answers the same again, and merging it twice is merging
    it once. *)
Theorem reflect_node_completed_plan :
  forall py env st w,
    (List.length (plan st) <= iteration st)%nat ->
    reflect_node py env st w = (Ok (finish true), w)
    /\ finished (apply_update st (finish true)) = true
    /\ reflect_node py env (apply_update st (finish true)) w = (Ok (finish true), w)
    /\ apply_update (apply_update st (finish true)) (finish true)
       = apply_update st (finish true).
Proof.
  intros py env st w Hi.
  assert (G : forall st0, plan st0 = plan st -> iteration st0 = iteration st ->
                          reflect_node py env st0 w = (Ok (finish true), w)).
  { intros st0 P I. unfold reflect_node. rewrite P, I.
    apply Nat.leb_le in Hi. rewrite Hi. reflexivity. }
  repeat split.
  - now apply G.
  - now apply G.
Qed.

Lemma reflect_node_completed_plan_witness :
  reflect_node demo_python long_plan_env
    {| messages := []; current_task := "list containers";
       plan := ["1. List docker containers"];
       tool_results := [tool_result "1. List docker containers"
                          "docker_list_containers" "Found 2 containers: [...]"];
       iteration := 1; finished := false |} world0
  = (Ok (finish true), world0).
Proof.
  apply (reflect_node_completed_plan demo_python long_plan_env
           {| messages := []; current_task := "list containers";
              plan := ["1. List docker containers"];
              tool_results := [tool_result "1. List docker containers"
                                 "docker_list_containers" "Found 2 containers: [...]"];
              iteration := 1; finished := false |} world0).
  cbn. lia.
Defined.

(** C10. On an empty plan the Step Executor appends the result
    [{"error": "No plan available"}], which has no step text and no
    tool, does not touch the cursor and does not set [finished]; it asks
    neither the model nor the tool service. *)
Theorem execute_node_empty_plan :
  forall py env st w,
    plan st = [] ->
    exists u,
      execute_node py env st w = (Ok u, w)
      /\ u_tool_results u =
           Some [{| step := None; tool := None; result := None;
                    error := Some "No plan available" |}]
      /\ u_iteration u = None
      /\ u_finished u = None
      /\ tool_results (apply_update st u)
         = (tool_results st ++
              [{| step := None; tool := None; result := None;
                  error := Some "No plan available" |}])%list
      /\ iteration (apply_update st u) = iteration st
      /\ finished (apply_update st u) = finished st.
Proof.
  intros py env st w Hp.
  rewrite (execute_node_no_plan py env st w Hp).
  eexists. split; [reflexivity|]. cbn. repeat split.
Qed.

Lemma execute_node_empty_plan_witness :
  exists u,
    execute_node demo_python no_plan_env (initial_state "list containers") world0
      = (Ok u, world0)
    /\ tool_results (apply_update (initial_state "list containers") u)
       = [no_plan_result]
    /\ iteration (apply_update (initial_state "list containers") u) = 0.
Proof.
  destruct (execute_node_empty_plan demo_python no_plan_env
              (initial_state "list containers") world0 eq_refl)
    as (u & H & _ & _ & _ & R & I & _).
  exists u. split; [exact H|]. split; [exact R | exact I].
Defined.

(** * Further properties *)

(** ** The plan parser *)

Lemma split_lines_not_nil s : split_lines s <> [].
Proof.
  destruct s as [|c t]; cbn [split_lines]; [intros E; discriminate E|].
  destruct (Ascii.eqb c (ascii_of_nat 10)); [intros E; discriminate E|].
  destruct (split_lines t); intros E; discriminate E.
Qed.

Lemma split_lines_app a b :
  split_lines (a ++ nl ++ b) = (split_lines a ++ split_lines b)%list.
Proof.
  induction a as [|c t IH]; [reflexivity|].
  cbn [append split_lines]. rewrite IH.
  destruct (Ascii.eqb c (ascii_of_nat 10)); [reflexivity|].
  destruct (split_lines t) as [|h r] eqn:E; [|reflexivity].
  now destruct (split_lines_not_nil t).
Qed.

Lemma split_lines_one_line s : no_newline s = true -> split_lines s = [s].
Proof.
  induction s as [|c t IH]; [reflexivity|].
  cbn. intros H. apply andb_true_iff in H. destruct H as [Hc Ht].
  apply negb_true_iff in Hc. rewrite Hc, (IH Ht). reflexivity.
Qed.

(** A text is its [rstrip] followed by whitespace only. *)
Lemma rstrip_split s :
  exists w, s = (rstrip s ++ w)%string /\ lstrip w = EmptyString.
Proof.
  induction s as [|c t (w & E & H)]; [now exists EmptyString|].
  destruct (rstrip_cons c t) as [[A R]|[A R]]; rewrite R.
  - exists (String c t). split; [reflexivity|].
    unfold all_space in A. now destruct (lstrip (String c t)).
  - exists w. split; [cbn [append]; now rewrite <- E | exact H].
Qed.

Lemma rstrip_idem s : rstrip (rstrip s) = rstrip s.
Proof.
  induction s as [|c t IH]; [reflexivity|].
  destruct (rstrip_cons c t) as [[A R]|[A R]]; rewrite R; [reflexivity|].
  destruct (rstrip_cons c (rstrip t)) as [[A' R']|[A' R']]; rewrite R'.
  - exfalso. destruct (rstrip_split t) as (w & E & H).
    unfold all_space in A, A'.
    assert (L : lstrip (String c (rstrip t) ++ w) = EmptyString).
    { rewrite lstrip_app; [exact H|]. now destruct (lstrip (String c (rstrip t))). }
    cbn [append] in L. rewrite <- E in L. rewrite L in A. discriminate A.
  - now rewrite IH.
Qed.

(** Cutting whitespace off the end puts none in front. *)
Lemma skip_space_rstrip s : skip_space s = None -> skip_space (rstrip s) = None.
Proof.
  destruct s as [|c t]; [reflexivity|].
  destruct (rstrip_cons c t) as [[_ R]|[_ R]]; rewrite R; [reflexivity|].
  cbn [skip_space]. destruct (is_space c); [discriminate|].
  destruct t as [|d t2]; [reflexivity|].
  destruct (rstrip_cons d t2) as [[_ R2]|[_ R2]]; rewrite R2; [reflexivity|].
  destruct (is_space2 c d); [discriminate|].
  destruct t2 as [|e t3]; [reflexivity|].
  destruct (rstrip_cons e t3) as [[_ R3]|[_ R3]]; rewrite R3; [reflexivity|].
  destruct (is_space3 c d e); [discriminate | reflexivity].
Qed.

Lemma strip_idem s : strip (strip s) = strip s.
Proof.
  unfold strip.
  rewrite (lstrip_fixed (rstrip (lstrip s)));
    [apply rstrip_idem | apply skip_space_rstrip, skip_space_lstrip].
Qed.

(** X1. The plan parser works line by line: the plan of two texts joined
    by a line feed is the plan of the first followed by the plan of the
    second. *)
Theorem parse_plan_app :
  forall a b, parse_plan (a ++ nl ++ b) = (parse_plan a ++ parse_plan b)%list.
Proof.
  intros a b. unfold parse_plan.
  now rewrite split_lines_app, filter_app, map_app.
Qed.

(** X2. Every step of a parsed plan is a stripped line of the reply: it
    has no whitespace, as [str.strip] sees it, at either end, is not
    empty and starts with one of the ordinals 1. to 19. *)
Theorem parse_plan_steps :
  forall text s,
    In s (parse_plan text) ->
    strip s = s
    /\ s <> EmptyString
    /\ is_numbered s = true
    /\ exists line, In line (split_lines text) /\ s = strip line.
Proof.
  intros text s H. unfold parse_plan in H.
  apply in_map_iff in H. destruct H as (line & <- & H).
  apply filter_In in H. destruct H as [Hin Hc].
  apply andb_true_iff in Hc. destruct Hc as [Hn Hd].
  split; [apply strip_idem|]. split; [|split; [exact Hd | now exists line]].
  intros E. rewrite E in Hn. discriminate.
Qed.

Lemma parse_plan_steps_witness :
  parse_plan (nbsp ++ "1. List containers" ++ nl ++ " 2. Read the log" ++ nbsp)
  = ["1. List containers"; "2. Read the log"]
  /\ strip "2. Read the log" = "2. Read the log"
  /\ is_numbered "2. Read the log" = true.
Proof.
  split; [vm_compute; reflexivity|].
  destruct (parse_plan_steps
              (nbsp ++ "1. List containers" ++ nl ++ " 2. Read the log" ++ nbsp)
              "2. Read the log") as (A & _ & B & _).
  - vm_compute. right. left. reflexivity.
  - split; [exact A | exact B].
Defined.

Lemma parse_plan_one_step s : plan_step s -> parse_plan s = [s].
Proof.
  intros (Hs & Hn & Hl). unfold parse_plan.
  rewrite (split_lines_one_line s Hl). cbn [filter]. rewrite Hs, Hn.
  assert (N : nonempty s = true).
  { destruct s; [vm_compute in Hn; discriminate Hn | reflexivity]. }
  rewrite N. cbn [andb map]. now rewrite Hs.
Qed.

(** X3. Round trip: a list of well-formed steps (stripped, numbered 1. to
    19., one line each), joined by line feeds, parses back to the same
    list, whatever its length. *)
Theorem parse_plan_join :
  forall steps, Forall plan_step steps -> parse_plan (join nl steps) = steps.
Proof.
  intros steps H. induction H as [|s l Hs Hl IH]; [reflexivity|].
  destruct l as [|s' l'].
  - cbn. now apply parse_plan_one_step.
  - change (join nl (s :: s' :: l')) with (s ++ nl ++ join nl (s' :: l')).
    rewrite parse_plan_app, IH, (parse_plan_one_step Hs). reflexivity.
Qed.

Lemma parse_plan_join_witness :
  parse_plan (join nl (repeat "1. Retry" 25)) = repeat "1. Retry" 25.
Proof.
  apply parse_plan_join. apply Forall_forall. intros s H.
  apply repeat_spec in H. subst s. repeat split.
Defined.

Lemma append_assoc' (a b c : string) : ((a ++ b) ++ c = a ++ (b ++ c))%string.
Proof. induction a as [|x a IH]; cbn; [reflexivity | now rewrite IH]. Qed.

Lemma prefix_append a b : prefix a (a ++ b) = true.
Proof.
  induction a as [|x a IH]; cbn.
  - now destruct b.
  - destruct (ascii_dec x x) as [_|N]; [exact IH | now destruct N].
Qed.

Lemma digits_only_uint d : digits_only (NilEmpty.string_of_uint d) = true.
Proof. induction d; cbn; auto. Qed.

Lemma digits_only_str_nat n : digits_only (str_nat n) = true.
Proof. apply digits_only_uint. Qed.

Lemma str_nat_inj a b : str_nat a = str_nat b -> a = b.
Proof.
  unfold str_nat. intros E. apply Unsigned.to_uint_inj.
  pose proof (NilEmpty.usu (Nat.to_uint a)) as Ha.
  pose proof (NilEmpty.usu (Nat.to_uint b)) as Hb.
  rewrite E in Ha. rewrite Ha in Hb. now injection Hb.
Qed.

Lemma is_digit_not_dot c : is_digit c = true -> c <> "."%char.
Proof. intros H E. subst c. vm_compute in H. discriminate H. Qed.

Lemma prefix_cons x a y b :
  prefix (String x a) (String y b) = true -> x = y /\ prefix a b = true.
Proof.
  cbn [prefix]. destruct (ascii_dec x y) as [E|_]; [auto | discriminate].
Qed.

(** Two runs of digits followed by a dot: one is a prefix of the other
    only when they are the same digits. *)
Lemma digits_dot_aligned a :
  forall b rest,
    digits_only a = true -> digits_only b = true ->
    prefix (a ++ ".") (b ++ "." ++ rest) = true -> a = b.
Proof.
  induction a as [|x a IH]; intros b rest Ha Hb H.
  - destruct b as [|y b]; [reflexivity|].
    cbn [digits_only] in Hb. apply andb_true_iff in Hb. destruct Hb as [Hy _].
    cbn [append] in H. apply prefix_cons in H. destruct H as [E _].
    symmetry in E. now destruct (is_digit_not_dot Hy).
  - cbn [digits_only] in Ha. apply andb_true_iff in Ha. destruct Ha as [Hx Ha].
    destruct b as [|y b].
    + cbn [append] in H. apply prefix_cons in H. destruct H as [E _].
      now destruct (is_digit_not_dot Hx).
    + cbn [digits_only] in Hb. apply andb_true_iff in Hb. destruct Hb as [_ Hb].
      cbn [append] in H. apply prefix_cons in H. destruct H as [E H].
      subst y. f_equal. now apply (IH b rest).
Qed.

(** X4. A line that starts with the decimal number [n] and a dot counts
    as numbered exactly when [n] is between 1 and 19: the ordinals 0, 20
    and above are not recognised. *)
Theorem is_numbered_ordinal :
  forall n rest,
    is_numbered (str_nat n ++ "." ++ rest) = true <-> (1 <= n <= 19)%nat.
Proof.
  intros n rest. unfold is_numbered. rewrite existsb_exists. split.
  - intros (i & Hin & Hp). apply in_seq in Hin.
    assert (E : str_nat i = str_nat n).
    { apply (digits_dot_aligned (str_nat i) (str_nat n) rest);
        auto using digits_only_str_nat. }
    apply str_nat_inj in E. lia.
  - intros Hn. exists n. split; [apply in_seq; lia|].
    rewrite <- append_assoc'. apply prefix_append.
Qed.

(** ** The tool functions *)

Section ToolFacts.

Variable py : Python.
Variable env : Services.

Ltac tool_world U :=
  apply unless_error_world in U; destruct U as [->|[? U]];
  [ | unfold bind, lift, ret in U; repeat break_hyp ];
  eexists; eexists; (split; [reflexivity|]); split; reflexivity.

(** X5. A registered tool function runs exactly when the keyword
    arguments contain every parameter its registry entry documents and
    no [mcp_client]: then it makes exactly one call to the tool service
    and none to the model; otherwise it raises the [TypeError] of a bad
    call before any request is sent. *)
Theorem tool_call_arguments :
  forall name info kwargs w,
    lookup name (AVAILABLE_TOOLS py env) = Some info ->
    if arguments_fit info kwargs
    then exists o w',
           function info kwargs w = (o, w')
           /\ mcp_calls w' = S (mcp_calls w)
           /\ llm_calls w' = llm_calls w
    else function info kwargs w
         = (Raise (TypeError (BadArguments name kwargs)), w).
Proof.
  intros name info kwargs w H.
  destruct (lookup_registry py env name H)
    as [[-> ->]|[[-> ->]|[[-> ->]|[[-> ->]|[-> ->]]]]];
    unfold arguments_fit, has_key; cbn [parameters function forallb fst andb].
  - unfold docker_list_containers, has_key.
    destruct (lookup "mcp_client" kwargs); [reflexivity|]. cbn [negb].
    unfold bind at 1. rewrite call_tool_returns.
    match goal with |- context [unless_error py ?r ?k ?w0] =>
      destruct (unless_error py r k w0) as [o w'] eqn:U end.
    tool_world U.
  - unfold docker_exec_command, has_key.
    destruct (lookup "mcp_client" kwargs), (lookup "container_id" kwargs),
      (lookup "command" kwargs); try reflexivity. cbn [negb andb].
    unfold bind at 1. rewrite call_tool_returns.
    match goal with |- context [unless_error py ?r ?k ?w0] =>
      destruct (unless_error py r k w0) as [o w'] eqn:U end.
    tool_world U.
  - unfold filesystem_read, has_key.
    destruct (lookup "mcp_client" kwargs), (lookup "path" kwargs);
      try reflexivity. cbn [negb andb].
    unfold bind at 1. rewrite call_tool_returns.
    match goal with |- context [unless_error py ?r ?k ?w0] =>
      destruct (unless_error py r k w0) as [o w'] eqn:U end.
    tool_world U.
  - unfold filesystem_write, has_key.
    destruct (lookup "mcp_client" kwargs), (lookup "path" kwargs),
      (lookup "content" kwargs); try reflexivity. cbn [negb andb].
    unfold bind at 1. rewrite call_tool_returns.
    match goal with |- context [unless_error py ?r ?k ?w0] =>
      destruct (unless_error py r k w0) as [o w'] eqn:U end.
    tool_world U.
  - unfold filesystem_list, has_key.
    destruct (lookup "mcp_client" kwargs), (lookup "path" kwargs);
      try reflexivity. cbn [negb andb].
    unfold bind at 1. rewrite call_tool_returns.
    match goal with |- context [unless_error py ?r ?k ?w0] =>
      destruct (unless_error py r k w0) as [o w'] eqn:U end.
    tool_world U.
Qed.

Lemma unless_error_reports r rest w text :
  reply_error py r = Some text ->
  unless_error py
    match r with
    | Body v => v
    | HTTPFails msg => JObj [("error", JStr msg)]
    end rest w
  = (Ok ("Error: " ++ text), w).
Proof.
  unfold unless_error, bind, lift, ret.
  destruct r as [v|msg]; cbn [reply_error].
  - destruct v as [| | | | | |d]; try discriminate.
    destruct (lookup "error" d) as [x|] eqn:E; [|discriminate].
    intros H. injection H as <-.
    cbn [py_in py_getitem]. unfold has_key. rewrite E. reflexivity.
  - intros H. injection H as <-. reflexivity.
Qed.

(** X6. When the arguments fit, a registered tool function turns every
    failure of the tool service, a transport failure as well as a reply
    object with an ["error"] entry, into the returned text
    "Error: <failure>"; it does not raise. *)
Theorem tool_reports_failure :
  forall name info kwargs w text,
    lookup name (AVAILABLE_TOOLS py env) = Some info ->
    arguments_fit info kwargs = true ->
    (forall t p, reply_error py (mcp env (mcp_calls w) t p) = Some text) ->
    function info kwargs w = (Ok ("Error: " ++ text), bump_mcp w).
Proof.
  intros name info kwargs w text H F R.
  destruct (lookup_registry py env name H)
    as [[-> ->]|[[-> ->]|[[-> ->]|[[-> ->]|[-> ->]]]]];
    unfold arguments_fit, has_key in F;
    cbn [parameters function forallb fst andb] in F |- *.
  - unfold docker_list_containers, has_key.
    destruct (lookup "mcp_client" kwargs); [discriminate F|].
    unfold bind at 1. rewrite call_tool_returns.
    exact (unless_error_reports _ _ _ (R _ _)).
  - unfold docker_exec_command, has_key.
    destruct (lookup "mcp_client" kwargs), (lookup "container_id" kwargs),
      (lookup "command" kwargs); try discriminate F.
    unfold bind at 1. rewrite call_tool_returns.
    exact (unless_error_reports _ _ _ (R _ _)).
  - unfold filesystem_read, has_key.
    destruct (lookup "mcp_client" kwargs), (lookup "path" kwargs);
      try discriminate F.
    unfold bind at 1. rewrite call_tool_returns.
    exact (unless_error_reports _ _ _ (R _ _)).
  - unfold filesystem_write, has_key.
    destruct (lookup "mcp_client" kwargs), (lookup "path" kwargs),
      (lookup "content" kwargs); try discriminate F.
    unfold bind at 1. rewrite call_tool_returns.
    exact (unless_error_reports _ _ _ (R _ _)).
  - unfold filesystem_list, has_key.
    destruct (lookup "mcp_client" kwargs), (lookup "path" kwargs);
      try discriminate F.
    unfold bind at 1. rewrite call_tool_returns.
    exact (unless_error_reports _ _ _ (R _ _)).
Qed.

End ToolFacts.

Lemma tool_call_arguments_witness :
  filesystem_read demo_python offline_env [("file", JStr "notes.txt")] world0
  = (Raise (TypeError (BadArguments "filesystem_read" [("file", JStr "notes.txt")])),
     world0).
Proof.
  exact (@tool_call_arguments demo_python offline_env "filesystem_read" _
           [("file", JStr "notes.txt")] world0 eq_refl).
Defined.

Lemma tool_reports_failure_witness :
  filesystem_read demo_python offline_env [("path", JStr "notes.txt")] world0
  = (Ok "Error: connection refused", bump_mcp world0).
Proof.
  exact (@tool_reports_failure demo_python offline_env "filesystem_read" _
           [("path", JStr "notes.txt")] world0 "connection refused"
           eq_refl eq_refl (fun _ _ => eq_refl)).
Defined.


(** ** The Step Executor, branch by branch *)

Section ExecuteFacts.

Variable py : Python.
Variable env : Services.

Ltac enter_step Hp Hi :=
  unfold execute_node;
  destruct (plan _) as [|? ?] eqn:?; [congruence|];
  apply Nat.leb_gt in Hi; rewrite Hi;
  unfold try_except, bind, lift, llm_ainvoke, ret.

(** X7. When the model call of the Step Executor fails, the step is
    recorded with the failure text as its error, the cursor advances by
    one and the tool service is not called. *)
Theorem execute_node_model_failure :
  forall st w msg,
    plan st <> [] ->
    (iteration st < List.length (plan st))%nat ->
    llm env (llm_calls w) (execute_prompt py env (current_step st)) = LLMFails msg ->
    execute_node py env st w
    = (Ok (advance (iteration st) (error_result (current_step st) msg)), bump_llm w).
Proof.
  intros st w msg Hp Hi Hl. unfold current_step in *.
  enter_step Hp Hi. rewrite Hl. reflexivity.
Qed.

(** X8. A tool selection that does not decode (the decoder raises) or
    decodes to something other than an object is recorded as the error
    of the step, with the text of the exception; the cursor advances and
    the tool service is not called. *)
Theorem execute_node_bad_selection :
  forall st w reply e,
    plan st <> [] ->
    (iteration st < List.length (plan st))%nat ->
    llm env (llm_calls w) (execute_prompt py env (current_step st)) = Content reply ->
    selection_error (json_loads py (strip reply)) = Some e ->
    execute_node py env st w
    = (Ok (advance (iteration st) (error_result (current_step st) (str_exn py e))),
       bump_llm w).
Proof.
  intros st w reply e Hp Hi Hl He. unfold current_step in *.
  enter_step Hp Hi. rewrite Hl.
  destruct (json_loads py (strip reply)) as [v|e0]; cbn [selection_error] in He.
  - destruct v; try discriminate He; injection He as <-; reflexivity.
  - injection He as <-. reflexivity.
Qed.

(** X9. When the chosen tool is registered but its parameters are not an
    object, or do not fit the tool, the [TypeError] is recorded as the
    error of the step; the cursor advances and no request is sent. *)
Theorem execute_node_bad_arguments :
  forall st w reply fields name info params te,
    plan st <> [] ->
    (iteration st < List.length (plan st))%nat ->
    llm env (llm_calls w) (execute_prompt py env (current_step st)) = Content reply ->
    json_loads py (strip reply) = Ok (JObj fields) ->
    lookup "tool" fields = Some (JStr name) ->
    lookup name (AVAILABLE_TOOLS py env) = Some info ->
    py_get (JObj fields) "parameters" (JObj []) = Ok params ->
    argument_error name info params = Some te ->
    execute_node py env st w
    = (Ok (advance (iteration st)
             (error_result (current_step st) (str_exn py (TypeError te)))),
       bump_llm w).
Proof.
  intros st w reply fields name info params te Hp Hi Hl Hj Ht Hr Hq Ha.
  unfold current_step in *. enter_step Hp Hi. rewrite Hl, Hj.
  cbn [py_get] in Hq |- *. rewrite Ht.
  assert (G : forall w0,
             call_with (function info) params w0
             = (Raise (TypeError te), w0)).
  { intros w0. unfold argument_error in Ha.
    destruct params as [| | | | | |kwargs];
      try (injection Ha as <-; reflexivity).
    pose proof (tool_call_arguments py env name kwargs w0 Hr) as T.
    destruct (arguments_fit info kwargs); [discriminate Ha|].
    injection Ha as <-. exact T. }
  destruct (lookup "parameters" fields) as [q|];
    injection Hq as Hq; subst params; cbn [registry_find]; rewrite Hr;
    rewrite G; reflexivity.
Qed.

(** X10. When the chosen tool is registered and its arguments fit, a
    failure of the tool service (no reply, or a reply object with an
    ["error"] entry) ends up in the ["result"] of the recorded step as
    the text "Error: <failure>"; the step has no ["error"] entry. *)
Theorem execute_node_tool_failure_is_output :
  forall st w reply fields name info kwargs text,
    plan st <> [] ->
    (iteration st < List.length (plan st))%nat ->
    llm env (llm_calls w) (execute_prompt py env (current_step st)) = Content reply ->
    json_loads py (strip reply) = Ok (JObj fields) ->
    lookup "tool" fields = Some (JStr name) ->
    lookup name (AVAILABLE_TOOLS py env) = Some info ->
    py_get (JObj fields) "parameters" (JObj []) = Ok (JObj kwargs) ->
    arguments_fit info kwargs = true ->
    (forall t p, reply_error py (mcp env (mcp_calls w) t p) = Some text) ->
    execute_node py env st w
    = (Ok (advance (iteration st)
             {| step := Some (current_step st); tool := Some name;
                result := Some ("Error: " ++ text); error := None |}),
       bump_mcp (bump_llm w)).
Proof.
  intros st w reply fields name info kwargs text Hp Hi Hl Hj Ht Hr Hq Hf Hm.
  unfold current_step in *. enter_step Hp Hi. rewrite Hl, Hj.
  cbn [py_get] in Hq |- *. rewrite Ht.
  pose proof (@tool_reports_failure py env name info kwargs (bump_llm w) text
                Hr Hf Hm) as T.
  unfold bump_llm in T.
  destruct (lookup "parameters" fields) as [q|];
    injection Hq as Hq; subst; cbn [registry_find]; rewrite Hr;
    cbn [call_with]; rewrite T; reflexivity.
Qed.

End ExecuteFacts.

Lemma execute_node_model_failure_witness :
  execute_node demo_python offline_env (one_step_state "1. Read the notes") world0
  = (Ok (advance 0 (error_result "1. Read the notes" "connection refused")),
     bump_llm world0).
Proof.
  apply (@execute_node_model_failure demo_python offline_env
           (one_step_state "1. Read the notes") world0 "connection refused").
  - discriminate.
  - cbn. lia.
  - reflexivity.
Defined.

Lemma execute_node_bad_selection_witness :
  execute_node scenario_python plain_text_env
    (one_step_state "1. List docker containers") world0
  = (Ok (advance 0 (error_result "1. List docker containers"
                      "Expecting value: line 1 column 1 (char 0)")),
     bump_llm world0).
Proof.
  apply (@execute_node_bad_selection scenario_python plain_text_env
           (one_step_state "1. List docker containers") world0
           "Use docker_list_containers"
           (JSONDecodeError "Expecting value: line 1 column 1 (char 0)")).
  - discriminate.
  - cbn. lia.
  - reflexivity.
  - reflexivity.
Defined.

Lemma execute_node_bad_arguments_witness :
  execute_node scenario_python read_without_path_env
    (one_step_state "1. Read the notes") world0
  = (Ok (advance 0 (error_result "1. Read the notes" "error")), bump_llm world0).
Proof.
  exact (@execute_node_bad_arguments scenario_python read_without_path_env
           (one_step_state "1. Read the notes") world0
           (tool_choice_text "filesystem_read")
           [("tool", JStr "filesystem_read"); ("parameters", JObj [])]
           "filesystem_read" _ (JObj []) (BadArguments "filesystem_read" [])
           ltac:(discriminate) ltac:(cbn; lia)
           eq_refl eq_refl eq_refl eq_refl eq_refl eq_refl).
Defined.

Lemma execute_node_tool_failure_is_output_witness :
  execute_node scenario_python read_unreachable_env
    (one_step_state "1. Read the notes") world0
  = (Ok (advance 0 (tool_result "1. Read the notes" "filesystem_read"
                      "Error: connection refused")),
     bump_mcp (bump_llm world0)).
Proof.
  exact (@execute_node_tool_failure_is_output scenario_python read_unreachable_env
           (one_step_state "1. Read the notes") world0 read_choice_text
           [("tool", JStr "filesystem_read");
            ("parameters", JObj [("path", JStr "notes.txt")])]
           "filesystem_read" _ [("path", JStr "notes.txt")] "connection refused"
           ltac:(discriminate) ltac:(cbn; lia)
           eq_refl eq_refl eq_refl eq_refl eq_refl eq_refl
           (fun _ _ => eq_refl)).
Defined.

(** ** Runs: what every super-step keeps *)

Section RunFacts.

Variable py : Python.
Variable env : Services.

(** The three shapes of what the Step Executor returns, with the calls
    it made. *)
Lemma execute_node_shape st w :
  exists u w',
    execute_node py env st w = (Ok u, w')
    /\ ((plan st = [] /\ u = no_plan_update /\ w' = w)
        \/ (plan st <> [] /\ (List.length (plan st) <= iteration st)%nat
            /\ u = finish true /\ w' = w)
        \/ (plan st <> [] /\ (iteration st < List.length (plan st))%nat
            /\ (exists r, u = advance (iteration st) r
                          /\ step r = Some (current_step st))
            /\ llm_calls w' = S (llm_calls w)
            /\ (mcp_calls w <= mcp_calls w' <= S (mcp_calls w))%nat)).
Proof.
  destruct (plan st) as [|s0 rest] eqn:E.
  - rewrite (execute_node_no_plan py env st w E). eauto 10.
  - assert (Hp : plan st <> []) by (rewrite E; discriminate).
    rewrite <- E.
    destruct (Nat.le_gt_cases (List.length (plan st)) (iteration st)) as [Hi|Hi].
    + rewrite (execute_node_past_end py env st w Hp Hi). eauto 10.
    + assert (G : exists r w',
                 execute_node py env st w = (Ok (advance (iteration st) r), w')
                 /\ step r = Some (current_step st)
                 /\ llm_calls w' = S (llm_calls w)
                 /\ (mcp_calls w <= mcp_calls w' <= S (mcp_calls w))%nat).
      { unfold execute_node, current_step. rewrite E, <- E.
        pose proof Hi as Hi'. apply Nat.leb_gt in Hi'. rewrite Hi'.
        unfold try_except, bind, lift, llm_ainvoke, ret.
        destruct (llm env (llm_calls w) _) as [reply|msg];
          [|eexists; eexists; split; [reflexivity|]; cbn; repeat split; lia].
        destruct (json_loads py (strip reply)) as [d|e];
          [|eexists; eexists; split; [reflexivity|]; cbn; repeat split; lia].
        destruct (py_get d "tool" JNull) as [tn|e];
          [|eexists; eexists; split; [reflexivity|]; cbn; repeat split; lia].
        destruct (py_get d "parameters" (JObj [])) as [params|e];
          [|eexists; eexists; split; [reflexivity|]; cbn; repeat split; lia].
        destruct (registry_find py env tn) as [[[name info]|]|e] eqn:R;
          try (eexists; eexists; split; [reflexivity|]; cbn; repeat split; lia).
        assert (Hr : lookup name (AVAILABLE_TOOLS py env) = Some info).
        { unfold registry_find in R. destruct tn; try discriminate R.
          destruct (lookup s (AVAILABLE_TOOLS py env)) eqn:L;
            inversion R; subst; exact L. }
        set (w1 := {| llm_calls := S (llm_calls w); mcp_calls := mcp_calls w |}).
        assert (T : exists o w2,
                   call_with (function info) params w1 = (o, w2)
                   /\ llm_calls w2 = llm_calls w1
                   /\ (mcp_calls w1 <= mcp_calls w2 <= S (mcp_calls w1))%nat).
        { destruct params as [| | | | | |kwargs];
            try (eexists; eexists; split; [reflexivity|]; split; [reflexivity|lia]).
          cbn [call_with].
          pose proof (tool_call_arguments py env name kwargs w1 Hr) as T.
          destruct (arguments_fit info kwargs).
          - destruct T as (o & w2 & T & M & L).
            exists o, w2. split; [exact T|]. split; [exact L | lia].
          - rewrite T. eexists; eexists; split; [reflexivity|].
            split; [reflexivity | lia]. }
        destruct T as (o & w2 & T & L & M). rewrite T.
        destruct o; eexists; eexists; (split; [reflexivity|]);
          cbn [step tool_result error_result]; (split; [reflexivity|]);
          subst w1; cbn in L, M; split; lia. }
      destruct G as (r & w' & G & S & L & M).
      exists (advance (iteration st) r), w'. split; [exact G|].
      right. right. split; [exact Hp|]. split; [exact Hi|]. eauto.
Qed.

Lemma reflect_node_world st w :
  exists b w',
    reflect_node py env st w = (Ok (finish b), w')
    /\ (w' = w \/ w' = bump_llm w)
    /\ (b = false ->
        (iteration st < List.length (plan st))%nat
        /\ (iteration st < max_iterations)%nat).
Proof.
  unfold reflect_node.
  destruct ((List.length (plan st) <=? iteration st)%nat
            || (max_iterations <=? iteration st)%nat) eqn:G.
  - exists true, w. split; [reflexivity|]. split; [now left | discriminate].
  - apply orb_false_iff in G. destruct G as [G1 G2].
    apply Nat.leb_gt in G1. apply Nat.leb_gt in G2.
    unfold try_except, bind, llm_ainvoke, ret.
    destruct (llm env (llm_calls w) (reflect_prompt py st)) as [reply|msg].
    + destruct (contains "DONE" (upper (strip reply)));
        eexists; eexists; (split; [reflexivity|]); (split; [now right|]);
        auto; discriminate.
    + eexists; eexists; (split; [reflexivity|]); (split; [now right|]);
        discriminate.
Qed.

(** Everything one super-step does to the state and to the counters. *)
Lemma graph_step_effect n st w :
  exists t' st' w',
    graph_step py env n st w = (Ok (t', st'), w')
    /\ current_task st' = current_task st
    /\ (exists m, messages st' = (messages st ++ m)%list
                  /\ Forall (fun x => role x = "assistant") m
                  /\ List.length m = match n with NPlan => 1 | _ => 0 end)
    /\ (exists l, tool_results st' = (tool_results st ++ l)%list
                  /\ (List.length l <= match n with NExecute => 1 | _ => 0 end)%nat)
    /\ (iteration st <= iteration st')%nat
    /\ (llm_calls w <= llm_calls w' <= S (llm_calls w))%nat
    /\ (mcp_calls w <= mcp_calls w')%nat
    /\ (mcp_calls w' + iteration st <= mcp_calls w + iteration st')%nat.
Proof.
  unfold graph_step, bind, ret. destruct n; cbn [run_node].
  - destruct (plan_node_returns py env st w) as (p & text & H & _).
    rewrite H. eexists; eexists; eexists. split; [reflexivity|].
    cbn. split; [reflexivity|].
    split; [exists [assistant text]; repeat split; repeat constructor|].
    split; [exists []; rewrite app_nil_r; split; [reflexivity | cbn; lia]|].
    lia.
  - destruct (execute_node_shape st w) as (u & w' & H & C). rewrite H.
    eexists; eexists; eexists. split; [reflexivity|].
    destruct C as [(P & -> & ->)|[(P & L & -> & ->)|(P & L & (r & -> & S) & A & B)]];
      cbn; (split; [reflexivity|]);
      (split; [exists []; rewrite app_nil_r; repeat split; constructor|]).
    + split; [exists [no_plan_result]; split; [reflexivity | cbn; lia]|]. lia.
    + split; [exists []; rewrite app_nil_r; split; [reflexivity | cbn; lia]|]. lia.
    + split; [exists [r]; split; [reflexivity | cbn; lia]|]. lia.
  - destruct (reflect_node_world st w) as (b & w' & H & W & _). rewrite H.
    eexists; eexists; eexists. split; [reflexivity|].
    cbn. split; [reflexivity|].
    split; [exists []; rewrite app_nil_r; repeat split; constructor|].
    split; [exists []; rewrite app_nil_r; split; [reflexivity | cbn; lia]|].
    destruct W as [->| ->]; cbn; lia.
Qed.

Lemma extends_refl st : extends st st.
Proof.
  repeat split; try lia.
  - exists []. now rewrite app_nil_r.
  - exists []. rewrite app_nil_r. split; [reflexivity | constructor].
Qed.

Lemma extends_trans a b c : extends a b -> extends b c -> extends a c.
Proof.
  intros ((l1 & R1) & (m1 & M1 & F1) & I1 & T1)
         ((l2 & R2) & (m2 & M2 & F2) & I2 & T2).
  repeat split.
  - exists (l1 ++ l2)%list. now rewrite R2, R1, app_assoc.
  - exists (m1 ++ m2)%list. split; [now rewrite M2, M1, app_assoc|].
    apply Forall_app. auto.
  - lia.
  - congruence.
Qed.

(** Everything [k] super-steps do, with the nodes they ran. *)
Lemma graph_steps_effect k :
  forall t st w,
  exists t' st' w' tr,
    graph_steps py env k t st w = (Ok (t', st'), w')
    /\ node_trace py env k t st w = (Ok tr, w')
    /\ extends st st'
    /\ List.length (messages st') = List.length (messages st) + planning_count tr
    /\ (List.length (tool_results st')
        <= List.length (tool_results st) + execute_count tr)%nat
    /\ (llm_calls w <= llm_calls w' <= llm_calls w + k)%nat
    /\ (mcp_calls w <= mcp_calls w')%nat
    /\ (mcp_calls w' + iteration st <= mcp_calls w + iteration st')%nat.
Proof.
  induction k as [|k IH]; intros t st w.
  - exists t, st, w, []. cbn. repeat split; auto using extends_refl; try lia.
    + exists []. now rewrite app_nil_r.
    + exists []. rewrite app_nil_r. split; [reflexivity | constructor].
  - destruct t as [n|].
    + destruct (graph_step_effect n st w)
        as (t1 & st1 & w1 & H1 & T1 & (m & M1 & F1 & N1) & (l & R1 & L1) & I1 & C1 & D1 & E1).
      destruct (IH t1 st1 w1)
        as (t2 & st2 & w2 & tr & H2 & Tr2 & X2 & M2 & R2 & C2 & D2 & E2).
      exists t2, st2, w2, (n :: tr).
      cbn [graph_steps node_trace]. unfold bind, ret. rewrite H1. cbn [fst snd].
      rewrite H2, Tr2.
      split; [reflexivity|]. split; [reflexivity|].
      split.
      { apply extends_trans with st1; [|exact X2].
        repeat split; eauto. }
      rewrite M2, M1, length_app, N1.
      rewrite R1, length_app in R2.
      unfold planning_count, execute_count in *. cbn [filter].
      destruct n; cbn [is_plan_node is_execute_node List.length] in *;
        repeat split; lia.
    + exists END, st, w, []. cbn. repeat split; auto using extends_refl; try lia.
      * exists []. now rewrite app_nil_r.
      * exists []. rewrite app_nil_r. split; [reflexivity | constructor].
Qed.

Lemma run_cursor_cap task k w0 t st w :
  graph_steps py env k entry_point (initial_state task) w0 = (Ok (t, st), w) ->
  (iteration st <= max_iterations)%nat.
Proof.
  intros H.
  destruct (@graph_steps_invariant py env cursor_below_cap
              (fun n st w t' st' w' H Hs =>
                 @cursor_below_cap_step py env n st w t' st' w' H Hs)
              k entry_point (initial_state task) w0)
    as (t1 & st1 & w1 & H1 & I).
  - unfold cursor_below_cap, max_iterations. cbn. lia.
  - rewrite H in H1. inversion H1; subst.
    unfold cursor_below_cap in I. destruct t1 as [[| |]|]; lia.
Qed.

Lemma one_no_plan_step n st w t' st' w' :
  one_no_plan (Node n) st ->
  graph_step py env n st w = (Ok (t', st'), w') ->
  one_no_plan t' st'.
Proof.
  intros P Hs. destruct n.
  - destruct (graph_step_plan py env st w) as (st1 & w1 & H1 & _ & R & _).
    rewrite H1 in Hs. inversion Hs; subst. cbn in *. now rewrite R.
  - destruct (graph_step_execute py env st w) as (st1 & w1 & H1 & Pl & X).
    rewrite H1 in Hs. inversion Hs; subst. cbn in *.
    destruct X as [E R _ _|_ _ R _ _|r _ _ R S _ _ _]; rewrite R.
    + right. rewrite no_plan_count_snoc, P. split; [reflexivity|].
      now rewrite Pl.
    + now left.
    + left. rewrite no_plan_count_snoc, P. unfold is_no_plan. now rewrite S.
  - destruct (graph_step_reflect py env st w)
      as (t1 & st1 & w1 & H1 & Pl & R & _ & E).
    rewrite H1 in Hs. inversion Hs; subst. cbn in P.
    destruct E as [[-> _]|(-> & _ & L & _)]; cbn; rewrite R.
    + destruct P as [->|[-> _]]; lia.
    + destruct P as [P|[_ P]]; [exact P|].
      rewrite P in L. cbn in L. lia.
Qed.

End RunFacts.

(** X11. Call budget.  After [k] super-steps a run has made at most [k]
    model calls, and never more tool-service calls than the cursor, which
    is at most 10.  Whatever the recursion limit, [ainvoke] ends, by
    returning or by raising, after at most min(limit, 30) model calls and
    10 tool-service calls; with a limit above thirty it returns. *)
Theorem run_call_budget :
  forall py env task w0,
    (forall k, exists t st w,
        graph_steps py env k entry_point (initial_state task) w0 = (Ok (t, st), w)
        /\ (llm_calls w <= llm_calls w0 + k)%nat
        /\ (mcp_calls w <= mcp_calls w0 + iteration st)%nat
        /\ (iteration st <= max_iterations)%nat)
    /\ (forall limit,
          exists o wf,
            ainvoke py env limit (initial_state task) w0 = (o, wf)
            /\ (llm_calls wf <= llm_calls w0 + Nat.min limit (3 * max_iterations))%nat
            /\ (mcp_calls wf <= mcp_calls w0 + max_iterations)%nat
            /\ ((3 * max_iterations < limit)%nat -> exists stf, o = Ok stf)).
Proof.
  intros py env task w0.
  assert (A : forall k, exists t st w,
             graph_steps py env k entry_point (initial_state task) w0
             = (Ok (t, st), w)
             /\ (llm_calls w <= llm_calls w0 + k)%nat
             /\ (mcp_calls w <= mcp_calls w0 + iteration st)%nat
             /\ (iteration st <= max_iterations)%nat).
  { intros k.
    destruct (graph_steps_effect py env k entry_point (initial_state task) w0)
      as (t & st & w & tr & H & _ & _ & _ & _ & C & _ & E).
    exists t, st, w. split; [exact H|].
    pose proof (run_cursor_cap py env task k w0 H) as I.
    cbn in E. repeat split; lia. }
  split; [exact A|].
  intros limit.
  destruct (ainvoke_returns py env task w0)
    as (n & stf & wf & Hn & Hs & _ & _ & Hl).
  destruct (Nat.eq_dec limit 0) as [Z|Z].
  { subst limit.
    exists (Raise (ValueError "recursion_limit must be at least 1")), w0.
    split; [reflexivity|]. unfold max_iterations. repeat split; try lia. }
  destruct (Hl limit) as [R C].
  destruct (Nat.lt_ge_cases (3 * n) limit) as [L|L].
  - destruct (R L) as [Ha _].
    destruct (A (3 * n)) as (t & st & w & H & Cl & M & I).
    rewrite Hs in H. inversion H; subst.
    exists (Ok st), w. split; [exact Ha|].
    unfold max_iterations in *. repeat split; try lia. intros _. now exists st.
  - destruct C as (w' & Ha & Ht); [lia|].
    destruct (node_trace_returns py env limit entry_point (initial_state task) w0)
      as (t1 & st1 & w1 & tr1 & Hs1 & Ht1 & _).
    rewrite Ht in Ht1. injection Ht1 as _ <-.
    destruct (A limit) as (t & st & w & H & Cl & M & I).
    rewrite Hs1 in H. inversion H; subst.
    exists (Raise (GraphRecursionError limit)), w. split; [exact Ha|].
    unfold max_iterations in *. repeat split; try lia.
Qed.

Lemma run_call_budget_witness :
  exists stf wf,
    ainvoke demo_python long_plan_env 31 (initial_state "list containers") world0
    = (Ok stf, wf)
    /\ (llm_calls wf <= 30)%nat /\ (mcp_calls wf <= 10)%nat.
Proof.
  destruct (proj2 (run_call_budget demo_python long_plan_env "list containers" world0) 31)
    as (o & wf & H & L & M & R).
  destruct R as (stf & ->); [unfold max_iterations; lia|].
  exists stf, wf. split; [exact H|]. split; [exact L | exact M].
Defined.

(** X12. Results and messages are append-only and the cursor never goes
    back: the state after [k + j] super-steps of a run continues the
    state after [k]; every message added after the task is the
    assistant's, and the task itself does not change. *)
Theorem run_append_only :
  forall py env task w0 k j,
  exists t1 st1 w1 t2 st2 w2,
    graph_steps py env k entry_point (initial_state task) w0 = (Ok (t1, st1), w1)
    /\ graph_steps py env (k + j) entry_point (initial_state task) w0
       = (Ok (t2, st2), w2)
    /\ extends st1 st2
    /\ extends (initial_state task) st1.
Proof.
  intros py env task w0 k j.
  destruct (graph_steps_effect py env k entry_point (initial_state task) w0)
    as (t1 & st1 & w1 & tr1 & H1 & _ & X1 & _).
  destruct (graph_steps_effect py env j t1 st1 w1)
    as (t2 & st2 & w2 & tr2 & H2 & _ & X2 & _).
  exists t1, st1, w1, t2, st2, w2.
  rewrite graph_steps_add, H1. cbn [fst snd]. auto.
Qed.

(** X13. A run records the "No plan available" result at most once, so
    at every point the number of results is the cursor or the cursor
    plus one. *)
Theorem run_one_no_plan :
  forall py env task w0 k,
  exists t st w,
    graph_steps py env k entry_point (initial_state task) w0 = (Ok (t, st), w)
    /\ (no_plan_count (tool_results st) <= 1)%nat
    /\ (iteration st <= List.length (tool_results st) <= iteration st + 1)%nat.
Proof.
  intros py env task w0 k.
  destruct (@graph_steps_invariant py env
              (fun t st => one_no_plan t st /\ results_counted st)
              (fun n st w t' st' w' H Hs =>
                 conj (@one_no_plan_step py env n st w t' st' w' (proj1 H) Hs)
                      (@results_counted_step py env n st w t' st' w' (proj2 H) Hs))
              k entry_point (initial_state task) w0)
    as (t & st & w & H & P & R).
  - split; reflexivity.
  - exists t, st, w. split; [exact H|].
    assert (N : (no_plan_count (tool_results st) <= 1)%nat).
    { destruct t as [[| |]|]; cbn in P; lia. }
    unfold results_counted in R. lia.
Qed.

Lemma counts_of_rounds n :
  planning_count (concat (repeat round n)) = n
  /\ execute_count (concat (repeat round n)) = n.
Proof.
  unfold planning_count, execute_count.
  induction n as [|n [IH1 IH2]]; [split; reflexivity|].
  cbn. rewrite IH1, IH2. split; reflexivity.
Qed.

(** X14. A run returns status "success" exactly when the recursion
    limit is above the number of super-steps the graph takes, three for
    each of its [n <= 10] rounds, so always with a limit above thirty:
    the output then has the results, plan and messages of the final
    state, which has [finished = True]; the messages are the user's task
    followed by one assistant message per round, and there are at most
    [n] results.  With a limit of at least 1 and at most [3 * n] the run
    returns status "error" with the text of GraphRecursionError and
    nothing else, and with the limit 0 status "error" with the text of
    the engine's ValueError, without having run a node. *)
Theorem run_success :
  forall py env task w0,
    exists n stf wf,
      (1 <= n <= max_iterations)%nat
      /\ finished stf = true
      /\ (exists m,
            messages stf = {| role := "user"; content := task |} :: m
            /\ List.length m = n
            /\ Forall (fun x => role x = "assistant") m)
      /\ (List.length (tool_results stf) <= n)%nat
      /\ forall limit,
           ((3 * n < limit)%nat ->
            run py env limit task w0 =
              (Ok {| status := "success";
                     out_results := Some (tool_results stf);
                     out_plan := Some (plan stf);
                     out_messages := Some (messages stf);
                     out_error := None |}, wf))
           /\ ((1 <= limit <= 3 * n)%nat ->
               exists w',
                 run py env limit task w0 =
                   (Ok {| status := "error";
                          out_error := Some (str_exn py (GraphRecursionError limit));
                          out_results := None; out_plan := None;
                          out_messages := None |}, w'))
           /\ (limit = 0 ->
               run py env limit task w0 =
                 (Ok {| status := "error";
                        out_error := Some "recursion_limit must be at least 1";
                        out_results := None; out_plan := None;
                        out_messages := None |}, w0)).
Proof.
  intros py env task w0.
  destruct (ainvoke_returns py env task w0)
    as (n & stf & wf & Hn & Hs & F & Ht & Hl).
  destruct (graph_steps_effect py env (3 * n) entry_point (initial_state task) w0)
    as (t & st & w & tr & H & T & X & M & R & _).
  rewrite Hs in H. inversion H; subst t st w. clear H.
  assert (E : tr = concat (repeat round n)).
  { rewrite Ht in T. now inversion T. }
  subst tr. destruct (counts_of_rounds n) as [Cp Ce]. rewrite Cp in M. rewrite Ce in R.
  exists n, stf, wf. split; [exact Hn|]. split; [exact F|].
  destruct X as (_ & (m & Hm & Fm) & _). cbn in Hm, M, R.
  split; [exists m; split; [exact Hm|]; split; [|exact Fm];
          rewrite Hm in M; cbn in M; lia|].
  split; [exact R|].
  intros limit. destruct (Hl limit) as [A B]. split; [|split].
  - intros L. destruct (A L) as [Ha _].
    unfold run, try_except, bind, ret. rewrite Ha. reflexivity.
  - intros L. destruct (B L) as (w' & Ha & _). exists w'.
    unfold run, try_except, bind, ret. rewrite Ha. reflexivity.
  - intros ->. reflexivity.
Qed.

Lemma run_success_witness :
  exists n stf wf,
    (1 <= n <= max_iterations)%nat
    /\ run demo_python long_plan_env 31 "list containers" world0 =
         (Ok {| status := "success";
                out_results := Some (tool_results stf);
                out_plan := Some (plan stf);
                out_messages := Some (messages stf);
                out_error := None |}, wf)
    /\ finished stf = true
    /\ List.length (tool_results stf) = 10
    /\ fst (run demo_python long_plan_env 30 "list containers" world0) =
         Ok {| status := "error";
               out_error := Some "Recursion limit of 30 reached without hitting a stop condition";
               out_results := None; out_plan := None; out_messages := None |}.
Proof.
  destruct (run_success demo_python long_plan_env "list containers" world0)
    as (n & stf & wf & Hn & F & _ & _ & Hl).
  pose proof (proj1 (Hl 31)) as S31.
  assert (L : (3 * n < 31)%nat) by (unfold max_iterations in Hn; lia).
  specialize (S31 L).
  exists n, stf, wf.
  split; [exact Hn|]. split; [exact S31|]. split; [exact F|].
  split; [|vm_compute; reflexivity].
  assert (Q : match fst (run demo_python long_plan_env 31 "list containers" world0) with
              | Ok o => option_map (@List.length _) (out_results o)
              | Raise _ => None
              end = Some 10) by (vm_compute; reflexivity).
  rewrite S31 in Q. cbn in Q. now injection Q.
Defined.

(** ** The tool service and the client together *)

(** X15. A request whose body is an object without a ["parameters"]
    entry, which is how the client sends the arguments, is answered with
    the defaults by [docker_list] and [filesystem_list] and rejected with
    status 400 by every endpoint that needs an argument; the backend is
    not reached. *)
Theorem server_body_without_parameters :
  forall b n fields,
    lookup "parameters" fields = None ->
    Server.post b n "docker_list" (JObj fields)
    = Server.ok (list_containers b n (JBool true))
    /\ Server.post b n "filesystem_list" (JObj fields)
       = Server.ok (list_directory b n (JStr "."))
    /\ Server.post b n "docker_exec" (JObj fields)
       = Server.bad_request "Missing container_id or command"
    /\ Server.post b n "docker_logs" (JObj fields)
       = Server.bad_request "Missing container_id"
    /\ Server.post b n "docker_inspect" (JObj fields)
       = Server.bad_request "Missing container_id"
    /\ Server.post b n "filesystem_read" (JObj fields)
       = Server.bad_request "Missing path"
    /\ Server.post b n "filesystem_write" (JObj fields)
       = Server.bad_request "Missing path or content"
    /\ Server.post b n "filesystem_delete" (JObj fields)
       = Server.bad_request "Missing path"
    /\ Server.post b n "filesystem_exists" (JObj fields)
       = Server.bad_request "Missing path".
Proof.
  intros b n fields H.
  unfold Server.post. cbn [lookup Server.routes String.eqb Ascii.eqb Bool.eqb].
  unfold parse_tool_request. rewrite H.
  repeat split.
Qed.

Lemma server_body_without_parameters_witness :
  Server.post scenario_backend 0 "filesystem_read" (JObj [("path", JStr "notes.txt")])
  = Server.bad_request "Missing path".
Proof.
  apply (server_body_without_parameters scenario_backend 0
           [("path", JStr "notes.txt")]).
  reflexivity.
Defined.

Section Served.

Variable py : Python.
Variable env : Services.
Variable b : Backend.
Variable status_text : nat -> string.

Hypothesis mcp_served : mcp env = served b status_text.

Lemma call_tool_served tool_name params w :
  call_tool py env tool_name params w =
    (Ok match served b status_text (mcp_calls w) tool_name params with
        | Body v => v
        | HTTPFails msg => JObj [("error", JStr msg)]
        end,
     bump_mcp w).
Proof. rewrite call_tool_returns, mcp_served. reflexivity. Qed.

(** X16. Against this server the client's [filesystem_read],
    [filesystem_write] and [docker_exec_command] can only fail: they send
    their arguments at the top level of the body, the server looks for
    them under ["parameters"], finds none and answers 400, and the tool
    function returns "Error: " followed by the text of that status.  The
    backend is never asked. *)
Theorem argument_tools_fail_through_server :
  forall name info kwargs w,
    lookup name (AVAILABLE_TOOLS py env) = Some info ->
    arguments_fit info kwargs = true ->
    name = "filesystem_read" \/ name = "filesystem_write"
    \/ name = "docker_exec_command" ->
    function info kwargs w = (Ok ("Error: " ++ status_text 400), bump_mcp w).
Proof.
  intros name info kwargs w H F N.
  destruct (lookup_registry py env name H)
    as [[-> ->]|[[-> ->]|[[-> ->]|[[-> ->]|[-> ->]]]]];
    try (destruct N as [N|[N|N]]; discriminate N);
    unfold arguments_fit, has_key in F;
    cbn [parameters function forallb fst andb] in F |- *.
  - unfold docker_exec_command, has_key.
    destruct (lookup "mcp_client" kwargs), (lookup "container_id" kwargs),
      (lookup "command" kwargs); try discriminate F.
    unfold bind at 1. rewrite call_tool_served. reflexivity.
  - unfold filesystem_read, has_key.
    destruct (lookup "mcp_client" kwargs), (lookup "path" kwargs);
      try discriminate F.
    unfold bind at 1. rewrite call_tool_served. reflexivity.
  - unfold filesystem_write, has_key.
    destruct (lookup "mcp_client" kwargs), (lookup "path" kwargs),
      (lookup "content" kwargs); try discriminate F.
    unfold bind at 1. rewrite call_tool_served. reflexivity.
Qed.

Lemma served_filesystem_list n p :
  served b status_text n "filesystem_list" (JObj [("path", p)])
  = Body (list_directory b n (JStr ".")).
Proof. reflexivity. Qed.

Lemma filesystem_list_served kwargs w p :
  lookup "mcp_client" kwargs = None ->
  lookup "path" kwargs = Some p ->
  filesystem_list py env kwargs w =
    unless_error py (list_directory b (mcp_calls w) (JStr "."))
      (files <- lift (py_get (list_directory b (mcp_calls w) (JStr "."))
                        "files" (JArr [])) ;;
       n <- lift (py_len files) ;;
       ret ("Found " ++ str_nat n ++ " items: " ++ py_str py files))
      (bump_mcp w).
Proof.
  intros Hc Hp. unfold filesystem_list, has_key. rewrite Hc, Hp.
  unfold bind at 1. rewrite call_tool_served, served_filesystem_list.
  reflexivity.
Qed.

(** X17. Against this server the path given to the client's
    [filesystem_list] has no effect: the request reaches the backend
    with the default directory ["."], and two calls with different paths
    return the same. *)
Theorem filesystem_list_ignores_path :
  forall kwargs1 kwargs2 w p1 p2,
    lookup "mcp_client" kwargs1 = None -> lookup "path" kwargs1 = Some p1 ->
    lookup "mcp_client" kwargs2 = None -> lookup "path" kwargs2 = Some p2 ->
    filesystem_list py env kwargs1 w = filesystem_list py env kwargs2 w
    /\ call_tool py env "filesystem_list" (JObj [("path", p1)]) w
       = (Ok (list_directory b (mcp_calls w) (JStr ".")), bump_mcp w).
Proof.
  intros kwargs1 kwargs2 w p1 p2 C1 P1 C2 P2. split.
  - now rewrite (filesystem_list_served kwargs1 w C1 P1),
                (filesystem_list_served kwargs2 w C2 P2).
  - now rewrite call_tool_served, served_filesystem_list.
Qed.

End Served.

Lemma argument_tools_fail_through_server_witness :
  filesystem_read scenario_python served_env [("path", JStr "notes.txt")] world0
  = (Ok "Error: Client error 400", bump_mcp world0).
Proof.
  exact (@argument_tools_fail_through_server scenario_python served_env
           scenario_backend scenario_status_text eq_refl
           "filesystem_read" _ [("path", JStr "notes.txt")] world0
           eq_refl eq_refl (or_introl eq_refl)).
Defined.

Lemma filesystem_list_ignores_path_witness :
  filesystem_list scenario_python served_env [("path", JStr "archive")] world0
  = filesystem_list scenario_python served_env [("path", JStr ".")] world0.
Proof.
  exact (proj1 (@filesystem_list_ignores_path scenario_python served_env
                  scenario_backend scenario_status_text eq_refl
                  [("path", JStr "archive")] [("path", JStr ".")] world0
                  (JStr "archive") (JStr ".") eq_refl eq_refl eq_refl eq_refl)).
Defined.

(** ** The JSON memory *)

Lemma lookup_dict_set_same d key value :
  lookup key (Memory.dict_set d key value) = Some value.
Proof.
  induction d as [|[k v] r IH]; cbn.
  - now rewrite String.eqb_refl.
  - destruct (String.eqb key k) eqn:E; cbn; rewrite E; [reflexivity | exact IH].
Qed.

Lemma lookup_dict_set_other d key value k' :
  k' <> key ->
  lookup k' (Memory.dict_set d key value) = lookup k' d.
Proof.
  intros N. induction d as [|[k v] r IH]; cbn.
  - apply String.eqb_neq in N. now rewrite N.
  - destruct (String.eqb key k) eqn:E; cbn.
    + apply String.eqb_eq in E. subst k.
      apply String.eqb_neq in N. now rewrite N.
    + now rewrite IH.
Qed.

Lemma stored_facts_not_strings fact l :
  Forall Memory.stored_fact l -> existsb (is_str fact) l = false.
Proof.
  induction 1 as [|f r (x & now & ->) _ IH]; [reflexivity|].
  cbn. exact IH.
Qed.

Lemma contents_snoc l cs fact now :
  Memory.contents l = Ok cs ->
  Memory.contents (l ++ [Memory.fact_entry fact now]) = Ok (cs ++ [JStr fact])%list.
Proof.
  revert cs. induction l as [|f r IH]; intros cs H.
  - cbn in H. inversion H; subst. reflexivity.
  - cbn [app Memory.contents] in *.
    destruct (py_getitem f "content") as [c|e]; [|discriminate H].
    destruct (Memory.contents r) as [cr|e]; [|discriminate H].
    inversion H; subst. now rewrite (IH cr eq_refl).
Qed.

Lemma contents_stored l :
  Forall Memory.stored_fact l -> exists cs, Memory.contents l = Ok cs.
Proof.
  induction 1 as [|f r (x & now & ->) _ (cs & IH)]; [now exists []|].
  exists (JStr x :: cs). cbn. now rewrite IH.
Qed.

(** X18. [add_fact] does not recognise a fact it has stored itself: on a
    memory whose facts were all written by [add_fact], adding a fact
    always appends a new entry, so [get_facts] afterwards is [get_facts]
    before followed by the fact, also when the fact was already there. *)
Theorem add_fact_always_appends :
  forall writable now fact s d l,
    Memory.memory s = JObj d ->
    lookup "facts" d = Some (JArr l) ->
    Forall Memory.stored_fact l ->
    exists s' cs,
      Memory.add_fact writable now fact s = Ok s'
      /\ Memory.get_facts s = Ok cs
      /\ Memory.get_facts s' = Ok (cs ++ [JStr fact])%list.
Proof.
  intros writable now fact s d l Hm Hf Hl.
  destruct (contents_stored Hl) as (cs & Hc).
  unfold Memory.add_fact, Memory.get_facts. rewrite Hm.
  cbn [py_get]. rewrite Hf. cbn [py_in].
  rewrite (stored_facts_not_strings fact Hl).
  eexists; exists cs. split; [reflexivity|]. split; [exact Hc|].
  cbn [Memory.save_json_memory Memory.memory py_get].
  rewrite lookup_dict_set_same. now apply contents_snoc.
Qed.

Lemma add_fact_always_appends_witness :
  exists s' s'',
    Memory.add_fact true "2024-01-01T10:00:00" "the door is blue"
      {| Memory.memory := Memory.empty_memory; Memory.json_file := None |} = Ok s'
    /\ Memory.add_fact true "2024-01-01T10:00:05" "the door is blue" s' = Ok s''
    /\ Memory.get_facts s'' = Ok [JStr "the door is blue"; JStr "the door is blue"].
Proof.
  destruct (@add_fact_always_appends true "2024-01-01T10:00:00" "the door is blue"
              {| Memory.memory := Memory.empty_memory; Memory.json_file := None |}
              _ [] eq_refl eq_refl (Forall_nil _))
    as (s' & cs & A & G & G').
  exists s'. inversion A; subst s'. eexists.
  split; [reflexivity|]. split; reflexivity.
Defined.

(** X19. [update_context] followed by [get_context]: on a memory whose
    context is a dict, or is missing, the context afterwards maps the key
    to the value, keeps every other key as it was, and the facts are
    untouched. *)
Theorem update_context_get_context :
  forall writable key value s d c,
    Memory.memory s = JObj d ->
    lookup "context" d = Some (JObj c) \/ (lookup "context" d = None /\ c = []) ->
    exists s' c',
      Memory.update_context writable key value s = Ok s'
      /\ Memory.get_context s' = Ok (JObj c')
      /\ lookup key c' = Some value
      /\ (forall k, k <> key -> lookup k c' = lookup k c)
      /\ py_get (Memory.memory s') "facts" (JArr [])
         = py_get (Memory.memory s) "facts" (JArr []).
Proof.
  intros writable key value s d c Hm Hc.
  unfold Memory.update_context, Memory.get_context. rewrite Hm.
  destruct Hc as [Hc|[Hc ->]]; rewrite Hc.
  - eexists; exists (Memory.dict_set c key value). split; [reflexivity|].
    cbn [Memory.save_json_memory Memory.memory py_get].
    rewrite lookup_dict_set_same. split; [reflexivity|].
    split; [apply lookup_dict_set_same|].
    split; [intros k N; now apply lookup_dict_set_other|].
    rewrite lookup_dict_set_other by discriminate. reflexivity.
  - eexists; exists [(key, value)]. split; [reflexivity|].
    cbn [Memory.save_json_memory Memory.memory py_get].
    rewrite lookup_dict_set_same. split; [reflexivity|].
    split; [cbn; now rewrite String.eqb_refl|].
    split; [intros k N; cbn; apply String.eqb_neq in N; now rewrite N|].
    rewrite lookup_dict_set_other by discriminate. reflexivity.
Qed.

Lemma update_context_get_context_witness :
  exists s' c',
    Memory.update_context true "owner" (JStr "ops")
      {| Memory.memory := Memory.empty_memory; Memory.json_file := None |} = Ok s'
    /\ Memory.get_context s' = Ok (JObj c')
    /\ lookup "owner" c' = Some (JStr "ops").
Proof.
  destruct (@update_context_get_context true "owner" (JStr "ops")
              {| Memory.memory := Memory.empty_memory; Memory.json_file := None |}
              _ [] eq_refl (or_introl eq_refl))
    as (s' & c' & U & G & L & _).
  exists s', c'. auto.
Defined.

(** ** The webhook endpoint *)

Section WebhookFacts.

Variable py : Python.
Variable env : Services.
Variable db : Storage.
Variable limit : nat.

Lemma run_returns task w :
  exists result w',
    run py env limit task w = (Ok result, w')
    /\ ((status result = "success"
         /\ exists stf, ainvoke py env limit (initial_state task) w = (Ok stf, w'))
        \/ (status result = "error"
            /\ exists e, ainvoke py env limit (initial_state task) w = (Raise e, w'))).
Proof.
  unfold run, try_except, bind, ret.
  destruct (ainvoke py env limit (initial_state task) w) as [[stf|e] w'] eqn:E.
  - eexists; exists w'. split; [reflexivity|]. left. cbn. split; [reflexivity|].
    now exists stf.
  - eexists; exists w'. split; [reflexivity|]. right. cbn. split; [reflexivity|].
    now exists e.
Qed.

Lemma update_all_frame items : forall a r a',
  update_all db items a = (r, a') ->
  conversation_history a' = conversation_history a /\ world a' = world a.
Proof.
  induction items as [|[key value] rest IH]; intros a r a' H; cbn in H.
  - inversion H; subst. now split.
  - destruct (Memory.update_context _ key value (memory_store a)) as [s|e].
    + apply IH in H. exact H.
    + inversion H; subst. now split.
Qed.

Lemma update_context_usable writable key value s d :
  Memory.memory s = JObj d ->
  context_usable d ->
  exists s' d',
    Memory.update_context writable key value s = Ok s'
    /\ Memory.memory s' = JObj d' /\ context_usable d'.
Proof.
  intros Hm Hc. unfold Memory.update_context. rewrite Hm.
  destruct Hc as [Hc|(c & Hc)]; rewrite Hc.
  - eexists; eexists. split; [reflexivity|]. split; [reflexivity|].
    right. eexists. apply lookup_dict_set_same.
  - eexists; eexists. split; [reflexivity|]. split; [reflexivity|].
    right. eexists. apply lookup_dict_set_same.
Qed.

Lemma update_all_usable items : forall a d,
  Memory.memory (memory_store a) = JObj d ->
  context_usable d ->
  exists a', update_all db items a = (Ok tt, a').
Proof.
  induction items as [|[key value] rest IH]; intros a d Hm Hc; cbn.
  - now exists a.
  - destruct (@update_context_usable (file_writable db (memory_store a))
                key value (memory_store a) d Hm Hc) as (s' & d' & U & Hm' & Hc').
    rewrite U. apply (IH (with_memory a s') d'); assumption.
Qed.

Lemma update_all_unusable key value rest a d v :
  Memory.memory (memory_store a) = JObj d ->
  lookup "context" d = Some v ->
  (forall c, v <> JObj c) ->
  update_all db ((key, value) :: rest) a = (Raise (TypeError (BadIndex v)), a).
Proof.
  intros Hm Hl Hv. cbn. unfold Memory.update_context. rewrite Hm, Hl.
  destruct v; try reflexivity. now destruct (Hv fields).
Qed.

Lemma add_conversation_history row a :
  conversation_history (add_conversation db row a)
  = if db_commit db (conversation_history a) row
    then (conversation_history a ++ [row])%list
    else conversation_history a.
Proof.
  unfold add_conversation. now destruct (db_commit db (conversation_history a) row).
Qed.

Lemma add_conversation_frame row a :
  world (add_conversation db row a) = world a
  /\ memory_store (add_conversation db row a) = memory_store a.
Proof.
  unfold add_conversation.
  now destruct (db_commit db (conversation_history a) row).
Qed.

Lemma add_conversation_rows trigger row a :
  rows_of trigger [row] ->
  exists rows,
    conversation_history (add_conversation db row a)
    = (conversation_history a ++ rows)%list
    /\ (List.length rows <= 1)%nat /\ rows_of trigger rows.
Proof.
  intros H. rewrite add_conversation_history.
  destruct (db_commit db (conversation_history a) row).
  - exists [row]. cbn. auto.
  - exists []. rewrite app_nil_r. cbn. split; [reflexivity|]. split; [lia|constructor].
Qed.

Lemma run_row_of trigger result : rows_of trigger [run_row trigger result].
Proof. repeat constructor. Qed.

Lemma error_row_of trigger e : rows_of trigger [error_row py trigger e].
Proof. repeat constructor. Qed.

(** What the [try] block leaves behind: at most the row of the run. *)
Lemma webhook_body_rows trigger a r a' :
  webhook_body py env db limit trigger a = (r, a') ->
  exists rows,
    conversation_history a' = (conversation_history a ++ rows)%list
    /\ (List.length rows <= 1)%nat /\ rows_of trigger rows.
Proof.
  assert (None_ : exists rows,
             conversation_history a = (conversation_history a ++ rows)%list
             /\ (List.length rows <= 1)%nat /\ rows_of trigger rows).
  { exists []. rewrite app_nil_r. cbn. split; [reflexivity|]. split; [lia|constructor]. }
  unfold webhook_body, get_recent_conversations.
  destruct (Memory.get_context (memory_store a)) as [context|e];
    [|intros H; inversion H; subst; exact None_].
  destruct (db_query db (conversation_history a) 5) as [recent|e];
    [|intros H; inversion H; subst; exact None_].
  destruct (run py env limit _ (world a)) as [[result|e] w];
    [|intros H; inversion H; subst; exact None_].
  pose proof (@add_conversation_rows trigger (run_row trigger result)
                (with_world a w) (run_row_of trigger result)) as R.
  cbn [with_world conversation_history] in R.
  destruct (trigger_context trigger) as [[|item items]|].
  - intros H; inversion H; subst. exact R.
  - destruct (update_all db (item :: items) _) as [[u|e] a2] eqn:U;
      intros H; inversion H; subst;
      apply update_all_frame in U; destruct U as [U _]; rewrite U; exact R.
  - intros H; inversion H; subst. exact R.
Qed.

End WebhookFacts.

(** X20. When the memory is usable and the history can be queried, the
    webhook answers with status "success" and the dict [run] returned,
    also when that dict has status "error"; the row it stores has status
    "error" exactly when the graph raised. *)
Theorem webhook_answers_success :
  forall py env db limit clock trigger a d recent,
    Memory.memory (memory_store a) = JObj d ->
    context_usable d ->
    db_query db (conversation_history a) 5 = Ok recent ->
    exists context result resp a',
      Memory.get_context (memory_store a) = Ok context
      /\ handle_webhook py env db limit clock trigger a = (resp, a')
      /\ run py env limit (task_description py trigger recent context) (world a)
         = (Ok result, world a')
      /\ response_status resp = "success"
      /\ response_result resp = Some result
      /\ response_error resp = None
      /\ conversation_history a'
         = (if db_commit db (conversation_history a) (run_row trigger result)
            then (conversation_history a ++ [run_row trigger result])%list
            else conversation_history a)
      /\ (row_status (run_row trigger result) = "error"
          <-> exists e,
                ainvoke py env limit
                  (initial_state (task_description py trigger recent context))
                  (world a) = (Raise e, world a')).
Proof.
  intros py env db limit clock trigger a d recent Hm Hc Hq.
  assert (exists context, Memory.get_context (memory_store a) = Ok context)
    as (context & Hg).
  { unfold Memory.get_context. rewrite Hm. cbn.
    destruct (lookup "context" d); eexists; reflexivity. }
  destruct (run_returns py env limit
              (task_description py trigger recent context) (world a))
    as (result & w' & Hr & Hs).
  set (a1 := add_conversation db (run_row trigger result) (with_world a w')).
  assert (H1 : Memory.memory (memory_store a1) = JObj d).
  { unfold a1. rewrite (proj2 (add_conversation_frame db _ _)). exact Hm. }
  assert (exists a', webhook_body py env db limit trigger a = (Ok result, a')
                     /\ conversation_history a' = conversation_history a1
                     /\ world a' = w') as (a' & Hb & Hh & Hw).
  { unfold webhook_body, get_recent_conversations. rewrite Hg, Hq, Hr.
    fold a1.
    assert (W1 : world a1 = w').
    { unfold a1. now rewrite (proj1 (add_conversation_frame db _ _)). }
    destruct (trigger_context trigger) as [[|item items]|].
    - exists a1. auto.
    - destruct (@update_all_usable db (item :: items) a1 d H1 Hc) as (a2 & U).
      rewrite U. exists a2. split; [reflexivity|].
      apply update_all_frame in U. destruct U as [U1 U2].
      split; [exact U1 | now rewrite U2].
    - exists a1. auto. }
  exists context, result. unfold handle_webhook. rewrite Hb.
  eexists; exists a'. split; [exact Hg|]. split; [reflexivity|].
  rewrite Hw. split; [exact Hr|]. cbn [response_status response_result response_error].
  repeat split; try reflexivity.
  - rewrite Hh. unfold a1. rewrite add_conversation_history. reflexivity.
  - intros E. cbn in E.
    destruct Hs as [[S _]|[_ R]]; [|exact R].
    rewrite S in E. discriminate E.
  - intros (e & R). cbn.
    destruct Hs as [[_ (stf & O)]|[S _]].
    + rewrite O in R. discriminate R.
    + now rewrite S.
Qed.

Lemma webhook_answers_success_witness :
  exists result resp a',
    handle_webhook demo_python long_plan_env working_storage 25 scenario_clock
      (scenario_trigger (Some [("owner", JStr "ops")]))
      (started_on Memory.empty_memory) = (resp, a')
    /\ response_status resp = "success"
    /\ response_result resp = Some result
    /\ status result = "error"
    /\ map row_status (conversation_history a') = ["error"].
Proof.
  destruct (@webhook_answers_success demo_python long_plan_env working_storage 25
              scenario_clock (scenario_trigger (Some [("owner", JStr "ops")]))
              (started_on Memory.empty_memory) _ (JArr [])
              eq_refl (or_intror (ex_intro _ [] eq_refl)) eq_refl)
    as (context & result & resp & a' & Hg & Hh & Hr & Hs & Hres & _ & Hc & _).
  exists result, resp, a'.
  vm_compute in Hg. injection Hg as <-.
  vm_compute in Hr. injection Hr as <- _.
  split; [exact Hh|]. split; [exact Hs|]. split; [exact Hres|].
  split; [reflexivity|]. rewrite Hc. reflexivity.
Defined.

(** X21. When the loaded memory is not a dict, the webhook fails before
    anything else happens: it answers with status "error", makes no call
    of the model or of the tool service, leaves the memory as it is, and
    stores at most the row of the error. *)
Theorem webhook_unusable_memory :
  forall py env db limit clock trigger a,
    (forall d, Memory.memory (memory_store a) <> JObj d) ->
    exists resp a',
      handle_webhook py env db limit clock trigger a = (resp, a')
      /\ response_status resp = "error"
      /\ response_result resp = None
      /\ response_error resp
         = Some (str_exn py (AttributeError (Memory.memory (memory_store a)) "get"))
      /\ world a' = world a
      /\ memory_store a' = memory_store a
      /\ conversation_history a'
         = (let row := error_row py trigger
                         (AttributeError (Memory.memory (memory_store a)) "get") in
            if db_commit db (conversation_history a) row
            then (conversation_history a ++ [row])%list
            else conversation_history a).
Proof.
  intros py env db limit clock trigger a Hm.
  assert (Hg : Memory.get_context (memory_store a)
               = Raise (AttributeError (Memory.memory (memory_store a)) "get")).
  { unfold Memory.get_context.
    destruct (Memory.memory (memory_store a)) eqn:E; try reflexivity.
    now destruct (Hm fields). }
  unfold handle_webhook, webhook_body. rewrite Hg.
  eexists; eexists. split; [reflexivity|].
  cbn [response_status response_result response_error].
  repeat split; try reflexivity.
  - apply add_conversation_frame.
  - apply add_conversation_frame.
  - cbv zeta. apply add_conversation_history.
Qed.

Lemma webhook_unusable_memory_witness :
  exists resp a',
    handle_webhook demo_python list_containers_env working_storage 25 scenario_clock
      (scenario_trigger None) (started_on (JArr [])) = (resp, a')
    /\ response_status resp = "error"
    /\ world a' = world0
    /\ map row_status (conversation_history a') = ["error"].
Proof.
  destruct (@webhook_unusable_memory demo_python list_containers_env working_storage
              25 scenario_clock (scenario_trigger None) (started_on (JArr [])))
    as (resp & a' & Hh & Hs & _ & _ & Hw & _ & Hc).
  - intros d E. discriminate E.
  - exists resp, a'. split; [exact Hh|]. split; [exact Hs|].
    split; [exact Hw|]. rewrite Hc. reflexivity.
Defined.

(** X22. When the memory's context is not a dict and the trigger carries
    a context, the run is performed and its row stored, then updating the
    context fails: the webhook answers with status "error" without the
    run's result and stores a second row, with status "error", for the
    same trigger. *)
Theorem webhook_records_twice :
  forall py env db limit clock trigger a d v key value items recent,
    Memory.memory (memory_store a) = JObj d ->
    lookup "context" d = Some v ->
    (forall c, v <> JObj c) ->
    trigger_context trigger = Some ((key, value) :: items) ->
    db_query db (conversation_history a) 5 = Ok recent ->
    (forall rows row, db_commit db rows row = true) ->
    exists result resp a',
      handle_webhook py env db limit clock trigger a = (resp, a')
      /\ run py env limit (task_description py trigger recent v) (world a)
         = (Ok result, world a')
      /\ response_status resp = "error"
      /\ response_result resp = None
      /\ response_error resp = Some (str_exn py (TypeError (BadIndex v)))
      /\ memory_store a' = memory_store a
      /\ conversation_history a'
         = (conversation_history a
              ++ [run_row trigger result;
                  error_row py trigger (TypeError (BadIndex v))])%list.
Proof.
  intros py env db limit clock trigger a d v key value items recent
         Hm Hl Hv Ht Hq Hcommit.
  assert (Hg : Memory.get_context (memory_store a) = Ok v).
  { unfold Memory.get_context. rewrite Hm. cbn. now rewrite Hl. }
  destruct (run_returns py env limit (task_description py trigger recent v) (world a))
    as (result & w' & Hr & _).
  set (a1 := add_conversation db (run_row trigger result) (with_world a w')).
  assert (H1 : Memory.memory (memory_store a1) = JObj d).
  { unfold a1. rewrite (proj2 (add_conversation_frame db _ _)). exact Hm. }
  assert (Hb : webhook_body py env db limit trigger a
               = (Raise (TypeError (BadIndex v)), a1)).
  { unfold webhook_body, get_recent_conversations. rewrite Hg, Hq, Hr, Ht.
    fold a1. now rewrite (@update_all_unusable db key value items a1 d v H1 Hl Hv). }
  exists result. unfold handle_webhook. rewrite Hb.
  eexists; eexists. split; [reflexivity|].
  cbn [response_status response_result response_error].
  split.
  { rewrite (proj1 (add_conversation_frame db _ _)). unfold a1.
    rewrite (proj1 (add_conversation_frame db _ _)). exact Hr. }
  repeat split; try reflexivity.
  - rewrite (proj2 (add_conversation_frame db _ _)). unfold a1.
    now rewrite (proj2 (add_conversation_frame db _ _)).
  - rewrite add_conversation_history, Hcommit. unfold a1.
    rewrite add_conversation_history, Hcommit. cbn [with_world conversation_history].
    now rewrite <- app_assoc.
Qed.

Lemma webhook_records_twice_witness :
  exists result resp a',
    handle_webhook demo_python list_containers_env working_storage 25 scenario_clock
      (scenario_trigger (Some [("owner", JStr "ops")]))
      (started_on (JObj [("facts", JArr []); ("context", JArr [])])) = (resp, a')
    /\ response_status resp = "error"
    /\ status result = "success"
    /\ map row_status (conversation_history a') = ["success"; "error"].
Proof.
  destruct (@webhook_records_twice demo_python list_containers_env working_storage
              25 scenario_clock (scenario_trigger (Some [("owner", JStr "ops")]))
              (started_on (JObj [("facts", JArr []); ("context", JArr [])]))
              _ (JArr []) "owner" (JStr "ops") [] (JArr [])
              eq_refl eq_refl)
    as (result & resp & a' & Hh & Hr & Hs & _ & _ & _ & Hc).
  - intros c E. discriminate E.
  - reflexivity.
  - reflexivity.
  - reflexivity.
  - exists result, resp, a'.
    vm_compute in Hr. injection Hr as <- _.
    split; [exact Hh|]. split; [exact Hs|]. split; [reflexivity|].
    rewrite Hc. reflexivity.
Defined.

(** X23. The conversation history only grows: whatever the trigger and
    the state, a call of the webhook keeps the rows that were there and
    adds at most two, each for this trigger; the response carries the
    trigger's id, and either status "success" with a result and no
    error, or status "error" with an error and no result. *)
Theorem webhook_history_append_only :
  forall py env db limit clock trigger a,
  exists rows,
    conversation_history (snd (handle_webhook py env db limit clock trigger a))
    = (conversation_history a ++ rows)%list
    /\ (List.length rows <= 2)%nat
    /\ rows_of trigger rows
    /\ response_trigger_id (fst (handle_webhook py env db limit clock trigger a))
       = trigger_id trigger
    /\ let resp := fst (handle_webhook py env db limit clock trigger a) in
       (response_status resp = "success"
        /\ response_result resp <> None /\ response_error resp = None)
       \/ (response_status resp = "error"
           /\ response_result resp = None /\ response_error resp <> None).
Proof.
  intros py env db limit clock trigger a. unfold handle_webhook.
  destruct (webhook_body py env db limit trigger a) as [[result|e] a'] eqn:B;
    apply webhook_body_rows in B; destruct B as (rows & Hh & Hn & Hr);
    cbn [fst snd].
  - exists rows. split; [exact Hh|]. split; [lia|]. split; [exact Hr|].
    split; [reflexivity|]. left. cbn. repeat split. intros E; discriminate E.
  - destruct (@add_conversation_rows db trigger (error_row py trigger e) a'
                (error_row_of py trigger e)) as (rows' & Hh' & Hn' & Hr').
    exists (rows ++ rows')%list. rewrite Hh', Hh, <- app_assoc.
    split; [reflexivity|]. split; [rewrite length_app; lia|].
    split; [apply Forall_app; now split|].
    split; [reflexivity|]. right. cbn. repeat split. intros E; discriminate E.
Qed.
